(** * College booking backend: review aggregation, scoring and validation

    A shallow embedding of the review subsystem of the backend:

    - [routes/reviews.js]: [updateCollegeRatings] and the review handlers
      (create, update, soft delete, helpful vote, report, moderation);
    - [utils/reviewHelpers.js]: [calculateReviewScore],
      [getReviewSentiment], [validateReviewContent];
    - [models/Review.js] and the rating fragment of [models/College.js].

    Modelling conventions.

    - A JavaScript Number is an exact rational ([Q]); the binary64 rounding
      of each operation is not modelled.  Counters that the handlers only
      move by one ([helpful.count], [reported.count]) are integers ([Z]).
    - A JavaScript string is its list of UTF-16 code units ([list N]).
    - The database is a record of two collections; every [await] is a
      sequential step on that record, and a handler is a function from the
      database before the request to the response and the database after.
    - A thrown exception is the [Throw] case of [completion]; in a handler
      the [try]/[catch] turns it into the 500 response.
    - Left out: the fields no modelled code reads ([graduationYear],
      [major], [verified], the timestamps), [populate], and the [data]
      member of the responses. *)

From Stdlib Require Import QArith Qround Qminmax ZArith NArith List String Ascii Lia Lqa Bool.
From Stdlib Require Import DecimalString DecimalNat DecimalN.
From stdpp Require Import gmap.
Import ListNotations.

Local Open Scope Q_scope.

(** ** JavaScript built-ins used by the code *)

Module JS.

(** [Math.round]: the integer nearest to [x], a tie going up. *)
Definition Math_round (x : Q) : Q := inject_Z (Qfloor (x + (1 # 2))).

Definition Math_min (x y : Q) : Q := Qmin x y.

Definition Math_max (x y : Q) : Q := Qmax x y.

(** The [length] of an array or string as a Number. *)
Definition len {A} (l : list A) : Q := inject_Z (Z.of_nat (length l)).

(** Outcome of evaluating code that may throw. *)
Inductive error : Type :=
| TypeError
| ValidationError
| DuplicateKeyError.

Inductive completion (A : Type) : Type :=
| Normal (a : A)
| Throw (e : error).
Arguments Normal {A} a.
Arguments Throw {A} e.

#[global] Instance completion_ret : MRet completion := fun A a => Normal a.

#[global] Instance completion_bind : MBind completion := fun A B k m =>
  match m with
  | Normal a => k a
  | Throw e => Throw e
  end.

(** Reading property [p] of [o]: a [TypeError] when [o] is [undefined]. *)
Definition get {A B} (o : option A) (p : A -> B) : completion B :=
  match o with
  | Some a => Normal (p a)
  | None => Throw TypeError
  end.

End JS.

Import JS.

(** ** Data model: models/Review.js and models/College.js *)

(** An [ObjectId] is identified with a natural number. *)
Abbreviation ObjectId := N (only parsing).

Record Ratings := mkRatings {
  overall : Q;
  academics : Q;
  campusLife : Q;
  facilities : Q;
  location : Q;
  value : Q
}.

(** The shape of [helpful] and [reported]. *)
Record Votes := mkVotes {
  count : Z;
  users : list ObjectId
}.

Definition jsstring := list N.

Record Review := mkReview {
  _id : ObjectId;
  user : ObjectId;
  college : ObjectId;
  ratings : Ratings;
  title : jsstring;
  content : jsstring;
  pros : list jsstring;
  cons : list jsstring;
  wouldRecommend : bool;
  studentType : jsstring;
  helpful : Votes;
  reported : Votes;
  isActive : bool
}.

Record RatingBreakdown := mkBreakdown {
  rb_academics : Q;
  rb_campusLife : Q;
  rb_facilities : Q;
  rb_location : Q;
  rb_value : Q
}.

(** The [reviews] fragment of a college document. *)
Record RatingSummary := mkSummary {
  averageRating : Q;
  totalReviews : nat;
  ratingBreakdown : RatingBreakdown
}.

Record College := mkCollege {
  c_isActive : bool;
  reviews : RatingSummary
}.

Record Db := mkDb {
  Reviews : list Review;
  Colleges : gmap ObjectId College
}.

(** ** Strings: code units, character classes and the three spam patterns *)

Module Str.

(** The code units of an ASCII literal. *)
Definition lit (s : string) : jsstring :=
  map N_of_ascii (list_ascii_of_string s).

Definition in_range (lo hi c : N) : bool := ((lo <=? c) && (c <=? hi))%N.

Definition is_line_terminator (c : N) : bool :=
  existsb (N.eqb c) [10; 13; 8232; 8233]%N.

(** The class [\s]: white space and line terminators. *)
Definition is_whitespace (c : N) : bool :=
  existsb (N.eqb c) [9; 11; 12; 32; 160; 5760; 8239; 8287; 12288; 65279]%N
  || in_range 8192 8202 c
  || is_line_terminator c.

(** [s.split(/\s+/)]: the pieces between maximal runs of white space,
    with an empty piece before a leading run and after a trailing one. *)
Fixpoint split_whitespace (s : jsstring) : list jsstring :=
  match s with
  | [] => [[]]
  | c :: s' =>
      let rest := split_whitespace s' in
      if is_whitespace c then
        match s' with
        | c' :: _ => if is_whitespace c' then rest else [] :: rest
        | [] => [] :: rest
        end
      else
        match rest with
        | w :: ws => (c :: w) :: ws
        | [] => [[c]]
        end
  end.

Definition to_upper_ascii (c : N) : N :=
  if in_range 97 122 c then (c - 32)%N else c.

(** [toLowerCase] on one code unit.  Outside ASCII only the two code
    points whose lower case is an ASCII letter are mapped (U+0130 and the
    Kelvin sign); the other letters have lower-case forms outside ASCII
    and are left as they are. *)
Definition to_lower_unit (c : N) : jsstring :=
  if in_range 65 90 c then [(c + 32)%N]
  else if (c =? 304)%N then [105; 775]%N
  else if (c =? 8490)%N then [107%N]
  else [c].

Definition toLowerCase (s : jsstring) : jsstring := flat_map to_lower_unit s.

Fixpoint starts_with (eqc : N -> N -> bool) (w s : jsstring) : bool :=
  match w, s with
  | [], _ => true
  | a :: w', b :: s' => eqc a b && starts_with eqc w' s'
  | _ :: _, [] => false
  end.

(** [s.includes(w)] *)
Fixpoint includes (w s : jsstring) : bool :=
  starts_with N.eqb w s ||
  match s with
  | [] => false
  | _ :: s' => includes w s'
  end.

(** Equality of code units under the [i] flag, for ASCII patterns. *)
Definition eq_ignore_case (a b : N) : bool :=
  (to_upper_ascii a =? to_upper_ascii b)%N.

(** [/(.)\1{4,}/]: a code unit other than a line terminator followed by
    four more copies of itself. *)
Fixpoint repeated_characters (s : jsstring) : bool :=
  match s with
  | [] => false
  | c :: s' =>
      (negb (is_line_terminator c) && starts_with N.eqb (repeat c 4) s')
      || repeated_characters s'
  end.

(** [/^[A-Z\s!]{20,}$/]: the whole string, at least 20 code units, each
    a capital letter, white space or an exclamation mark. *)
Definition all_caps (s : jsstring) : bool :=
  (20 <=? length s)%nat
  && forallb (fun c => in_range 65 90 c || is_whitespace c || (c =? 33)%N) s.

(** Some word of [ws] matches at the start of [s]; [k] runs on what
    follows the word. *)
Definition alternation (ws : list string) (k : jsstring -> bool) (s : jsstring) : bool :=
  existsb (fun w => starts_with eq_ignore_case (lit w) s && k (skipn (length (lit w)) s)) ws.

(** [.{0,n}] followed by the continuation [k]. *)
Fixpoint up_to_any (n : nat) (k : jsstring -> bool) (s : jsstring) : bool :=
  k s ||
  match n, s with
  | S n', c :: s' => negb (is_line_terminator c) && up_to_any n' k s'
  | _, _ => false
  end.

(** [/(buy|sell|cheap|discount|offer|deal).{0,20}(now|today|click)/i],
    tried at every position. *)
Fixpoint promotional (s : jsstring) : bool :=
  alternation ["buy"; "sell"; "cheap"; "discount"; "offer"; "deal"]%string
    (up_to_any 20 (alternation ["now"; "today"; "click"]%string (fun _ => true))) s
  ||
  match s with
  | [] => false
  | _ :: s' => promotional s'
  end.

End Str.

(** ** utils/reviewHelpers.js *)

Module reviewHelpers.

(** The argument of the helpers is a plain object: [ratings], [content]
    and [wouldRecommend] are read unguarded, and [pros], [cons],
    [helpful] and [reported] may be [undefined]. *)
Record engagement := mkEngagement { count : Q }.

Record review := mkReview {
  ratings : Ratings;
  helpful : option engagement;
  reported : option engagement;
  content : jsstring;
  pros : option (list jsstring);
  cons : option (list jsstring);
  wouldRecommend : bool
}.

(** [a?.length || 0] *)
Definition length_or_0 (a : option (list jsstring)) : Q :=
  match a with
  | Some l => len l
  | None => 0
  end.

Definition calculateReviewScore (review : review) : completion Q :=
  let ratings := ratings review in
  let ratingScore :=
    overall ratings * (3 # 10) +
    academics ratings * (2 # 10) +
    campusLife ratings * (15 # 100) +
    facilities ratings * (15 # 100) +
    location ratings * (1 # 10) +
    value ratings * (1 # 10) in
  helpful_count ← get (helpful review) count;
  let helpfulBoost := Math_min (helpful_count * (1 # 10)) 2 in
  reported_count ← get (reported review) count;
  let reportPenalty := Math_min (reported_count * (5 # 10)) 3 in
  let contentLength := len (content review) in
  let prosConsCount := length_or_0 (pros review) + length_or_0 (cons review) in
  let contentScore := Math_min (contentLength / 200 + prosConsCount * (2 # 10)) 1 in
  let finalScore :=
    Math_max 0 (ratingScore + helpfulBoost - reportPenalty + contentScore) in
  mret (Math_round (finalScore * 10) / 10).

Definition getReviewSentiment (review : review) : string :=
  let ratings := ratings review in
  let averageRating :=
    (overall ratings + academics ratings + campusLife ratings
     + facilities ratings + location ratings + value ratings) / 6 in
  let prosCount := length_or_0 (pros review) in
  let consCount := length_or_0 (cons review) in
  if Qle_bool 4 averageRating && wouldRecommend review && negb (Qle_bool prosCount consCount)
  then "positive"%string
  else if Qle_bool averageRating 2 && negb (wouldRecommend review)
          && negb (Qle_bool consCount prosCount)
  then "negative"%string
  else "neutral"%string.

Record validation := mkValidation {
  isValid : bool;
  errors : list string
}.

Definition spamPatterns : list (jsstring -> bool) :=
  [Str.repeated_characters; Str.all_caps; Str.promotional].

Definition profanityWords : list string := ["badword1"; "badword2"]%string.

Definition validateReviewContent (content title : jsstring) : validation :=
  let errors := [] in
  let errors :=
    fold_left
      (fun errors pattern =>
         if pattern content || pattern title
         then errors ++ ["Content appears to be spam"%string]
         else errors)
      spamPatterns errors in
  let words :=
    List.filter (fun word => (2 <? length word)%nat) (Str.split_whitespace content) in
  let errors :=
    if (length words <? 20)%nat
    then errors ++ ["Review must contain at least 20 meaningful words"%string]
    else errors in
  let hasProfanity :=
    existsb
      (fun word =>
         Str.includes (Str.lit word) (Str.toLowerCase content)
         || Str.includes (Str.lit word) (Str.toLowerCase title))
      profanityWords in
  let errors :=
    if hasProfanity
    then errors ++ ["Review contains inappropriate language"%string]
    else errors in
  {| isValid := (length errors =? 0)%nat; errors := errors |}.

End reviewHelpers.

(** ** The persistence layer as seen by routes/reviews.js *)

(** An awaited operation: it reads and writes the database and may throw.
    The database reached when it throws is kept. *)
Definition Async (A : Type) : Type := Db -> completion A * Db.

#[global] Instance Async_ret : MRet Async := fun A a db => (Normal a, db).

#[global] Instance Async_bind : MBind Async := fun A B k m db =>
  match m db with
  | (Normal a, db') => k a db'
  | (Throw e, db') => (Throw e, db')
  end.

Definition set_Reviews (rs : list Review) (db : Db) : Db :=
  {| Reviews := rs; Colleges := Colleges db |}.

Definition set_Colleges (cs : gmap ObjectId College) (db : Db) : Db :=
  {| Reviews := Reviews db; Colleges := cs |}.

(** [Review.find(query)] *)
Definition Review_find (query : Review -> bool) : Async (list Review) :=
  fun db => (Normal (List.filter query (Reviews db)), db).

(** [Review.findOne(query)], [Review.findById(id)] *)
Definition Review_findOne (query : Review -> bool) : Async (option Review) :=
  fun db => (Normal (List.find query (Reviews db)), db).

Definition Review_findById (id : ObjectId) : Async (option Review) :=
  Review_findOne (fun r => (_id r =? id)%N).

(** [College.findById(id)] *)
Definition College_findById (id : ObjectId) : Async (option College) :=
  fun db => (Normal (Colleges db !! id), db).

(** [College.findByIdAndUpdate(collegeId, { "reviews.averageRating": ..,
    "reviews.totalReviews": .., "reviews.ratingBreakdown": .. })]:
    the three paths of the fragment are overwritten; an unknown id changes
    nothing. *)
Definition College_findByIdAndUpdate (collegeId : ObjectId) (s : RatingSummary) : Async unit :=
  fun db =>
    (Normal tt,
     set_Colleges
       (alter (fun c => {| c_isActive := c_isActive c; reviews := s |}) collegeId (Colleges db))
       db).

(** The validators of the review schema ([required], [min]/[max],
    [maxlength], [enum]); [save] runs them on the whole document. *)
Definition rating_ok (x : Q) : bool := Qle_bool 1 x && Qle_bool x 5.

Definition studentTypes : list string := ["current"; "alumni"; "parent"; "faculty"]%string.

Definition validateSync (r : Review) : bool :=
  let rt := ratings r in
  rating_ok (overall rt) && rating_ok (academics rt) && rating_ok (campusLife rt)
  && rating_ok (facilities rt) && rating_ok (location rt) && rating_ok (value rt)
  && (0 <? length (title r))%nat && (length (title r) <=? 100)%nat
  && (0 <? length (content r))%nat && (length (content r) <=? 2000)%nat
  && existsb (fun t => Str.starts_with N.eqb (Str.lit t) (studentType r)
                       && (length (Str.lit t) =? length (studentType r))%nat) studentTypes.

(** The unique index on (user, college). *)
Definition same_user_college (r r' : Review) : bool :=
  (user r' =? user r)%N && (college r' =? college r)%N.

(** [review.save()] of a document made by [new Review(..)]. *)
Definition save_new (r : Review) : Async unit :=
  fun db =>
    if negb (validateSync r) then (Throw ValidationError, db)
    else if existsb (same_user_college r) (Reviews db) then (Throw DuplicateKeyError, db)
    else (Normal tt, set_Reviews (Reviews db ++ [r]) db).

(** [review.save()] of a document loaded by a query. *)
Definition save (r : Review) : Async unit :=
  fun db =>
    if negb (validateSync r) then (Throw ValidationError, db)
    else
      (Normal tt,
       set_Reviews (map (fun r' => if (_id r' =? _id r)%N then r else r') (Reviews db)) db).

(** The [_id] given to a new document. *)
Definition new_id (rs : list Review) : ObjectId :=
  N.succ (fold_right N.max 0%N (map _id rs)).

(** ** routes/reviews.js: updateCollegeRatings *)

(** [reviews.reduce((sum, review) => sum + review.ratings.f, 0)] *)
Definition reduce_sum (f : Ratings -> Q) (rs : list Review) : Q :=
  fold_left (fun sum review => sum + f (ratings review)) rs 0.

Definition updateCollegeRatings (collegeId : ObjectId) : Async unit :=
  reviews ← Review_find (fun r => (college r =? collegeId)%N && Bool.eqb (isActive r) true);
  if (length reviews =? 0)%nat then
    College_findByIdAndUpdate collegeId
      {| averageRating := 0;
         totalReviews := 0;
         ratingBreakdown :=
           {| rb_academics := 0;
              rb_campusLife := 0;
              rb_facilities := 0;
              rb_location := 0;
              rb_value := 0 |} |}
  else
    let totalReviews := length reviews in
    let averageRating := reduce_sum overall reviews / len reviews in
    let ratingBreakdown :=
      {| rb_academics := reduce_sum academics reviews / len reviews;
         rb_campusLife := reduce_sum campusLife reviews / len reviews;
         rb_facilities := reduce_sum facilities reviews / len reviews;
         rb_location := reduce_sum location reviews / len reviews;
         rb_value := reduce_sum value reviews / len reviews |} in
    College_findByIdAndUpdate collegeId
      {| averageRating := Math_round (averageRating * 10) / 10;
         totalReviews := totalReviews;
         ratingBreakdown := ratingBreakdown |}.

(** ** routes/reviews.js: the handlers *)

(** What a handler sends: the status and the JSON body (the [data] member
    of a success body is left out). *)
Inductive Json : Type :=
| J_errors (errors : list string)
| J_message (message : string)
| J_success (message : string).

Record Response := Res { status : nat; json : Json }.

(** [try { .. } catch (error) { res.status(500).json(..) }] *)
Definition try_catch (m : Async Response) (db : Db) : Response * Db :=
  match m db with
  | (Normal res, db') => (res, db')
  | (Throw _, db') => (Res 500 (J_message "Server error"), db')
  end.

(** The body of [POST /api/reviews].  Besides the validated members it may
    carry any other path of the schema, which [...req.body] copies into the
    new document. *)
Record CreateBody := mkCreateBody {
  b_college : ObjectId;
  b_title : jsstring;
  b_content : jsstring;
  b_ratings : Ratings;
  b_studentType : jsstring;
  b_wouldRecommend : bool;
  b_pros : option (list jsstring);
  b_cons : option (list jsstring);
  b_helpful : option Votes;
  b_reported : option Votes;
  b_isActive : option bool
}.

(** A request after [auth] and the validation chains have run:
    [validationResult(req)] reads the errors they left on it. *)
Record CreateRequest := mkCreateRequest {
  validationResult : list string;
  req_user_id : ObjectId;
  req_body : CreateBody
}.

(** [new Review({ ...req.body, user: req.user.id })], with the defaults of
    the schema for the members the body does not give. *)
Definition new_Review (b : CreateBody) (uid : ObjectId) : Async Review :=
  fun db =>
    (Normal
       {| _id := new_id (Reviews db);
          user := uid;
          college := b_college b;
          ratings := b_ratings b;
          title := b_title b;
          content := b_content b;
          pros := default [] (b_pros b);
          cons := default [] (b_cons b);
          wouldRecommend := b_wouldRecommend b;
          studentType := b_studentType b;
          helpful := default {| count := 0; users := [] |} (b_helpful b);
          reported := default {| count := 0; users := [] |} (b_reported b);
          isActive := default true (b_isActive b) |},
     db).

Definition createReview (req : CreateRequest) : Db -> Response * Db :=
  try_catch (
    let errors := validationResult req in
    if negb (length errors =? 0)%nat then
      mret (Res 400 (J_errors errors))
    else
      let collegeId := b_college (req_body req) in
      college_doc ← College_findById collegeId;
      match college_doc with
      | None => mret (Res 404 (J_message "College not found"))
      | Some _ =>
          existingReview ←
            Review_findOne
              (fun r => (user r =? req_user_id req)%N && (college r =? collegeId)%N);
          match existingReview with
          | Some _ => mret (Res 400 (J_message "You have already reviewed this college"))
          | None =>
              review ← new_Review (req_body req) (req_user_id req);
              _ ← save_new review;
              _ ← updateCollegeRatings collegeId;
              populatedReview ← Review_findById (_id review);
              mret (Res 201 (J_success "Review created successfully"))
          end
      end).

(** The members of the body of [PUT /api/reviews/:id] that the handler
    copies ([graduationYear] and [major] are not modelled). *)
Record UpdateBody := mkUpdateBody {
  u_title : option jsstring;
  u_content : option jsstring;
  u_ratings : option Ratings;
  u_pros : option (list jsstring);
  u_cons : option (list jsstring);
  u_wouldRecommend : option bool
}.

(** [allowedUpdates.forEach(..)]: a member of the body that is not
    [undefined] replaces the field. *)
Definition apply_updates (b : UpdateBody) (r : Review) : Review :=
  {| _id := _id r;
     user := user r;
     college := college r;
     ratings := default (ratings r) (u_ratings b);
     title := default (title r) (u_title b);
     content := default (content r) (u_content b);
     pros := default (pros r) (u_pros b);
     cons := default (cons r) (u_cons b);
     wouldRecommend := default (wouldRecommend r) (u_wouldRecommend b);
     studentType := studentType r;
     helpful := helpful r;
     reported := reported r;
     isActive := isActive r |}.

Definition set_isActive (b : bool) (r : Review) : Review :=
  {| _id := _id r; user := user r; college := college r; ratings := ratings r;
     title := title r; content := content r; pros := pros r; cons := cons r;
     wouldRecommend := wouldRecommend r; studentType := studentType r;
     helpful := helpful r; reported := reported r; isActive := b |}.

Definition set_helpful (v : Votes) (r : Review) : Review :=
  {| _id := _id r; user := user r; college := college r; ratings := ratings r;
     title := title r; content := content r; pros := pros r; cons := cons r;
     wouldRecommend := wouldRecommend r; studentType := studentType r;
     helpful := v; reported := reported r; isActive := isActive r |}.

Definition set_reported (v : Votes) (r : Review) : Review :=
  {| _id := _id r; user := user r; college := college r; ratings := ratings r;
     title := title r; content := content r; pros := pros r; cons := cons r;
     wouldRecommend := wouldRecommend r; studentType := studentType r;
     helpful := helpful r; reported := v; isActive := isActive r |}.

(** [PUT /api/reviews/:id] *)
Definition updateReview (id uid : ObjectId) (body : UpdateBody) : Db -> Response * Db :=
  try_catch (
    review ← Review_findOne (fun r => (_id r =? id)%N && (user r =? uid)%N);
    match review with
    | None => mret (Res 404 (J_message "Review not found or unauthorized"))
    | Some review =>
        let review := apply_updates body review in
        _ ← save review;
        _ ← updateCollegeRatings (college review);
        updatedReview ← Review_findById id;
        mret (Res 200 (J_success "Review updated successfully"))
    end).

(** [DELETE /api/reviews/:id] *)
Definition deleteReview (id uid : ObjectId) : Db -> Response * Db :=
  try_catch (
    review ← Review_findOne (fun r => (_id r =? id)%N && (user r =? uid)%N);
    match review with
    | None => mret (Res 404 (J_message "Review not found or unauthorized"))
    | Some review =>
        let collegeId := college review in
        let review := set_isActive false review in
        _ ← save review;
        _ ← updateCollegeRatings collegeId;
        mret (Res 200 (J_success "Review deleted successfully"))
    end).

(** [users.includes(id)] *)
Definition users_includes (us : list ObjectId) (id : ObjectId) : bool :=
  existsb (fun userId => (userId =? id)%N) us.

(** [POST /api/reviews/:id/helpful]; [helpful_flag] is [req.body.helpful]. *)
Definition markHelpful (id uid : ObjectId) (helpful_flag : bool) : Db -> Response * Db :=
  try_catch (
    review ← Review_findOne (fun r => (_id r =? id)%N && Bool.eqb (isActive r) true);
    match review with
    | None => mret (Res 404 (J_message "Review not found"))
    | Some review =>
        let hasVoted := users_includes (users (helpful review)) uid in
        let review :=
          if helpful_flag then
            if negb hasVoted then
              set_helpful
                {| count := (count (helpful review) + 1)%Z;
                   users := users (helpful review) ++ [uid] |} review
            else review
          else
            if hasVoted then
              set_helpful
                {| count := (count (helpful review) - 1)%Z;
                   users :=
                     List.filter (fun userId => negb (userId =? uid)%N)
                       (users (helpful review)) |} review
            else review in
        _ ← save review;
        mret (Res 200 (J_success
                (if helpful_flag then "Review marked as helpful" else "Helpful vote removed")))
    end).

(** [POST /api/reviews/:id/report] *)
Definition reportReview (id uid : ObjectId) : Db -> Response * Db :=
  try_catch (
    review ← Review_findOne (fun r => (_id r =? id)%N && Bool.eqb (isActive r) true);
    match review with
    | None => mret (Res 404 (J_message "Review not found"))
    | Some review =>
        let hasReported := users_includes (users (reported review)) uid in
        if hasReported then
          mret (Res 400 (J_message "You have already reported this review"))
        else
          let review :=
            set_reported
              {| count := (count (reported review) + 1)%Z;
                 users := users (reported review) ++ [uid] |} review in
          _ ← save review;
          mret (Res 200 (J_success "Review reported successfully"))
    end).

(** [POST /api/reviews/:id/moderate] (admin) *)
Definition moderateReview (id : ObjectId) (action : string) : Db -> Response * Db :=
  try_catch (
    review ← Review_findById id;
    match review with
    | None => mret (Res 404 (J_message "Review not found"))
    | Some review =>
        review ←
          (if String.eqb action "remove" then
             let review := set_isActive false review in
             _ ← updateCollegeRatings (college review);
             mret review
           else if String.eqb action "approve" then
             mret (set_reported {| count := 0; users := [] |} review)
           else mret review);
        _ ← save review;
        mret (Res 200 (J_success ("Review " ++ action ++ "d successfully")))
    end).

(** ** The vocabulary of the specification *)

(** The active reviews of a college: [college == collegeId] and
    [isActive == true]. *)
Definition active_reviews (collegeId : ObjectId) (db : Db) : list Review :=
  List.filter (fun r => (college r =? collegeId)%N && isActive r) (Reviews db).

Fixpoint Qsum (xs : list Q) : Q :=
  match xs with
  | [] => 0
  | x :: xs' => x + Qsum xs'
  end.

Definition mean (xs : list Q) : Q := Qsum xs / inject_Z (Z.of_nat (length xs)).

(** The mean of one rating over a list of reviews. *)
Definition mean_rating (f : Ratings -> Q) (rs : list Review) : Q :=
  mean (map (fun r => f (ratings r)) rs).

(** [y] is [x] rounded to one decimal place: a whole number of tenths, at
    most half a tenth away, the tie going up. *)
Definition rounded_to_1_decimal (x y : Q) : Prop :=
  exists k : Z, y == inject_Z k / 10 /\ y - (1 # 20) <= x /\ x < y + (1 # 20).

(** The rating summary of section 4.1 for a set of active reviews. *)
Definition RatingSummary_of (active : list Review) : RatingSummary :=
  match active with
  | [] =>
      {| averageRating := 0; totalReviews := 0;
         ratingBreakdown := mkBreakdown 0 0 0 0 0 |}
  | _ :: _ =>
      {| averageRating := Math_round (mean_rating overall active * 10) / 10;
         totalReviews := length active;
         ratingBreakdown :=
           mkBreakdown (mean_rating academics active) (mean_rating campusLife active)
             (mean_rating facilities active) (mean_rating location active)
             (mean_rating value active) |}
  end.

(** Two summaries hold the same numbers. *)
Definition same_summary (s t : RatingSummary) : Prop :=
  averageRating s == averageRating t
  /\ totalReviews s = totalReviews t
  /\ rb_academics (ratingBreakdown s) == rb_academics (ratingBreakdown t)
  /\ rb_campusLife (ratingBreakdown s) == rb_campusLife (ratingBreakdown t)
  /\ rb_facilities (ratingBreakdown s) == rb_facilities (ratingBreakdown t)
  /\ rb_location (ratingBreakdown s) == rb_location (ratingBreakdown t)
  /\ rb_value (ratingBreakdown s) == rb_value (ratingBreakdown t).

(** The stored summary of a college agrees with its active reviews. *)
Definition summary_in_sync (collegeId : ObjectId) (db : Db) : Prop :=
  exists c, Colleges db !! collegeId = Some c
            /\ same_summary (reviews c) (RatingSummary_of (active_reviews collegeId db)).

(** The score of section 4.2, before the final rounding. *)
Definition scoreReview_unrounded
    (overall academics campusLife facilities location value : Q)
    (helpfulCount reportCount contentLength prosCount consCount : Q) : Q :=
  Qmax 0
    ((3 # 10) * overall + (2 # 10) * academics + (15 # 100) * campusLife
     + (15 # 100) * facilities + (1 # 10) * location + (1 # 10) * value
     + Qmin (helpfulCount * (1 # 10)) 2
     - Qmin (reportCount * (5 # 10)) 3
     + Qmin (contentLength / 200 + (prosCount + consCount) * (2 # 10)) 1).

(** A review object with one counter replaced, the rest held fixed. *)
Definition with_helpfulCount (h : Q) (r : reviewHelpers.review) : reviewHelpers.review :=
  {| reviewHelpers.ratings := reviewHelpers.ratings r;
     reviewHelpers.helpful := Some (reviewHelpers.mkEngagement h);
     reviewHelpers.reported := reviewHelpers.reported r;
     reviewHelpers.content := reviewHelpers.content r;
     reviewHelpers.pros := reviewHelpers.pros r;
     reviewHelpers.cons := reviewHelpers.cons r;
     reviewHelpers.wouldRecommend := reviewHelpers.wouldRecommend r |}.

Definition with_reportCount (n : Q) (r : reviewHelpers.review) : reviewHelpers.review :=
  {| reviewHelpers.ratings := reviewHelpers.ratings r;
     reviewHelpers.helpful := reviewHelpers.helpful r;
     reviewHelpers.reported := Some (reviewHelpers.mkEngagement n);
     reviewHelpers.content := reviewHelpers.content r;
     reviewHelpers.pros := reviewHelpers.pros r;
     reviewHelpers.cons := reviewHelpers.cons r;
     reviewHelpers.wouldRecommend := reviewHelpers.wouldRecommend r |}.

(** A review object with a missing [pros] or [cons] made the empty array. *)
Definition with_empty_defaults (r : reviewHelpers.review) : reviewHelpers.review :=
  {| reviewHelpers.ratings := reviewHelpers.ratings r;
     reviewHelpers.helpful := reviewHelpers.helpful r;
     reviewHelpers.reported := reviewHelpers.reported r;
     reviewHelpers.content := reviewHelpers.content r;
     reviewHelpers.pros := Some (default [] (reviewHelpers.pros r));
     reviewHelpers.cons := Some (default [] (reviewHelpers.cons r));
     reviewHelpers.wouldRecommend := reviewHelpers.wouldRecommend r |}.

(** The number of pros (resp. cons) of a review object. *)
Definition prosCount (r : reviewHelpers.review) : nat :=
  length (default [] (reviewHelpers.pros r)).

Definition consCount (r : reviewHelpers.review) : nat :=
  length (default [] (reviewHelpers.cons r)).

Definition mean_of_six (rt : Ratings) : Q :=
  (overall rt + academics rt + campusLife rt + facilities rt + location rt + value rt) / 6.

(** The tokens of the word-count rule. *)
Definition meaningful_words (content : jsstring) : list jsstring :=
  List.filter (fun word => (2 <? length word)%nat) (Str.split_whitespace content).

Definition too_few_words : string := "Review must contain at least 20 meaningful words".

(** [helpful.count] (resp. [reported.count]) is the size of the voter set. *)
Definition voters (v : Votes) : gset ObjectId := list_to_set (users v).

Definition count_is_size (v : Votes) : Prop := count v = Z.of_nat (size (voters v)).

Definition counts_in_sync (db : Db) : Prop :=
  forall r, In r (Reviews db) -> count_is_size (helpful r) /\ count_is_size (reported r).

(** The summary that [updateCollegeRatings] passes to
    [findByIdAndUpdate] for the list [reviews] it fetched. *)
Definition written_summary (reviews : list Review) : RatingSummary :=
  if (length reviews =? 0)%nat then
    {| averageRating := 0; totalReviews := 0;
       ratingBreakdown := mkBreakdown 0 0 0 0 0 |}
  else
    {| averageRating := Math_round (reduce_sum overall reviews / len reviews * 10) / 10;
       totalReviews := length reviews;
       ratingBreakdown :=
         mkBreakdown (reduce_sum academics reviews / len reviews)
           (reduce_sum campusLife reviews / len reviews)
           (reduce_sum facilities reviews / len reviews)
           (reduce_sum location reviews / len reviews)
           (reduce_sum value reviews / len reviews) |}.

(** The last two steps of [calculateReviewScore]: clamp at 0, then round
    to tenths. *)
Definition clamp_round (x : Q) : Q := Math_round (Math_max 0 x * 10) / 10.

(** ** Sample data for the scenarios *)

Definition sample_review (id uid cid : ObjectId) (stars : Q) (active : bool) : Review :=
  {| _id := id;
     user := uid;
     college := cid;
     ratings := mkRatings stars stars stars stars stars stars;
     title := Str.lit "A fair account";
     content := Str.lit "Good teaching and a lively campus, with housing that is hard to find.";
     pros := [];
     cons := [];
     wouldRecommend := true;
     studentType := Str.lit "current";
     helpful := {| count := 0; users := [] |};
     reported := {| count := 0; users := [] |};
     isActive := active |}.

Definition sample_college : College :=
  {| c_isActive := true;
     reviews := {| averageRating := 0; totalReviews := 0;
                   ratingBreakdown := mkBreakdown 0 0 0 0 0 |} |}.

(** College 1 with active reviews rated 5, 4 and 3, and a deleted one. *)
Definition db_three_reviews : Db :=
  {| Reviews := [sample_review 1 11 1 5 true; sample_review 2 12 1 4 true;
                 sample_review 3 13 1 3 true; sample_review 4 14 1 1 false];
     Colleges := {[ 1%N := sample_college ]} |}.

(** College 1 whose only review is deleted, with a summary left over. *)
Definition db_only_deleted : Db :=
  {| Reviews := [sample_review 4 14 1 2 false];
     Colleges := {[ 1%N := {| c_isActive := true;
                              reviews := {| averageRating := 2; totalReviews := 1;
                                            ratingBreakdown := mkBreakdown 2 2 2 2 2 |} |} ]} |}.

(** Section 8: all ratings 5, 25 helpful votes, no report, a content of
    300 characters, three pros and one con. *)
Definition review_all_fives : reviewHelpers.review :=
  {| reviewHelpers.ratings := mkRatings 5 5 5 5 5 5;
     reviewHelpers.helpful := Some (reviewHelpers.mkEngagement 25);
     reviewHelpers.reported := Some (reviewHelpers.mkEngagement 0);
     reviewHelpers.content := repeat 97%N 300;
     reviewHelpers.pros := Some [Str.lit "teaching"; Str.lit "library"; Str.lit "clubs"];
     reviewHelpers.cons := Some [Str.lit "housing"];
     reviewHelpers.wouldRecommend := true |}.

(** The same review with [helpful] (resp. [reported]) left out. *)
Definition review_without_helpful : reviewHelpers.review :=
  {| reviewHelpers.ratings := mkRatings 5 5 5 5 5 5;
     reviewHelpers.helpful := None;
     reviewHelpers.reported := Some (reviewHelpers.mkEngagement 0);
     reviewHelpers.content := repeat 97%N 300;
     reviewHelpers.pros := Some [Str.lit "teaching"; Str.lit "library"; Str.lit "clubs"];
     reviewHelpers.cons := Some [Str.lit "housing"];
     reviewHelpers.wouldRecommend := true |}.

Definition review_without_reported : reviewHelpers.review :=
  {| reviewHelpers.ratings := mkRatings 5 5 5 5 5 5;
     reviewHelpers.helpful := Some (reviewHelpers.mkEngagement 25);
     reviewHelpers.reported := None;
     reviewHelpers.content := repeat 97%N 300;
     reviewHelpers.pros := Some [Str.lit "teaching"; Str.lit "library"; Str.lit "clubs"];
     reviewHelpers.cons := Some [Str.lit "housing"];
     reviewHelpers.wouldRecommend := true |}.

(** The same review with neither [pros] nor [cons]. *)
Definition review_without_pros_cons : reviewHelpers.review :=
  {| reviewHelpers.ratings := mkRatings 5 5 5 5 5 5;
     reviewHelpers.helpful := Some (reviewHelpers.mkEngagement 25);
     reviewHelpers.reported := Some (reviewHelpers.mkEngagement 0);
     reviewHelpers.content := repeat 97%N 300;
     reviewHelpers.pros := None;
     reviewHelpers.cons := None;
     reviewHelpers.wouldRecommend := true |}.

(** Contents of exactly 19 and exactly 20 words of six letters. *)
Definition nineteen_words : jsstring := concat (repeat (Str.lit "campus ") 19).

Definition twenty_words : jsstring := concat (repeat (Str.lit "campus ") 20).

(** College 1 with one active review rated 4 and the matching summary. *)
Definition college_one_review : College :=
  {| c_isActive := true;
     reviews := {| averageRating := 4; totalReviews := 1;
                   ratingBreakdown := mkBreakdown 4 4 4 4 4 |} |}.

Definition db_one_review : Db :=
  {| Reviews := [sample_review 1 11 1 4 true];
     Colleges := {[ 1%N := college_one_review ]} |}.

(** A well-formed request of user [uid] to review college [cid]. *)
Definition sample_request (uid cid : ObjectId) : CreateRequest :=
  {| validationResult := [];
     req_user_id := uid;
     req_body :=
       {| b_college := cid;
          b_title := Str.lit "Second thoughts";
          b_content := Str.lit "After a year away I would like to describe the college once more.";
          b_ratings := mkRatings 5 5 5 5 5 5;
          b_studentType := Str.lit "alumni";
          b_wouldRecommend := true;
          b_pros := None;
          b_cons := None;
          b_helpful := None;
          b_reported := None;
          b_isActive := None |} |}.

(** ** Further handlers and vocabulary *)

(** [GET /api/reviews/:id]: the review sent as [data] (before [populate]),
    or the error response. *)
Definition getReview (id : ObjectId) (db : Db) : (Review + Response) * Db :=
  match
    (review ← Review_findOne (fun r => (_id r =? id)%N && Bool.eqb (isActive r) true);
     match review with
     | None => mret (inr (Res 404 (J_message "Review not found")))
     | Some review => mret (inl review)
     end) db
  with
  | (Normal res, db') => (res, db')
  | (Throw _, db') => (inr (Res 500 (J_message "Server error")), db')
  end.

(** The document [new Review({ ...req.body, user })] builds, given its
    [_id]. *)
Definition document_of (b : CreateBody) (uid id : ObjectId) : Review :=
  {| _id := id;
     user := uid;
     college := b_college b;
     ratings := b_ratings b;
     title := b_title b;
     content := b_content b;
     pros := default [] (b_pros b);
     cons := default [] (b_cons b);
     wouldRecommend := b_wouldRecommend b;
     studentType := b_studentType b;
     helpful := default {| count := 0; users := [] |} (b_helpful b);
     reported := default {| count := 0; users := [] |} (b_reported b);
     isActive := default true (b_isActive b) |}.

(** What the database guarantees of the collection: [_id] is a key, and so
    is the pair (user, college) of the unique index. *)
Definition ids_unique (db : Db) : Prop := NoDup (map _id (Reviews db)).

Definition one_review_per_pair (db : Db) : Prop :=
  NoDup (map (fun r => (user r, college r)) (Reviews db)).

(** The fields of a review that [PUT /api/reviews/:id] has no way to
    change. *)
Definition protected_fields (r : Review)
    : ObjectId * ObjectId * ObjectId * jsstring * Votes * Votes * bool :=
  (_id r, user r, college r, studentType r, helpful r, reported r, isActive r).

Definition ratings_ok (rt : Ratings) : bool :=
  rating_ok (overall rt) && rating_ok (academics rt) && rating_ok (campusLife rt)
  && rating_ok (facilities rt) && rating_ok (location rt) && rating_ok (value rt).

(** Every rating of [a] is at most the same rating of [b]. *)
Definition Ratings_le (a b : Ratings) : Prop :=
  overall a <= overall b /\ academics a <= academics b /\ campusLife a <= campusLife b
  /\ facilities a <= facilities b /\ location a <= location b /\ value a <= value b.

(** A review object with its ratings (resp. its content) replaced. *)
Definition with_ratings (rt : Ratings) (r : reviewHelpers.review) : reviewHelpers.review :=
  {| reviewHelpers.ratings := rt;
     reviewHelpers.helpful := reviewHelpers.helpful r;
     reviewHelpers.reported := reviewHelpers.reported r;
     reviewHelpers.content := reviewHelpers.content r;
     reviewHelpers.pros := reviewHelpers.pros r;
     reviewHelpers.cons := reviewHelpers.cons r;
     reviewHelpers.wouldRecommend := reviewHelpers.wouldRecommend r |}.

Definition with_content (c : jsstring) (r : reviewHelpers.review) : reviewHelpers.review :=
  {| reviewHelpers.ratings := reviewHelpers.ratings r;
     reviewHelpers.helpful := reviewHelpers.helpful r;
     reviewHelpers.reported := reviewHelpers.reported r;
     reviewHelpers.content := c;
     reviewHelpers.pros := reviewHelpers.pros r;
     reviewHelpers.cons := reviewHelpers.cons r;
     reviewHelpers.wouldRecommend := reviewHelpers.wouldRecommend r |}.

Definition spam_message : string := "Content appears to be spam".

Definition profanity_message : string := "Review contains inappropriate language".

(** How many of the three spam patterns match the content or the title. *)
Definition spam_hits (content title : jsstring) : nat :=
  length (List.filter (fun pattern => pattern content || pattern title)
            reviewHelpers.spamPatterns).

(** The document that [POST /api/reviews/:id/helpful] saves for the stored
    [review], and the one that [POST /api/reviews/:id/report] saves. *)
Definition helpful_after (uid : ObjectId) (helpful_flag : bool) (review : Review) : Review :=
  let hasVoted := users_includes (users (helpful review)) uid in
  if helpful_flag then
    if negb hasVoted then
      set_helpful
        {| count := (count (helpful review) + 1)%Z;
           users := users (helpful review) ++ [uid] |} review
    else review
  else
    if hasVoted then
      set_helpful
        {| count := (count (helpful review) - 1)%Z;
           users :=
             List.filter (fun userId => negb (userId =? uid)%N)
               (users (helpful review)) |} review
    else review.

Definition reported_after (uid : ObjectId) (review : Review) : Review :=
  set_reported
    {| count := (count (reported review) + 1)%Z;
       users := users (reported review) ++ [uid] |} review.

(** [save] as a rewrite of the collection: the document takes the place of
    the stored one with its [_id]. *)
Definition written_over (r : Review) (rs : list Review) : list Review :=
  map (fun r' => if (_id r' =? _id r)%N then r else r') rs.

(** ** utils/applicationHelpers.js *)

Module applicationHelpers.

(** A JavaScript value as far as the helpers look at it: its truthiness
    and, for a string, its length.  [Num] is a Number other than NaN; [Obj]
    is a [Date] or any other object without a [length]. *)
Inductive value : Type :=
| Undefined
| Null
| Bool (b : bool)
| Num (q : Q)
| Str (s : jsstring)
| Obj.

Definition truthy (v : value) : bool :=
  match v with
  | Undefined | Null => false
  | Bool b => b
  | Num q => negb (Qeq_bool q 0)
  | Str s => (0 <? length s)%nat
  | Obj => true
  end.

(** [v.length] of a truthy value: [undefined] unless [v] is a string. *)
Definition value_length (v : value) : option nat :=
  match v with
  | Str s => Some (length s)
  | _ => None
  end.

(** [x > n] and [x < n] where [x] may be [undefined]: a comparison with
    [undefined] is false. *)
Definition gt (x : option nat) (n : nat) : bool :=
  match x with
  | Some k => (n <? k)%nat
  | None => false
  end.

Definition lt (x : option nat) (n : nat) : bool :=
  match x with
  | Some k => (k <? n)%nat
  | None => false
  end.

Record personalInfo_t := mkPersonalInfo {
  firstName : value;
  lastName : value;
  email : value;
  phone : value;
  dateOfBirth : value
}.

Record academicInfo_t := mkAcademicInfo {
  gpa : value;
  currentEducation : value
}.

Record essay_t := mkEssay { response : value }.

(** The members the helpers read; the entries of [extracurriculars] and
    [workExperience] are only counted. *)
Record applicationData_t := mkApplicationData {
  personalInfo : option personalInfo_t;
  academicInfo : option academicInfo_t;
  essays : option (list essay_t);
  extracurriculars : option (list value);
  workExperience : option (list value)
}.

(** [o?.p] *)
Definition opt {A} (o : option A) (p : A -> value) : value :=
  match o with
  | Some a => p a
  | None => Undefined
  end.

Record sections_t := mkSections {
  s_personalInfo : nat;
  s_academicInfo : nat;
  s_essays : nat;
  s_extracurriculars : nat;
  s_workExperience : nat
}.

Record progress := mkProgress {
  sections : sections_t;
  completedSections : nat;
  totalSections : nat;
  percentage : Q;
  isComplete : bool
}.

(** [a && a.length > 0] for an array that may be [undefined] *)
Definition non_empty {A} (a : option (list A)) : bool :=
  match a with
  | Some l => (0 <? length l)%nat
  | None => false
  end.

Definition calculateApplicationProgress (applicationData : applicationData_t) : progress :=
  let totalSections := 5%nat in
  let completedSections := 0%nat in
  let personalInfo := personalInfo applicationData in
  let personal_done :=
    truthy (opt personalInfo firstName) && truthy (opt personalInfo lastName)
    && truthy (opt personalInfo email) && truthy (opt personalInfo phone)
    && truthy (opt personalInfo dateOfBirth) in
  let s1 := if personal_done then 1%nat else 0%nat in
  let completedSections := if personal_done then S completedSections else completedSections in
  let academicInfo := academicInfo applicationData in
  let academic_done :=
    truthy (opt academicInfo gpa) && truthy (opt academicInfo currentEducation) in
  let s2 := if academic_done then 1%nat else 0%nat in
  let completedSections := if academic_done then S completedSections else completedSections in
  let essays := essays applicationData in
  let essays_done :=
    non_empty essays
    && forallb (fun essay => truthy (response essay)
                             && gt (value_length (response essay)) 100)
         (default [] essays) in
  let s3 := if essays_done then 1%nat else 0%nat in
  let completedSections := if essays_done then S completedSections else completedSections in
  let extra_done := non_empty (extracurriculars applicationData) in
  let s4 := if extra_done then 1%nat else 0%nat in
  let completedSections := if extra_done then S completedSections else completedSections in
  let work_done := non_empty (workExperience applicationData) in
  let s5 := if work_done then 1%nat else 0%nat in
  let completedSections := if work_done then S completedSections else completedSections in
  {| sections := mkSections s1 s2 s3 s4 s5;
     completedSections := completedSections;
     totalSections := totalSections;
     percentage :=
       Math_round (inject_Z (Z.of_nat completedSections)
                   / inject_Z (Z.of_nat totalSections) * 100);
     isComplete := (completedSections =? totalSections)%nat |}.

(** [`${n}`] for a non-negative integer *)
Definition number_to_string (n : nat) : string :=
  NilEmpty.string_of_uint (Nat.to_uint n).

(** [essays.forEach((essay, index) => ..)], from [index] on *)
Fixpoint essay_errors (index : nat) (essays : list essay_t) (errors : list string)
    : list string :=
  match essays with
  | [] => errors
  | essay :: rest =>
      let errors :=
        if negb (truthy (response essay)) || lt (value_length (response essay)) 100
        then errors ++ [("Essay " ++ number_to_string (index + 1)
                         ++ " must be at least 100 characters")%string]
        else errors in
      essay_errors (S index) rest errors
  end.

Record validation := mkValidation {
  isValid : bool;
  errors : list string
}.

(** [if (!v) errors.push(message)] *)
Definition require (v : value) (message : string) (errors : list string) : list string :=
  if negb (truthy v) then errors ++ [message] else errors.

Definition validateApplicationForSubmission (applicationData : applicationData_t)
    : validation :=
  let errors := [] in
  let personalInfo := personalInfo applicationData in
  let errors := require (opt personalInfo firstName) "First name is required" errors in
  let errors := require (opt personalInfo lastName) "Last name is required" errors in
  let errors := require (opt personalInfo email) "Email is required" errors in
  let errors := require (opt personalInfo phone) "Phone number is required" errors in
  let errors := require (opt personalInfo dateOfBirth) "Date of birth is required" errors in
  let academicInfo := academicInfo applicationData in
  let errors := require (opt academicInfo gpa) "GPA is required" errors in
  let errors :=
    require (opt academicInfo currentEducation) "Current education level is required"
      errors in
  let essays := essays applicationData in
  let errors :=
    if negb (non_empty essays) then errors ++ ["At least one essay is required"%string]
    else essay_errors 0 (default [] essays) errors in
  {| isValid := (length errors =? 0)%nat; errors := errors |}.

End applicationHelpers.

(** ** utils/slugify.js *)

Module Slug.

Definition dash : N := 45.

(** The class [\w]. *)
Definition is_word (c : N) : bool :=
  Str.in_range 65 90 c || Str.in_range 97 122 c || Str.in_range 48 57 c || (c =? 95)%N.

(** [s.trim()] *)
Fixpoint trimStart (s : jsstring) : jsstring :=
  match s with
  | [] => []
  | c :: s' => if Str.is_whitespace c then trimStart s' else s
  end.

Definition trimEnd (s : jsstring) : jsstring := rev (trimStart (rev s)).

Definition trim (s : jsstring) : jsstring := trimEnd (trimStart s).

(** [s.replace(/\s+/g, "-")]: every maximal run of white space becomes
    one dash. *)
Fixpoint replace_whitespace (s : jsstring) : jsstring :=
  match s with
  | [] => []
  | c :: s' =>
      if Str.is_whitespace c then
        match s' with
        | c' :: _ =>
            if Str.is_whitespace c' then replace_whitespace s'
            else dash :: replace_whitespace s'
        | [] => [dash]
        end
      else c :: replace_whitespace s'
  end.

(** [s.replace(/[^\w-]+/g, "")] *)
Definition remove_non_word (s : jsstring) : jsstring :=
  List.filter (fun c => is_word c || (c =? dash)%N) s.

(** [s.replace(/--+/g, "-")]: every run of dashes becomes one dash. *)
Fixpoint collapse_dashes (s : jsstring) : jsstring :=
  match s with
  | [] => []
  | c :: s' =>
      if (c =? dash)%N then
        match s' with
        | c' :: _ => if (c' =? dash)%N then collapse_dashes s' else c :: collapse_dashes s'
        | [] => [c]
        end
      else c :: collapse_dashes s'
  end.

(** [s.replace(/^-+/, "")] and [s.replace(/-+$/, "")] *)
Fixpoint strip_leading_dashes (s : jsstring) : jsstring :=
  match s with
  | [] => []
  | c :: s' => if (c =? dash)%N then strip_leading_dashes s' else s
  end.

Definition strip_trailing_dashes (s : jsstring) : jsstring :=
  rev (strip_leading_dashes (rev s)).

Definition slugify (text : jsstring) : jsstring :=
  strip_trailing_dashes
    (strip_leading_dashes
       (collapse_dashes
          (remove_non_word
             (replace_whitespace
                (trim (Str.toLowerCase text)))))).

(** The part of a model's documents that [generateUniqueSlug] queries. *)
Record doc := mkDoc {
  d_id : ObjectId;
  d_slug : jsstring
}.

Definition jsstring_eqb (a b : jsstring) : bool :=
  (length a =? length b)%nat && Str.starts_with N.eqb a b.

(** [Model.findOne(query)] for [query = { slug }], with
    [_id: { $ne: excludeId }] when [excludeId] is given. *)
Definition Model_findOne (Model : list doc) (slug : jsstring) (excludeId : option ObjectId)
    : option doc :=
  List.find
    (fun d =>
       jsstring_eqb (d_slug d) slug
       && match excludeId with
          | Some id => negb (d_id d =? id)%N
          | None => true
          end)
    Model.

(** [`${n}`] for a counter *)
Definition counter_string (n : nat) : jsstring :=
  Str.lit (NilEmpty.string_of_uint (Nat.to_uint n)).

(** The [while (true)] loop of [generateUniqueSlug], run for at most
    [fuel] queries; [None] when the fuel runs out. *)
Fixpoint generateUniqueSlug_loop (fuel : nat) (Model : list doc) (baseSlug : jsstring)
    (excludeId : option ObjectId) (slug : jsstring) (counter : nat) : option jsstring :=
  match fuel with
  | O => None
  | S fuel' =>
      match Model_findOne Model slug excludeId with
      | None => Some slug
      | Some _ =>
          generateUniqueSlug_loop fuel' Model baseSlug excludeId
            (slugify baseSlug ++ [dash] ++ counter_string counter) (S counter)
      end
  end.

Definition generateUniqueSlug (fuel : nat) (Model : list doc) (baseSlug : jsstring)
    (excludeId : option ObjectId) : option jsstring :=
  generateUniqueSlug_loop fuel Model baseSlug excludeId (slugify baseSlug) 1.

(** A well-formed slug: lower-case letters, digits, underscores and dashes,
    no dash at either end and no two dashes in a row. *)
Definition slug_char (c : N) : bool :=
  Str.in_range 97 122 c || Str.in_range 48 57 c || (c =? 95)%N || (c =? dash)%N.

Fixpoint no_double_dash (s : jsstring) : bool :=
  match s with
  | c :: (c' :: _) as s' => negb ((c =? dash)%N && (c' =? dash)%N) && no_double_dash s'
  | _ => true
  end.

Definition is_slug (s : jsstring) : Prop :=
  forallb slug_char s = true
  /\ no_double_dash s = true
  /\ head s <> Some dash
  /\ head (rev s) <> Some dash.

End Slug.

(** The slugs that [generateUniqueSlug] tries, in order: the slug of the
    base, then the slug followed by [-1], [-2], ... *)
Definition slug_candidate (baseSlug : jsstring) (i : nat) : jsstring :=
  match i with
  | O => Slug.slugify baseSlug
  | S _ => Slug.slugify baseSlug ++ [Slug.dash] ++ Slug.counter_string i
  end.

(** A complete application, its essay of 120 characters. *)
Definition sample_application : applicationHelpers.applicationData_t :=
  {| applicationHelpers.personalInfo :=
       Some {| applicationHelpers.firstName := applicationHelpers.Str (Str.lit "Ada");
               applicationHelpers.lastName := applicationHelpers.Str (Str.lit "Byron");
               applicationHelpers.email := applicationHelpers.Str (Str.lit "ada@example.org");
               applicationHelpers.phone := applicationHelpers.Str (Str.lit "5550100");
               applicationHelpers.dateOfBirth := applicationHelpers.Obj |};
     applicationHelpers.academicInfo :=
       Some {| applicationHelpers.gpa := applicationHelpers.Num (37 # 10);
               applicationHelpers.currentEducation :=
                 applicationHelpers.Str (Str.lit "bachelor") |};
     applicationHelpers.essays :=
       Some [{| applicationHelpers.response := applicationHelpers.Str (repeat 97%N 120) |}];
     applicationHelpers.extracurriculars := Some [applicationHelpers.Obj];
     applicationHelpers.workExperience := Some [applicationHelpers.Obj] |}.

(** ** Proof automation *)

(** Unfold the plumbing of a handler down to its queries and writes. *)
Ltac run_handler :=
  unfold try_catch, mbind, Async_bind, mret, Async_ret,
    Review_findById, Review_findOne, College_findById, new_Review;
  cbn beta iota.

(** ** Arithmetic of the built-ins *)

Section Arithmetic.

Lemma Math_round_tenths (x : Q) : rounded_to_1_decimal x (Math_round (x * 10) / 10).
Proof.
  exists (Qfloor (x * 10 + (1 # 2))). unfold Math_round.
  pose proof (Qfloor_le (x * 10 + (1 # 2))) as Hlo.
  pose proof (Qlt_floor (x * 10 + (1 # 2))) as Hhi.
  rewrite inject_Z_plus in Hhi. change (inject_Z 1) with 1 in Hhi.
  set (k := inject_Z (Qfloor (x * 10 + (1 # 2)))) in *.
  split; [reflexivity |].
  unfold Qdiv. change (/ 10) with (1 # 10).
  split; lra.
Qed.

#[global] Instance Math_round_comp : Proper (Qeq ==> Qeq) Math_round.
Proof. intros x y Hxy. unfold Math_round. rewrite Hxy. reflexivity. Qed.

End Arithmetic.

(** ** The rating aggregator *)

Section Aggregator.

Lemma fold_sum_acc (f : Ratings -> Q) (rs : list Review) (a : Q) :
  fold_left (fun sum review => sum + f (ratings review)) rs a
  == a + Qsum (map (fun r => f (ratings r)) rs).
Proof.
  revert a. induction rs as [| r rs IH]; intros a; simpl.
  - ring.
  - rewrite IH. ring.
Qed.

Lemma reduce_sum_Qsum (f : Ratings -> Q) (rs : list Review) :
  reduce_sum f rs == Qsum (map (fun r => f (ratings r)) rs).
Proof. unfold reduce_sum. rewrite fold_sum_acc. ring. Qed.

Lemma reduce_mean (f : Ratings -> Q) (rs : list Review) :
  reduce_sum f rs / len rs == mean_rating f rs.
Proof.
  unfold mean_rating, mean, len. rewrite length_map, reduce_sum_Qsum. reflexivity.
Qed.

Lemma query_active (collegeId : ObjectId) (rs : list Review) :
  List.filter (fun r => (college r =? collegeId)%N && Bool.eqb (isActive r) true) rs
  = List.filter (fun r => (college r =? collegeId)%N && isActive r) rs.
Proof.
  apply filter_ext. intros r. destruct (isActive r); reflexivity.
Qed.

(** One step of evaluation: the function fetches the active reviews and
    overwrites the fragment of the college, if there is such a college. *)
Lemma updateCollegeRatings_run (collegeId : ObjectId) (db : Db) :
  updateCollegeRatings collegeId db
  = (Normal tt,
     set_Colleges
       (alter (fun c => {| c_isActive := c_isActive c;
                           reviews := written_summary (active_reviews collegeId db) |})
          collegeId (Colleges db)) db).
Proof.
  unfold updateCollegeRatings, mbind, Async_bind, Review_find, active_reviews.
  rewrite query_active. unfold written_summary.
  destruct (length _ =? 0)%nat; reflexivity.
Qed.

Lemma written_summary_spec (rs : list Review) :
  same_summary (written_summary rs) (RatingSummary_of rs).
Proof.
  destruct rs as [| r rs].
  - repeat split; reflexivity.
  - unfold written_summary, RatingSummary_of, same_summary.
    change (length (r :: rs) =? 0)%nat with false. cbv iota. simpl averageRating.
    simpl totalReviews. simpl ratingBreakdown.
    cbn [rb_academics rb_campusLife rb_facilities rb_location rb_value].
    repeat split; try reflexivity; rewrite reduce_mean; reflexivity.
Qed.

Lemma updateCollegeRatings_Reviews (collegeId : ObjectId) (db : Db) :
  Reviews (snd (updateCollegeRatings collegeId db)) = Reviews db.
Proof. rewrite updateCollegeRatings_run. reflexivity. Qed.

Lemma updateCollegeRatings_lookup (collegeId : ObjectId) (db : Db) (c : College) :
  Colleges db !! collegeId = Some c ->
  Colleges (snd (updateCollegeRatings collegeId db)) !! collegeId
  = Some {| c_isActive := c_isActive c;
            reviews := written_summary (active_reviews collegeId db) |}.
Proof.
  intros Hc. rewrite updateCollegeRatings_run. simpl.
  rewrite lookup_alter_eq, Hc. reflexivity.
Qed.

Lemma updateCollegeRatings_in_sync (collegeId : ObjectId) (db : Db) :
  is_Some (Colleges db !! collegeId) ->
  summary_in_sync collegeId (snd (updateCollegeRatings collegeId db)).
Proof.
  intros [c Hc]. unfold summary_in_sync.
  rewrite (updateCollegeRatings_lookup _ _ _ Hc).
  eexists; split; [reflexivity |]. simpl reviews.
  unfold active_reviews at 2. rewrite updateCollegeRatings_Reviews.
  apply written_summary_spec.
Qed.

End Aggregator.

(** C1. For a college with a non-empty set of active reviews,
    [updateCollegeRatings] stores: as [averageRating] the mean of the
    overall ratings rounded to one decimal place, computed as
    round(mean x 10) / 10; as each field of [ratingBreakdown] the unrounded
    mean of that rating; as [totalReviews] the number of active reviews. *)
Theorem updateCollegeRatings_stores_means (collegeId : ObjectId) (db : Db) (c : College) :
  Colleges db !! collegeId = Some c ->
  active_reviews collegeId db <> [] ->
  exists c',
    Colleges (snd (updateCollegeRatings collegeId db)) !! collegeId = Some c'
    /\ averageRating (reviews c')
       == Math_round (mean_rating overall (active_reviews collegeId db) * 10) / 10
    /\ rounded_to_1_decimal (mean_rating overall (active_reviews collegeId db))
         (averageRating (reviews c'))
    /\ rb_academics (ratingBreakdown (reviews c'))
       == mean_rating academics (active_reviews collegeId db)
    /\ rb_campusLife (ratingBreakdown (reviews c'))
       == mean_rating campusLife (active_reviews collegeId db)
    /\ rb_facilities (ratingBreakdown (reviews c'))
       == mean_rating facilities (active_reviews collegeId db)
    /\ rb_location (ratingBreakdown (reviews c'))
       == mean_rating location (active_reviews collegeId db)
    /\ rb_value (ratingBreakdown (reviews c'))
       == mean_rating value (active_reviews collegeId db)
    /\ totalReviews (reviews c') = length (active_reviews collegeId db).
Proof.
  intros Hc Hne.
  eexists. split; [apply (updateCollegeRatings_lookup _ _ _ Hc) |].
  simpl reviews.
  destruct (written_summary_spec (active_reviews collegeId db))
    as (Havg & Htot & Ha & Hc' & Hf & Hl & Hv).
  destruct (active_reviews collegeId db) as [| r rs] eqn:E; [congruence |].
  simpl in Havg, Htot, Ha, Hc', Hf, Hl, Hv.
  split; [exact Havg |].
  split.
  { destruct (Math_round_tenths (mean_rating overall (r :: rs))) as (k & Hk & Hlo & Hhi).
    exists k. rewrite Havg. auto. }
  repeat split; assumption.
Qed.

Lemma updateCollegeRatings_stores_means_witness :
  Colleges db_three_reviews !! 1%N = Some sample_college
  /\ active_reviews 1 db_three_reviews <> []
  /\ exists c',
       Colleges (snd (updateCollegeRatings 1 db_three_reviews)) !! 1%N = Some c'
       /\ averageRating (reviews c') == 4
       /\ totalReviews (reviews c') = 3%nat.
Proof.
  assert (H1 : Colleges db_three_reviews !! 1%N = Some sample_college) by reflexivity.
  assert (H2 : active_reviews 1 db_three_reviews <> []) by (vm_compute; discriminate).
  split; [exact H1 |]. split; [exact H2 |].
  destruct (updateCollegeRatings_stores_means 1 db_three_reviews sample_college H1 H2)
    as (c' & Hl & Havg & _ & _ & _ & _ & _ & _ & Htot).
  exists c'. split; [exact Hl |]. split.
  - rewrite Havg. vm_compute. reflexivity.
  - rewrite Htot. reflexivity.
Defined.

(** C2. For a college with no active review, [updateCollegeRatings] stores
    the zero summary: [averageRating] 0, [totalReviews] 0 and every field
    of [ratingBreakdown] 0. *)
Theorem updateCollegeRatings_stores_zero (collegeId : ObjectId) (db : Db) (c : College) :
  Colleges db !! collegeId = Some c ->
  active_reviews collegeId db = [] ->
  exists c',
    Colleges (snd (updateCollegeRatings collegeId db)) !! collegeId = Some c'
    /\ averageRating (reviews c') = 0
    /\ totalReviews (reviews c') = 0%nat
    /\ rb_academics (ratingBreakdown (reviews c')) = 0
    /\ rb_campusLife (ratingBreakdown (reviews c')) = 0
    /\ rb_facilities (ratingBreakdown (reviews c')) = 0
    /\ rb_location (ratingBreakdown (reviews c')) = 0
    /\ rb_value (ratingBreakdown (reviews c')) = 0.
Proof.
  intros Hc Hempty.
  eexists. split; [apply (updateCollegeRatings_lookup _ _ _ Hc) |].
  rewrite Hempty. repeat split; reflexivity.
Qed.

Lemma updateCollegeRatings_stores_zero_witness :
  active_reviews 1 db_only_deleted = []
  /\ exists c',
       Colleges (snd (updateCollegeRatings 1 db_only_deleted)) !! 1%N = Some c'
       /\ averageRating (reviews c') = 0
       /\ totalReviews (reviews c') = 0%nat.
Proof.
  split; [reflexivity |].
  destruct (updateCollegeRatings_stores_zero 1 db_only_deleted _ eq_refl eq_refl)
    as (c' & Hl & Havg & Htot & _).
  exists c'. repeat split; assumption.
Defined.

(** ** The review quality scorer *)

Section Scorer.

Import reviewHelpers.

Lemma Math_round_le (x y : Q) : x <= y -> Math_round x <= Math_round y.
Proof.
  intros Hxy. unfold Math_round. rewrite <- Zle_Qle.
  apply Qfloor_resp_le. lra.
Qed.

Lemma clamp_round_le (x y : Q) : x <= y -> clamp_round x <= clamp_round y.
Proof.
  intros Hxy. unfold clamp_round, Math_max, Qdiv. change (/ 10) with (1 # 10).
  apply Qmult_le_compat_r; [| lra].
  apply Math_round_le. apply Qmult_le_compat_r; [| lra].
  apply Q.max_le_compat_l. exact Hxy.
Qed.

#[local] Instance clamp_round_comp : Proper (Qeq ==> Qeq) clamp_round.
Proof.
  intros x y Hxy. unfold clamp_round, Math_max. rewrite Hxy. reflexivity.
Qed.

(** The value returned when [helpful] and [reported] are present. *)
Lemma calculateReviewScore_run (r : review) (h p : engagement) :
  helpful r = Some h ->
  reported r = Some p ->
  calculateReviewScore r
  = Normal
      (clamp_round
         (overall (ratings r) * (3 # 10) + academics (ratings r) * (2 # 10)
          + campusLife (ratings r) * (15 # 100) + facilities (ratings r) * (15 # 100)
          + location (ratings r) * (1 # 10) + value (ratings r) * (1 # 10)
          + Math_min (count h * (1 # 10)) 2
          - Math_min (count p * (5 # 10)) 3
          + Math_min (len (content r) / 200
                      + (length_or_0 (pros r) + length_or_0 (cons r)) * (2 # 10)) 1)).
Proof.
  intros Hh Hp. unfold calculateReviewScore. rewrite Hh, Hp. reflexivity.
Qed.

End Scorer.



(** C5. With the other fields held fixed, the score does not decrease when
    [helpful.count] grows and does not increase when [reported.count]
    grows; the first contribution is capped at +2.0 (reached at 20 votes)
    and the second at -3.0 (reached at 6 reports). *)
Theorem calculateReviewScore_monotone (r : reviewHelpers.review)
    (h p : reviewHelpers.engagement) :
  reviewHelpers.helpful r = Some h ->
  reviewHelpers.reported r = Some p ->
  (forall h1 h2 : Q, h1 <= h2 ->
     exists s1 s2,
       reviewHelpers.calculateReviewScore (with_helpfulCount h1 r) = Normal s1
       /\ reviewHelpers.calculateReviewScore (with_helpfulCount h2 r) = Normal s2
       /\ s1 <= s2)
  /\ (forall r1 r2 : Q, r1 <= r2 ->
        exists s1 s2,
          reviewHelpers.calculateReviewScore (with_reportCount r1 r) = Normal s1
          /\ reviewHelpers.calculateReviewScore (with_reportCount r2 r) = Normal s2
          /\ s2 <= s1)
  /\ (forall h1 : Q, 20 <= h1 ->
        exists s1 s2,
          reviewHelpers.calculateReviewScore (with_helpfulCount h1 r) = Normal s1
          /\ reviewHelpers.calculateReviewScore (with_helpfulCount 20 r) = Normal s2
          /\ s1 == s2)
  /\ (forall r1 : Q, 6 <= r1 ->
        exists s1 s2,
          reviewHelpers.calculateReviewScore (with_reportCount r1 r) = Normal s1
          /\ reviewHelpers.calculateReviewScore (with_reportCount 6 r) = Normal s2
          /\ s1 == s2).
Proof.
  intros Hh Hp.
  assert (Hmin : forall a b c : Q, a <= b -> Qmin a c <= Qmin b c)
    by (intros a b c Hab; apply Q.min_le_compat_r; exact Hab).
  assert (Hcap : forall a c : Q, c <= a -> Qmin a c == c)
    by (intros a c Hca; apply Q.min_r; exact Hca).
  repeat split.
  - intros h1 h2 Hle.
    do 2 eexists.
    split; [apply calculateReviewScore_run with (p := p); [reflexivity | exact Hp] |].
    split; [apply calculateReviewScore_run with (p := p); [reflexivity | exact Hp] |].
    apply clamp_round_le. simpl. unfold Math_min.
    pose proof (Hmin (h1 * (1 # 10)) (h2 * (1 # 10)) 2) as Hm.
    assert (h1 * (1 # 10) <= h2 * (1 # 10)) by lra.
    specialize (Hm H). lra.
  - intros r1 r2 Hle.
    do 2 eexists.
    split; [apply calculateReviewScore_run with (h := h); [exact Hh | reflexivity] |].
    split; [apply calculateReviewScore_run with (h := h); [exact Hh | reflexivity] |].
    apply clamp_round_le. simpl. unfold Math_min.
    pose proof (Hmin (r1 * (5 # 10)) (r2 * (5 # 10)) 3) as Hm.
    assert (r1 * (5 # 10) <= r2 * (5 # 10)) by lra.
    specialize (Hm H). lra.
  - intros h1 Hle.
    do 2 eexists.
    split; [apply calculateReviewScore_run with (p := p); [reflexivity | exact Hp] |].
    split; [apply calculateReviewScore_run with (p := p); [reflexivity | exact Hp] |].
    apply clamp_round_comp. simpl. unfold Math_min.
    rewrite (Hcap (h1 * (1 # 10)) 2) by lra.
    rewrite (Hcap (20 * (1 # 10)) 2) by lra. reflexivity.
  - intros r1 Hle.
    do 2 eexists.
    split; [apply calculateReviewScore_run with (h := h); [exact Hh | reflexivity] |].
    split; [apply calculateReviewScore_run with (h := h); [exact Hh | reflexivity] |].
    apply clamp_round_comp. simpl. unfold Math_min.
    rewrite (Hcap (r1 * (5 # 10)) 3) by lra.
    rewrite (Hcap (6 * (5 # 10)) 3) by lra. reflexivity.
Qed.

Lemma calculateReviewScore_monotone_witness :
  exists s1 s2,
    reviewHelpers.calculateReviewScore (with_helpfulCount 3 review_all_fives) = Normal s1
    /\ reviewHelpers.calculateReviewScore (with_helpfulCount 7 review_all_fives) = Normal s2
    /\ s1 <= s2.
Proof.
  apply (proj1 (calculateReviewScore_monotone review_all_fives
                  (reviewHelpers.mkEngagement 25) (reviewHelpers.mkEngagement 0)
                  eq_refl eq_refl) 3 7).
  vm_compute. discriminate.
Defined.

(** C6, as the code has it.  When [helpful] and [reported] are present,
    [calculateReviewScore] raises no error, and a review whose [pros] or
    [cons] is undefined scores what it scores with the empty array in
    its place. *)
Theorem calculateReviewScore_optional_pros_cons (r : reviewHelpers.review)
    (h p : reviewHelpers.engagement) :
  reviewHelpers.helpful r = Some h ->
  reviewHelpers.reported r = Some p ->
  exists s,
    reviewHelpers.calculateReviewScore r = Normal s
    /\ reviewHelpers.calculateReviewScore (with_empty_defaults r) = Normal s.
Proof.
  intros Hh Hp. eexists. split.
  - apply (calculateReviewScore_run r h p Hh Hp).
  - rewrite (calculateReviewScore_run (with_empty_defaults r) h p Hh Hp).
    destruct r as [rt hl rp ct [ps |] [cs |] wr]; reflexivity.
Qed.

Lemma calculateReviewScore_optional_pros_cons_witness :
  exists s,
    reviewHelpers.calculateReviewScore review_without_pros_cons = Normal s
    /\ reviewHelpers.calculateReviewScore (with_empty_defaults review_without_pros_cons)
       = Normal s.
Proof.
  apply (calculateReviewScore_optional_pros_cons review_without_pros_cons
           (reviewHelpers.mkEngagement 25) (reviewHelpers.mkEngagement 0));
    reflexivity.
Defined.

(** C6 fails for [helpful] and [reported]: reading [helpful.count] of a
    review without [helpful] (or [reported.count] without [reported])
    throws a TypeError, and no score is returned. *)
Lemma calculateReviewScore_missing_votes_throws :
  reviewHelpers.calculateReviewScore review_without_helpful = Throw TypeError
  /\ reviewHelpers.calculateReviewScore review_without_reported = Throw TypeError
  /\ ~ (exists s, reviewHelpers.calculateReviewScore review_without_helpful = Normal s).
Proof.
  split; [reflexivity |]. split; [reflexivity |].
  intros [s Hs]. discriminate Hs.
Qed.

(** ** Sentiment *)

Section Sentiment.

Import reviewHelpers.

Lemma length_or_0_le (a b : option (list jsstring)) :
  Qle_bool (length_or_0 a) (length_or_0 b) = true
  <-> (length (default [] a) <= length (default [] b))%nat.
Proof.
  rewrite Qle_bool_iff.
  assert (Hlen : forall o, length_or_0 o = inject_Z (Z.of_nat (length (default [] o))))
    by (intros [l |]; reflexivity).
  rewrite !Hlen, <- Zle_Qle. lia.
Qed.

Lemma length_or_0_gt (a b : option (list jsstring)) :
  negb (Qle_bool (length_or_0 a) (length_or_0 b)) = true
  <-> (length (default [] b) < length (default [] a))%nat.
Proof.
  rewrite negb_true_iff, <- not_true_iff_false, length_or_0_le. lia.
Qed.

End Sentiment.

(** C7. [getReviewSentiment] answers "positive" exactly when the mean of
    the six ratings is at least 4, [wouldRecommend] is true and there are
    more pros than cons; "negative" exactly when that mean is at most 2,
    [wouldRecommend] is false and there are more cons than pros; and
    "neutral" in every other case. *)
Theorem getReviewSentiment_cases (r : reviewHelpers.review) :
  (reviewHelpers.getReviewSentiment r = "positive"%string
   <-> 4 <= mean_of_six (reviewHelpers.ratings r)
       /\ reviewHelpers.wouldRecommend r = true
       /\ (consCount r < prosCount r)%nat)
  /\ (reviewHelpers.getReviewSentiment r = "negative"%string
      <-> mean_of_six (reviewHelpers.ratings r) <= 2
          /\ reviewHelpers.wouldRecommend r = false
          /\ (prosCount r < consCount r)%nat)
  /\ (reviewHelpers.getReviewSentiment r = "neutral"%string
      <-> ~ (4 <= mean_of_six (reviewHelpers.ratings r)
             /\ reviewHelpers.wouldRecommend r = true
             /\ (consCount r < prosCount r)%nat)
          /\ ~ (mean_of_six (reviewHelpers.ratings r) <= 2
                /\ reviewHelpers.wouldRecommend r = false
                /\ (prosCount r < consCount r)%nat)).
Proof.
  unfold reviewHelpers.getReviewSentiment, prosCount, consCount.
  fold (mean_of_six (reviewHelpers.ratings r)).
  pose proof (Qle_bool_iff 4 (mean_of_six (reviewHelpers.ratings r))) as H4.
  pose proof (Qle_bool_iff (mean_of_six (reviewHelpers.ratings r)) 2) as H2.
  pose proof (length_or_0_gt (reviewHelpers.pros r) (reviewHelpers.cons r)) as Hpc.
  pose proof (length_or_0_gt (reviewHelpers.cons r) (reviewHelpers.pros r)) as Hcp.
  destruct (Qle_bool 4 (mean_of_six (reviewHelpers.ratings r)));
    destruct (Qle_bool (mean_of_six (reviewHelpers.ratings r)) 2);
    destruct (reviewHelpers.wouldRecommend r);
    destruct (negb (Qle_bool (reviewHelpers.length_or_0 (reviewHelpers.pros r))
                      (reviewHelpers.length_or_0 (reviewHelpers.cons r))));
    destruct (negb (Qle_bool (reviewHelpers.length_or_0 (reviewHelpers.cons r))
                      (reviewHelpers.length_or_0 (reviewHelpers.pros r))));
    simpl; intuition (try discriminate; try congruence; try lia).
Qed.

(** ** The content validator *)

Section Validator.

Import reviewHelpers.

(** No piece of [split_whitespace] holds a white-space character, and the
    pieces together are the string without its white space. *)
Lemma split_whitespace_pieces (s : jsstring) :
  Forall (fun w => forallb (fun c => negb (Str.is_whitespace c)) w = true)
    (Str.split_whitespace s)
  /\ concat (Str.split_whitespace s)
     = List.filter (fun c => negb (Str.is_whitespace c)) s.
Proof.
  induction s as [| c s [IHf IHc]]; simpl.
  - split; [repeat constructor | reflexivity].
  - destruct (Str.is_whitespace c) eqn:Ec; simpl.
    + destruct s as [| c' s'].
      * split; [constructor; [reflexivity | exact IHf] | exact IHc].
      * destruct (Str.is_whitespace c') eqn:Ec'.
        -- split; [exact IHf | exact IHc].
        -- split; [constructor; [reflexivity | exact IHf] | exact IHc].
    + destruct (Str.split_whitespace s) as [| w ws].
      * split; [repeat constructor; simpl; rewrite Ec; reflexivity |].
        simpl in IHc. rewrite <- IHc. reflexivity.
      * inversion IHf; subst. split.
        -- constructor; [simpl; rewrite Ec; simpl; assumption | assumption].
        -- simpl in *. rewrite <- IHc. reflexivity.
Qed.

(** The errors, case by case on what the three rules found. *)
Lemma validateReviewContent_errors (content title : jsstring) :
  errors (validateReviewContent content title)
  = (if Str.repeated_characters content || Str.repeated_characters title
     then ["Content appears to be spam"%string] else [])
    ++ (if Str.all_caps content || Str.all_caps title
        then ["Content appears to be spam"%string] else [])
    ++ (if Str.promotional content || Str.promotional title
        then ["Content appears to be spam"%string] else [])
    ++ (if (length (meaningful_words content) <? 20)%nat then [too_few_words] else [])
    ++ (if existsb
             (fun word =>
                Str.includes (Str.lit word) (Str.toLowerCase content)
                || Str.includes (Str.lit word) (Str.toLowerCase title))
             profanityWords
        then ["Review contains inappropriate language"%string] else []).
Proof.
  unfold validateReviewContent, spamPatterns, meaningful_words.
  cbn [fold_left errors].
  destruct (Str.repeated_characters content || Str.repeated_characters title);
    destruct (Str.all_caps content || Str.all_caps title);
    destruct (Str.promotional content || Str.promotional title);
    destruct (length _ <? 20)%nat;
    destruct (existsb _ profanityWords); reflexivity.
Qed.

End Validator.

(** C8. [validateReviewContent] splits the content on white space and keeps
    the tokens longer than 2 characters; with fewer than 20 of them the
    errors contain "Review must contain at least 20 meaningful words", with
    20 or more they do not; a content of exactly 19 such words fails the
    rule and one of exactly 20 passes it; [isValid] is true exactly when
    the list of errors is empty. *)
Theorem validateReviewContent_word_count :
  (forall content title : jsstring,
      ((length (meaningful_words content) < 20)%nat ->
       In too_few_words (reviewHelpers.errors (reviewHelpers.validateReviewContent content title)))
      /\ ((20 <= length (meaningful_words content))%nat ->
          ~ In too_few_words
              (reviewHelpers.errors (reviewHelpers.validateReviewContent content title)))
      /\ (reviewHelpers.isValid (reviewHelpers.validateReviewContent content title) = true
          <-> reviewHelpers.errors (reviewHelpers.validateReviewContent content title) = []))
  /\ (length (meaningful_words nineteen_words) = 19%nat
      /\ forall title,
           In too_few_words
             (reviewHelpers.errors (reviewHelpers.validateReviewContent nineteen_words title)))
  /\ (length (meaningful_words twenty_words) = 20%nat
      /\ forall title,
           ~ In too_few_words
               (reviewHelpers.errors (reviewHelpers.validateReviewContent twenty_words title))).
Proof.
  assert (Hgen : forall content title : jsstring,
             In too_few_words
               (reviewHelpers.errors (reviewHelpers.validateReviewContent content title))
             <-> (length (meaningful_words content) < 20)%nat).
  { intros content title. rewrite validateReviewContent_errors.
    destruct (Nat.ltb_spec (length (meaningful_words content)) 20) as [Hlt | Hge].
    - split; [intros _; exact Hlt | intros _].
      rewrite !in_app_iff. do 3 right. left. left. reflexivity.
    - split; [| lia]. intros Hin. exfalso.
      destruct (_ || _), (_ || _), (_ || _), (existsb _ _);
        simpl in Hin; unfold too_few_words in Hin;
        intuition discriminate. }
  split; [| split].
  - intros content title. split; [| split].
    + intros Hlt. apply Hgen. exact Hlt.
    + intros Hge Hin. apply Hgen in Hin. lia.
    + unfold reviewHelpers.validateReviewContent. cbn [reviewHelpers.isValid reviewHelpers.errors].
      rewrite Nat.eqb_eq. apply length_zero_iff_nil.
  - split; [vm_compute; reflexivity |].
    intros title. apply Hgen. vm_compute. lia.
  - split; [vm_compute; reflexivity |].
    intros title Hin. apply Hgen in Hin. vm_compute in Hin. lia.
Qed.

Lemma validateReviewContent_word_count_witness :
  In too_few_words
    (reviewHelpers.errors
       (reviewHelpers.validateReviewContent (Str.lit "AAAAAA this is great") (Str.lit "Great"))).
Proof.
  apply (proj1 (proj1 validateReviewContent_word_count (Str.lit "AAAAAA this is great")
                  (Str.lit "Great"))).
  vm_compute. lia.
Defined.

(** ** The handlers: votes and reports *)

Section Votes.

Lemma users_includes_In (us : list ObjectId) (uid : ObjectId) :
  users_includes us uid = true <-> In uid us.
Proof.
  unfold users_includes. rewrite existsb_exists. split.
  - intros (x & Hin & Heq). apply N.eqb_eq in Heq. subst. exact Hin.
  - intros Hin. exists uid. split; [exact Hin | apply N.eqb_refl].
Qed.

(** [push] of a user who has not voted adds one voter. *)
Lemma count_is_size_push (v : Votes) (uid : ObjectId) :
  users_includes (users v) uid = false ->
  count_is_size v ->
  count_is_size {| count := count v + 1; users := users v ++ [uid] |}.
Proof.
  unfold count_is_size, voters. cbn [count users]. intros Hnot Hv.
  assert (Hfresh : uid ∉ (list_to_set (users v) : gset ObjectId)).
  { rewrite elem_of_list_to_set, list_elem_of_In, <- users_includes_In.
    rewrite Hnot. discriminate. }
  rewrite list_to_set_app_L, list_to_set_singleton, size_union, size_singleton.
  - lia.
  - apply disjoint_singleton_r. exact Hfresh.
Qed.

(** [filter] of a user who has voted removes one voter, however often the
    array lists that user. *)
Lemma count_is_size_filter (v : Votes) (uid : ObjectId) :
  users_includes (users v) uid = true ->
  count_is_size v ->
  count_is_size
    {| count := count v - 1;
       users := List.filter (fun userId => negb (userId =? uid)%N) (users v) |}.
Proof.
  unfold count_is_size, voters. cbn [count users]. intros Hin Hv.
  apply users_includes_In in Hin.
  assert (Hset : (list_to_set (List.filter (fun userId => negb (userId =? uid)%N) (users v))
                  : gset ObjectId)
                 = list_to_set (users v) ∖ {[uid]}).
  { apply set_eq. intros x.
    rewrite elem_of_difference, !elem_of_list_to_set, !list_elem_of_In, filter_In.
    rewrite elem_of_singleton, negb_true_iff, N.eqb_neq. reflexivity. }
  rewrite Hset, size_difference, size_singleton.
  - assert (size (list_to_set (users v) : gset ObjectId) <> 0)%nat.
    { apply size_non_empty_iff. intros Hempty.
      apply (not_elem_of_empty (C := gset N) uid). rewrite <- Hempty.
      rewrite elem_of_list_to_set, list_elem_of_In. exact Hin. }
    lia.
  - apply singleton_subseteq_l.
    rewrite elem_of_list_to_set, list_elem_of_In. exact Hin.
Qed.

Lemma count_is_size_cleared : count_is_size {| count := 0; users := [] |}.
Proof. reflexivity. Qed.

(** [save] writes the document over the stored one with its [_id]. *)
Lemma save_counts (r : Review) (db : Db) :
  counts_in_sync db ->
  count_is_size (helpful r) ->
  count_is_size (reported r) ->
  counts_in_sync (snd (save r db)).
Proof.
  intros Hdb Hh Hr. unfold save.
  destruct (validateSync r); simpl; [| exact Hdb].
  intros r' Hin. apply in_map_iff in Hin as (r0 & Hr0 & Hin0).
  destruct (_id r0 =? _id r)%N; subst r'; [split; assumption | apply Hdb; exact Hin0].
Qed.

Lemma findOne_In (q : Review -> bool) (db : Db) (r : Review) :
  List.find q (Reviews db) = Some r -> In r (Reviews db) /\ q r = true.
Proof. apply find_some. Qed.

End Votes.


Lemma counts_in_sync_sample : counts_in_sync db_three_reviews.
Proof.
  intros r Hin. simpl in Hin.
  destruct Hin as [<- | [<- | [<- | [<- | []]]]]; split; reflexivity.
Qed.


(** The other handlers.  Update and delete do not touch the two fields.
    Create stores the defaults of the schema (count 0, no voter) unless the
    body itself carries [helpful] or [reported], which [...req.body] copies
    as they are. *)
Lemma other_handlers_keep_counts (db : Db) :
  counts_in_sync db ->
  (forall id uid body, counts_in_sync (snd (updateReview id uid body db)))
  /\ (forall id uid, counts_in_sync (snd (deleteReview id uid db)))
  /\ (forall req,
        count_is_size (default {| count := 0; users := [] |} (b_helpful (req_body req))) ->
        count_is_size (default {| count := 0; users := [] |} (b_reported (req_body req))) ->
        counts_in_sync (snd (createReview req db))).
Proof.
  intros Hdb. split; [| split].
  - intros id uid body. unfold updateReview. run_handler.
    destruct (find _ (Reviews db)) as [r |] eqn:Hf; [| exact Hdb].
    apply findOne_In in Hf as [Hin _]. destruct (Hdb r Hin) as [Hh Hr].
    pose proof (save_counts (apply_updates body r) db Hdb Hh Hr) as Hs.
    destruct (save (apply_updates body r) db) as [[[] | e] db1]; [| exact Hs].
    rewrite updateCollegeRatings_run. exact Hs.
  - intros id uid. unfold deleteReview. run_handler.
    destruct (find _ (Reviews db)) as [r |] eqn:Hf; [| exact Hdb].
    apply findOne_In in Hf as [Hin _]. destruct (Hdb r Hin) as [Hh Hr].
    pose proof (save_counts (set_isActive false r) db Hdb Hh Hr) as Hs.
    destruct (save (set_isActive false r) db) as [[[] | e] db1]; [| exact Hs].
    rewrite updateCollegeRatings_run. exact Hs.
  - intros req Hh Hr. unfold createReview. run_handler.
    destruct (negb _); [exact Hdb |].
    destruct (Colleges db !! b_college (req_body req)); [| exact Hdb].
    cbn beta iota. destruct (find _ (Reviews db)); [exact Hdb |]. cbn beta iota.
    unfold save_new. destruct (negb (validateSync _)); [exact Hdb |].
    destruct (existsb _ (Reviews db)); [exact Hdb |].
    rewrite updateCollegeRatings_run. cbn.
    intros r Hin. apply in_app_iff in Hin as [Hin | [<- | []]]; [apply Hdb; exact Hin |].
    split; assumption.
Qed.

(** The vote is recorded: review 1 then has one helpful voter. *)
Example markHelpful_sample :
  option_map helpful (List.find (fun r => (_id r =? 1)%N)
                        (Reviews (snd (markHelpful 1 12 true db_three_reviews))))
  = Some {| count := 1; users := [12%N] |}.
Proof. vm_compute. reflexivity. Qed.

(** ** The handlers: create, update, delete, moderate *)

Section Handlers.

Lemma save_Colleges (r : Review) (db : Db) : Colleges (snd (save r db)) = Colleges db.
Proof. unfold save. destruct (validateSync r); reflexivity. Qed.

Lemma save_new_Colleges (r : Review) (db : Db) :
  Colleges (snd (save_new r db)) = Colleges db.
Proof.
  unfold save_new. destruct (validateSync r); [| reflexivity].
  destruct (existsb _ _); reflexivity.
Qed.

(** A stored document matching the query makes [findOne] answer. *)
Lemma findOne_is_Some (q : Review -> bool) (rs : list Review) (r : Review) :
  In r rs -> q r = true -> is_Some (List.find q rs).
Proof.
  intros Hin Hq. destruct (List.find q rs) as [r' |] eqn:Hf; [eauto |].
  rewrite (find_none _ _ Hf r Hin) in Hq. discriminate.
Qed.

(** The duplicate check of [POST /api/reviews]: an earlier review of the
    college by the user, active or not, stops the request. *)
Lemma createReview_existing (req : CreateRequest) (db : Db) (r : Review) :
  In r (Reviews db) ->
  user r = req_user_id req ->
  college r = b_college (req_body req) ->
  snd (createReview req db) = db
  /\ status (fst (createReview req db)) <> 201%nat
  /\ (validationResult req = [] ->
      is_Some (Colleges db !! b_college (req_body req)) ->
      fst (createReview req db)
      = Res 400 (J_message "You have already reviewed this college")).
Proof.
  intros Hin Hu Hc.
  assert (Hfind : is_Some
            (List.find (fun r0 => (user r0 =? req_user_id req)%N
                                  && (college r0 =? b_college (req_body req))%N)
               (Reviews db))).
  { apply (findOne_is_Some _ _ r Hin). rewrite Hu, Hc, !N.eqb_refl. reflexivity. }
  destruct Hfind as [r' Hr'].
  unfold createReview. run_handler.
  destruct (validationResult req) as [| e es]; cbn [length Nat.eqb negb].
  - destruct (Colleges db !! b_college (req_body req)) as [c |]; cbn beta iota.
    + rewrite Hr'. cbn.
      split; [reflexivity | split; [discriminate | intros _ _; reflexivity]].
    + cbn. split; [reflexivity | split; [discriminate |]].
      intros _ [c Hsome]. discriminate Hsome.
  - cbn. split; [reflexivity | split; [discriminate |]].
    intros Hnil. discriminate Hnil.
Qed.

(** A successful [DELETE /api/reviews/:id] leaves the review stored, with
    [isActive] false. *)
Lemma deleteReview_keeps (id uid : ObjectId) (db : Db) :
  status (fst (deleteReview id uid db)) = 200%nat ->
  exists r,
    List.find (fun r => (_id r =? id)%N && (user r =? uid)%N) (Reviews db) = Some r
    /\ In (set_isActive false r) (Reviews (snd (deleteReview id uid db))).
Proof.
  unfold deleteReview. run_handler.
  destruct (List.find _ (Reviews db)) as [r |] eqn:Hf; [| discriminate].
  intros Hok. exists r. split; [reflexivity |].
  apply find_some in Hf as [Hin _].
  revert Hok. unfold save.
  destruct (validateSync (set_isActive false r)); cbn; [| discriminate].
  intros _. rewrite updateCollegeRatings_run. cbn.
  apply in_map_iff. exists r. split; [| exact Hin].
  rewrite N.eqb_refl. reflexivity.
Qed.

End Handlers.

(** C10. A create request of a user who already has a review of the
    college, active or soft-deleted, persists nothing and is refused; once
    it has passed the validators and the college is found, the answer is the
    400 "You have already reviewed this college".  In particular a create
    request that follows a successful delete of the user's review of that
    college is refused. *)
Theorem createReview_duplicate_rejected (req : CreateRequest) (db : Db) :
  (forall r,
      In r (Reviews db) ->
      user r = req_user_id req ->
      college r = b_college (req_body req) ->
      snd (createReview req db) = db
      /\ status (fst (createReview req db)) <> 201%nat
      /\ (validationResult req = [] ->
          is_Some (Colleges db !! b_college (req_body req)) ->
          fst (createReview req db)
          = Res 400 (J_message "You have already reviewed this college")))
  /\ (forall id r,
        List.find (fun r => (_id r =? id)%N && (user r =? req_user_id req)%N) (Reviews db)
        = Some r ->
        college r = b_college (req_body req) ->
        status (fst (deleteReview id (req_user_id req) db)) = 200%nat ->
        snd (createReview req (snd (deleteReview id (req_user_id req) db)))
        = snd (deleteReview id (req_user_id req) db)
        /\ status (fst (createReview req (snd (deleteReview id (req_user_id req) db))))
           <> 201%nat).
Proof.
  split.
  - intros r. apply createReview_existing.
  - intros id r Hf Hc Hok.
    destruct (deleteReview_keeps id (req_user_id req) db Hok) as (r' & Hf' & Hin).
    rewrite Hf in Hf'. injection Hf' as <-.
    apply find_some in Hf as [_ Hq].
    apply andb_true_iff in Hq as [_ Hu]. apply N.eqb_eq in Hu.
    destruct (createReview_existing req _ (set_isActive false r) Hin Hu Hc)
      as (Hdb & Hst & _).
    split; assumption.
Qed.

Lemma createReview_duplicate_rejected_witness :
  In (sample_review 4 14 1 1 false) (Reviews db_three_reviews)
  /\ snd (createReview (sample_request 14 1) db_three_reviews) = db_three_reviews
  /\ fst (createReview (sample_request 14 1) db_three_reviews)
     = Res 400 (J_message "You have already reviewed this college").
Proof.
  assert (Hin : In (sample_review 4 14 1 1 false) (Reviews db_three_reviews))
    by (simpl; tauto).
  split; [exact Hin |].
  destruct (proj1 (createReview_duplicate_rejected (sample_request 14 1) db_three_reviews)
              (sample_review 4 14 1 1 false) Hin eq_refl eq_refl) as (Hdb & _ & Hres).
  split; [exact Hdb |].
  apply Hres; [reflexivity |]. exists sample_college. reflexivity.
Defined.

(** Without the earlier review the same request is accepted. *)
Example createReview_sample_accepted :
  status (fst (createReview (sample_request 15 1) db_three_reviews)) = 201%nat.
Proof. vm_compute. reflexivity. Qed.

(** ** Recomputation after each write *)

Section Recompute.

(** Create: [save], then recompute. *)
Lemma createReview_in_sync (req : CreateRequest) (db : Db) :
  status (fst (createReview req db)) = 201%nat ->
  summary_in_sync (b_college (req_body req)) (snd (createReview req db)).
Proof.
  unfold createReview. run_handler.
  destruct (negb _); [discriminate |].
  destruct (Colleges db !! b_college (req_body req)) as [c |] eqn:Hc; [| discriminate].
  cbn beta iota.
  destruct (List.find _ (Reviews db)); [discriminate |].
  cbn beta iota.
  match goal with
  | |- context [save_new ?r db] =>
      pose proof (save_new_Colleges r db) as Hcs;
      destruct (save_new r db) as [[[] | e] db1]; [| discriminate]
  end.
  cbn [snd] in Hcs. cbn beta iota.
  pose proof (updateCollegeRatings_in_sync (b_college (req_body req)) db1) as Hsync.
  rewrite updateCollegeRatings_run in *. cbn. intros _.
  apply Hsync. rewrite Hcs, Hc. eauto.
Qed.

(** Author update: [save], then recompute. *)
Lemma updateReview_in_sync (id uid : ObjectId) (body : UpdateBody) (db : Db) (r : Review) :
  List.find (fun r => (_id r =? id)%N && (user r =? uid)%N) (Reviews db) = Some r ->
  is_Some (Colleges db !! college r) ->
  status (fst (updateReview id uid body db)) = 200%nat ->
  summary_in_sync (college r) (snd (updateReview id uid body db)).
Proof.
  intros Hf Hc. unfold updateReview. run_handler. rewrite Hf. cbn beta iota.
  pose proof (save_Colleges (apply_updates body r) db) as Hcs.
  destruct (save (apply_updates body r) db) as [[[] | e] db1]; [| discriminate].
  cbn [snd] in Hcs. cbn [college apply_updates].
  pose proof (updateCollegeRatings_in_sync (college r) db1) as Hsync.
  rewrite updateCollegeRatings_run in *. cbn. intros _.
  apply Hsync. rewrite Hcs. exact Hc.
Qed.

(** Author soft delete: [save], then recompute. *)
Lemma deleteReview_in_sync (id uid : ObjectId) (db : Db) (r : Review) :
  List.find (fun r => (_id r =? id)%N && (user r =? uid)%N) (Reviews db) = Some r ->
  is_Some (Colleges db !! college r) ->
  status (fst (deleteReview id uid db)) = 200%nat ->
  summary_in_sync (college r) (snd (deleteReview id uid db)).
Proof.
  intros Hf Hc. unfold deleteReview. run_handler. rewrite Hf. cbn beta iota.
  pose proof (save_Colleges (set_isActive false r) db) as Hcs.
  destruct (save (set_isActive false r) db) as [[[] | e] db1]; [| discriminate].
  cbn [snd] in Hcs.
  pose proof (updateCollegeRatings_in_sync (college r) db1) as Hsync.
  rewrite updateCollegeRatings_run in *. cbn. intros _.
  apply Hsync. rewrite Hcs. exact Hc.
Qed.

(** Moderation removal: recompute, then [save].  The summary written is
    that of the active reviews before the removal. *)
Lemma moderateReview_remove_summary (id : ObjectId) (db : Db) (r : Review) (c : College) :
  List.find (fun r => (_id r =? id)%N) (Reviews db) = Some r ->
  Colleges db !! college r = Some c ->
  Colleges (snd (moderateReview id "remove" db)) !! college r
  = Some {| c_isActive := c_isActive c;
            reviews := written_summary (active_reviews (college r) db) |}.
Proof.
  intros Hf Hc. unfold moderateReview. run_handler. rewrite Hf.
  cbn [String.eqb Ascii.eqb Bool.eqb]. cbn beta iota.
  rewrite updateCollegeRatings_run. cbn beta iota. cbn [college set_isActive].
  match goal with
  | |- context [save ?r' ?d] =>
      pose proof (save_Colleges r' d) as Hcs;
      destruct (save r' d) as [[[] | e] db1]
  end; cbn [snd fst] in *; rewrite Hcs; cbn [Colleges set_Colleges];
    rewrite lookup_alter_eq, Hc; reflexivity.
Qed.

End Recompute.

(** C3 at the moderation removal.  College 1 has one active review, rated
    4.  The admin removes it: the answer is 200, the review is stored
    inactive and the college has no active review left, yet the stored
    summary still counts one review with average 4, so it is not the
    summary of the active reviews. *)
Theorem moderateReview_remove_stale :
  fst (moderateReview 1 "remove" db_one_review)
  = Res 200 (J_success "Review removed successfully")
  /\ active_reviews 1 (snd (moderateReview 1 "remove" db_one_review)) = []
  /\ (exists c,
        Colleges (snd (moderateReview 1 "remove" db_one_review)) !! 1%N = Some c
        /\ totalReviews (reviews c) = 1%nat
        /\ averageRating (reviews c) == 4)
  /\ ~ summary_in_sync 1 (snd (moderateReview 1 "remove" db_one_review)).
Proof.
  assert (Hl : Colleges (snd (moderateReview 1 "remove" db_one_review)) !! 1%N
               = Some {| c_isActive := true;
                         reviews := written_summary (active_reviews 1 db_one_review) |})
    by (apply (moderateReview_remove_summary 1 db_one_review (sample_review 1 11 1 4 true)
                 college_one_review); reflexivity).
  assert (Ha : active_reviews 1 (snd (moderateReview 1 "remove" db_one_review)) = [])
    by (vm_compute; reflexivity).
  split; [vm_compute; reflexivity |].
  split; [exact Ha |].
  split.
  - eexists. split; [exact Hl |]. split; [reflexivity | vm_compute; reflexivity].
  - intros (c & Hc & _ & Htot & _). rewrite Hl in Hc. injection Hc as <-.
    rewrite Ha in Htot. discriminate Htot.
Qed.

(** The author's delete of the same review leaves the zero summary. *)
Example deleteReview_sample :
  fst (deleteReview 1 11 db_one_review) = Res 200 (J_success "Review deleted successfully")
  /\ option_map (fun c => totalReviews (reviews c))
       (Colleges (snd (deleteReview 1 11 db_one_review)) !! 1%N) = Some 0%nat.
Proof. split; vm_compute; reflexivity. Qed.

(** ** More on the rating aggregator *)

Section AggregatorMore.

Lemma Qsum_bounds (lo hi : Q) (xs : list Q) :
  Forall (fun x => lo <= x <= hi) xs ->
  lo * inject_Z (Z.of_nat (length xs)) <= Qsum xs
  /\ Qsum xs <= hi * inject_Z (Z.of_nat (length xs)).
Proof.
  induction 1 as [| x xs [Hlo Hhi] _ [IHlo IHhi]].
  - cbn [length Qsum]. change (inject_Z (Z.of_nat 0)) with 0. split; lra.
  - cbn [length Qsum]. rewrite Nat2Z.inj_succ, <- Z.add_1_r, inject_Z_plus.
    change (inject_Z 1) with 1.
    rewrite !Qmult_plus_distr_r, !Qmult_1_r. split; lra.
Qed.

Lemma mean_bounds (lo hi : Q) (xs : list Q) :
  xs <> [] ->
  Forall (fun x => lo <= x <= hi) xs ->
  lo <= mean xs <= hi.
Proof.
  intros Hne Hall. destruct (Qsum_bounds lo hi xs Hall) as [Hlo Hhi].
  unfold mean.
  assert (Hpos : 0 < inject_Z (Z.of_nat (length xs))).
  { change 0 with (inject_Z 0). rewrite <- Zlt_Qlt.
    destruct xs; [congruence | cbn [length]; lia]. }
  split.
  - apply Qle_shift_div_l; assumption.
  - apply Qle_shift_div_r; assumption.
Qed.

Lemma round_tenths_bounds (lo hi : Z) (x : Q) :
  inject_Z lo <= x <= inject_Z hi ->
  inject_Z lo <= Math_round (x * 10) / 10 <= inject_Z hi.
Proof.
  intros [Hlo Hhi].
  assert (Hk : forall k : Z, Math_round (inject_Z k * 10) == inject_Z k * 10).
  { intros k. unfold Math_round.
    assert (Hq : inject_Z k * 10 + (1 # 2) == inject_Z (k * 10) + (1 # 2))
      by (rewrite inject_Z_mult; reflexivity).
    rewrite Hq.
    assert (Hf : Qfloor (inject_Z (k * 10) + (1 # 2)) = (k * 10)%Z).
    { symmetry. apply Z.le_antisymm.
      - rewrite <- (Qfloor_Z (k * 10)) at 1. apply Qfloor_resp_le. lra.
      - apply Z.lt_succ_r. rewrite <- Z.add_1_r.
        rewrite Zlt_Qlt, inject_Z_plus. change (inject_Z 1) with 1.
        pose proof (Qfloor_le (inject_Z (k * 10) + (1 # 2))). lra. }
    rewrite Hf, inject_Z_mult. reflexivity. }
  pose proof (Math_round_le (inject_Z lo * 10) (x * 10)) as H1.
  pose proof (Math_round_le (x * 10) (inject_Z hi * 10)) as H2.
  rewrite Hk in H1. rewrite Hk in H2.
  unfold Qdiv. change (/ 10) with (1 # 10).
  split; [assert (inject_Z lo * 10 <= Math_round (x * 10)) by (apply H1; lra)
         | assert (Math_round (x * 10) <= inject_Z hi * 10) by (apply H2; lra)]; lra.
Qed.

Lemma active_reviews_range (collegeId : ObjectId) (db : Db) (f : Ratings -> Q) :
  (forall r, In r (active_reviews collegeId db) -> ratings_ok (ratings r) = true) ->
  (forall rt, ratings_ok rt = true -> 1 <= f rt <= 5) ->
  Forall (fun x => 1 <= x <= 5) (map (fun r => f (ratings r)) (active_reviews collegeId db)).
Proof.
  intros Hok Hf. apply List.Forall_forall. intros x Hx.
  apply in_map_iff in Hx as (r & <- & Hr). apply Hf, Hok, Hr.
Qed.

Lemma ratings_ok_range (rt : Ratings) :
  ratings_ok rt = true ->
  1 <= overall rt <= 5 /\ 1 <= academics rt <= 5 /\ 1 <= campusLife rt <= 5
  /\ 1 <= facilities rt <= 5 /\ 1 <= location rt <= 5 /\ 1 <= value rt <= 5.
Proof.
  unfold ratings_ok, rating_ok. rewrite !andb_true_iff, !Qle_bool_iff. tauto.
Qed.

Lemma Qsum_Permutation (xs ys : list Q) : Permutation xs ys -> Qsum xs == Qsum ys.
Proof.
  induction 1; simpl; try reflexivity.
  - rewrite IHPermutation. reflexivity.
  - ring.
  - rewrite IHPermutation1. exact IHPermutation2.
Qed.

Lemma filter_Permutation' (q : Review -> bool) (rs rs' : list Review) :
  Permutation rs rs' -> Permutation (List.filter q rs) (List.filter q rs').
Proof.
  induction 1; simpl.
  - constructor.
  - destruct (q x); [constructor |]; assumption.
  - destruct (q x), (q y); try reflexivity. constructor.
  - etransitivity; eassumption.
Qed.

End AggregatorMore.

(** X1. Recomputing the rating of a college twice in a row gives the
    database that one recomputation gives. *)
Theorem updateCollegeRatings_idempotent (collegeId : ObjectId) (db : Db) :
  snd (updateCollegeRatings collegeId (snd (updateCollegeRatings collegeId db)))
  = snd (updateCollegeRatings collegeId db).
Proof.
  rewrite !updateCollegeRatings_run. cbn [snd].
  unfold active_reviews, set_Colleges. cbn [Reviews Colleges].
  f_equal. rewrite alter_alter_eq. apply alter_ext. reflexivity.
Qed.

(** X2. [updateCollegeRatings] writes nothing but the rating fragment of
    the one college: the reviews, the other colleges and the [isActive] of
    the college stay as they are; for an id that is no college the whole
    database stays as it is. *)
Theorem updateCollegeRatings_frame (collegeId : ObjectId) (db : Db) :
  Reviews (snd (updateCollegeRatings collegeId db)) = Reviews db
  /\ (forall other, other <> collegeId ->
        Colleges (snd (updateCollegeRatings collegeId db)) !! other = Colleges db !! other)
  /\ (forall c, Colleges db !! collegeId = Some c ->
        exists c', Colleges (snd (updateCollegeRatings collegeId db)) !! collegeId = Some c'
                   /\ c_isActive c' = c_isActive c)
  /\ (Colleges db !! collegeId = None -> snd (updateCollegeRatings collegeId db) = db).
Proof.
  rewrite updateCollegeRatings_run. cbn [snd]. unfold set_Colleges. cbn [Reviews Colleges].
  split; [reflexivity |]. split; [| split].
  - intros other Hne. apply lookup_alter_ne. congruence.
  - intros c Hc. rewrite lookup_alter_eq, Hc. eexists. split; reflexivity.
  - intros Hnone. destruct db as [rs cs]. cbn [Reviews Colleges] in *. f_equal.
    apply alter_id'. exact Hnone.
Qed.

Lemma updateCollegeRatings_frame_witness :
  Colleges db_three_reviews !! 2%N = None
  /\ snd (updateCollegeRatings 2 db_three_reviews) = db_three_reviews.
Proof.
  split; [reflexivity |].
  apply (proj2 (proj2 (proj2 (updateCollegeRatings_frame 2 db_three_reviews)))).
  reflexivity.
Defined.

(** X3. If every active review of the college has its six ratings in
    [1,5], the stored [averageRating] and every field of the stored
    [ratingBreakdown] lie in [0,5], and in [1,5] when there is an active
    review. *)
Theorem updateCollegeRatings_bounds (collegeId : ObjectId) (db : Db) (c : College) :
  Colleges db !! collegeId = Some c ->
  (forall r, In r (active_reviews collegeId db) -> ratings_ok (ratings r) = true) ->
  exists c',
    Colleges (snd (updateCollegeRatings collegeId db)) !! collegeId = Some c'
    /\ (forall x,
          In x [averageRating (reviews c');
                rb_academics (ratingBreakdown (reviews c'));
                rb_campusLife (ratingBreakdown (reviews c'));
                rb_facilities (ratingBreakdown (reviews c'));
                rb_location (ratingBreakdown (reviews c'));
                rb_value (ratingBreakdown (reviews c'))] ->
          0 <= x <= 5 /\ (active_reviews collegeId db <> [] -> 1 <= x)).
Proof.
  intros Hc Hok.
  eexists. split; [apply (updateCollegeRatings_lookup _ _ _ Hc) |].
  cbn [reviews].
  pose proof (fun f Hf => active_reviews_range collegeId db f Hok Hf) as Hall.
  destruct (active_reviews collegeId db) as [| r rs] eqn:E.
  - intros x Hx. cbn in Hx.
    assert (x = 0) as -> by (repeat (destruct Hx as [<- | Hx]; [reflexivity |]); destruct Hx).
    split; [lra | congruence].
  - assert (Hm : forall f, (forall rt, ratings_ok rt = true -> 1 <= f rt <= 5) ->
                           1 <= reduce_sum f (r :: rs) / len (r :: rs) <= 5).
    { intros f Hf. rewrite reduce_mean. apply mean_bounds; [discriminate | apply Hall, Hf]. }
    unfold written_summary. change (length (r :: rs) =? 0)%nat with false. cbv iota.
    cbn [averageRating ratingBreakdown rb_academics rb_campusLife rb_facilities
         rb_location rb_value].
    intros x Hx.
    assert (Hx1 : 1 <= x <= 5).
    { cbn [In] in Hx.
      destruct Hx as [<- | [<- | [<- | [<- | [<- | [<- | []]]]]]].
      - apply (round_tenths_bounds 1 5). apply Hm. intros rt Hrt.
        apply ratings_ok_range in Hrt. tauto.
      - apply Hm. intros rt Hrt. apply ratings_ok_range in Hrt. tauto.
      - apply Hm. intros rt Hrt. apply ratings_ok_range in Hrt. tauto.
      - apply Hm. intros rt Hrt. apply ratings_ok_range in Hrt. tauto.
      - apply Hm. intros rt Hrt. apply ratings_ok_range in Hrt. tauto.
      - apply Hm. intros rt Hrt. apply ratings_ok_range in Hrt. tauto. }
    split; [lra | intros _; lra].
Qed.

Lemma updateCollegeRatings_bounds_witness :
  exists c',
    Colleges (snd (updateCollegeRatings 1 db_three_reviews)) !! 1%N = Some c'
    /\ 0 <= averageRating (reviews c') <= 5.
Proof.
  assert (Hok : forall r, In r (active_reviews 1 db_three_reviews) ->
                          ratings_ok (ratings r) = true).
  { intros r Hr. vm_compute in Hr.
    destruct Hr as [<- | [<- | [<- | []]]]; reflexivity. }
  destruct (updateCollegeRatings_bounds 1 db_three_reviews sample_college eq_refl Hok)
    as (c' & Hl & Hb).
  exists c'. split; [exact Hl |]. apply Hb. left. reflexivity.
Defined.



(** ** More on the handlers *)

Section HandlersMore.

Lemma save_run (r : Review) (db : Db) :
  validateSync r = true ->
  save r db
  = (Normal tt,
     set_Reviews (map (fun r' => if (_id r' =? _id r)%N then r else r') (Reviews db)) db).
Proof. intros Hv. unfold save. rewrite Hv. reflexivity. Qed.

Lemma save_fail (r : Review) (db : Db) :
  validateSync r = false -> save r db = (Throw ValidationError, db).
Proof. intros Hv. unfold save. rewrite Hv. reflexivity. Qed.

Lemma find_None (q : Review -> bool) (rs : list Review) :
  (forall r, In r rs -> q r = false) -> List.find q rs = None.
Proof.
  intros Hq. destruct (List.find q rs) as [r |] eqn:Hf; [| reflexivity].
  apply find_some in Hf as [Hin Hr]. rewrite (Hq r Hin) in Hr. discriminate.
Qed.

Lemma unique_id_eq (rs : list Review) (x y : Review) :
  NoDup (map _id rs) -> In x rs -> In y rs -> _id x = _id y -> x = y.
Proof.
  induction rs as [| r rs IH]; simpl; [tauto |].
  intros Hnd Hx Hy Heq. apply NoDup_cons in Hnd as [Hnotin Hnd].
  rewrite list_elem_of_In in Hnotin.
  destruct Hx as [-> | Hx], Hy as [-> | Hy]; auto.
  - exfalso. apply Hnotin. rewrite Heq. apply in_map. exact Hy.
  - exfalso. apply Hnotin. rewrite <- Heq. apply in_map. exact Hx.
Qed.

(** Writing [r2] over the stored document with its [_id] keeps every
    projection of the collection on which the two agree. *)
Lemma replace_same_key {K : Type} (key : Review -> K) (rs : list Review) (r r2 : Review) :
  NoDup (map _id rs) ->
  In r rs ->
  _id r2 = _id r ->
  key r2 = key r ->
  map key (map (fun r' => if (_id r' =? _id r2)%N then r2 else r') rs) = map key rs.
Proof.
  intros Hnd Hin Hid Hkey. rewrite map_map. apply map_ext_in. intros x Hx.
  destruct (N.eqb_spec (_id x) (_id r2)) as [Heq | Hne]; [| reflexivity].
  rewrite Hkey. f_equal. symmetry.
  apply (unique_id_eq rs x r Hnd Hx Hin). congruence.
Qed.

Lemma save_key {K : Type} (key : Review -> K) (r r2 : Review) (db : Db) :
  ids_unique db ->
  In r (Reviews db) ->
  _id r2 = _id r ->
  key r2 = key r ->
  map key (Reviews (snd (save r2 db))) = map key (Reviews db).
Proof.
  intros Hnd Hin Hid Hkey. unfold save.
  destruct (validateSync r2); [| reflexivity]. cbn.
  apply (replace_same_key key _ r r2); assumption.
Qed.

End HandlersMore.

Section Create.

Lemma new_id_fresh (rs : list Review) : ~ In (new_id rs) (map _id rs).
Proof.
  assert (Hmax : forall x, In x (map _id rs) -> (x <= fold_right N.max 0 (map _id rs))%N).
  { induction (map _id rs) as [| y ys IH]; simpl; [tauto |].
    intros x [-> | Hx]; [lia | specialize (IH x Hx); lia]. }
  intros Hin. apply Hmax in Hin. unfold new_id in Hin. lia.
Qed.

Lemma no_existing_review (uid cid : ObjectId) (rs : list Review) :
  List.find (fun r => (user r =? uid)%N && (college r =? cid)%N) rs = None
  <-> (forall r, In r rs -> user r = uid -> college r <> cid).
Proof.
  split.
  - intros Hf r Hin Hu Hc. apply (find_none _ _ Hf) in Hin.
    rewrite Hu, Hc, !N.eqb_refl in Hin. discriminate.
  - intros Hall. apply find_None. intros r Hin.
    destruct (N.eqb_spec (user r) uid) as [Hu | Hu]; [| reflexivity].
    destruct (N.eqb_spec (college r) cid) as [Hc | Hc]; [| reflexivity].
    exfalso. exact (Hall r Hin Hu Hc).
Qed.

Lemma unique_index_free (r : Review) (rs : list Review) :
  List.find (fun r0 => (user r0 =? user r)%N && (college r0 =? college r)%N) rs = None ->
  existsb (same_user_college r) rs = false.
Proof.
  intros Hf. apply not_true_iff_false. intros Hex.
  apply existsb_exists in Hex as (x & Hin & Hx).
  apply (find_none _ _ Hf) in Hin. unfold same_user_college in Hx. congruence.
Qed.

(** The outcomes of [POST /api/reviews], guard by guard. *)
Lemma createReview_run (req : CreateRequest) (db : Db) :
  createReview req db
  = if negb (length (validationResult req) =? 0)%nat then
      (Res 400 (J_errors (validationResult req)), db)
    else
      match Colleges db !! b_college (req_body req) with
      | None => (Res 404 (J_message "College not found"), db)
      | Some _ =>
          match List.find (fun r => (user r =? req_user_id req)%N
                                    && (college r =? b_college (req_body req))%N)
                  (Reviews db) with
          | Some _ => (Res 400 (J_message "You have already reviewed this college"), db)
          | None =>
              if validateSync
                   (document_of (req_body req) (req_user_id req) (new_id (Reviews db)))
              then
                (Res 201 (J_success "Review created successfully"),
                 snd (updateCollegeRatings (b_college (req_body req))
                        (set_Reviews
                           (Reviews db
                            ++ [document_of (req_body req) (req_user_id req)
                                  (new_id (Reviews db))]) db)))
              else (Res 500 (J_message "Server error"), db)
          end
      end.
Proof.
  unfold createReview. run_handler.
  destruct (negb _); [reflexivity |].
  destruct (Colleges db !! b_college (req_body req)); [| reflexivity].
  cbn beta iota.
  destruct (List.find _ (Reviews db)) eqn:Hf; [reflexivity |].
  cbn beta iota.
  change (mkReview (new_id (Reviews db)) (req_user_id req) (b_college (req_body req))
            (b_ratings (req_body req)) (b_title (req_body req)) (b_content (req_body req))
            (default [] (b_pros (req_body req))) (default [] (b_cons (req_body req)))
            (b_wouldRecommend (req_body req)) (b_studentType (req_body req))
            (default {| count := 0; users := [] |} (b_helpful (req_body req)))
            (default {| count := 0; users := [] |} (b_reported (req_body req)))
            (default true (b_isActive (req_body req))))
    with (document_of (req_body req) (req_user_id req) (new_id (Reviews db))).
  set (doc := document_of _ _ _).
  unfold save_new. destruct (validateSync doc); cbn [negb]; [| reflexivity].
  rewrite (unique_index_free doc (Reviews db) Hf).
  rewrite updateCollegeRatings_run. reflexivity.
Qed.

End Create.


Section Runs.

(** The outcomes of the other handlers, guard by guard. *)
Lemma updateReview_run (id uid : ObjectId) (body : UpdateBody) (db : Db) :
  updateReview id uid body db
  = match List.find (fun r => (_id r =? id)%N && (user r =? uid)%N) (Reviews db) with
    | None => (Res 404 (J_message "Review not found or unauthorized"), db)
    | Some r =>
        if validateSync (apply_updates body r) then
          (Res 200 (J_success "Review updated successfully"),
           snd (updateCollegeRatings (college r)
                  (set_Reviews (written_over (apply_updates body r) (Reviews db)) db)))
        else (Res 500 (J_message "Server error"), db)
    end.
Proof.
  unfold updateReview. run_handler.
  destruct (List.find _ (Reviews db)) as [r |]; [| reflexivity]. cbn beta iota.
  unfold save. destruct (validateSync (apply_updates body r)); cbn [negb]; [| reflexivity].
  rewrite !updateCollegeRatings_run. reflexivity.
Qed.

Lemma deleteReview_run (id uid : ObjectId) (db : Db) :
  deleteReview id uid db
  = match List.find (fun r => (_id r =? id)%N && (user r =? uid)%N) (Reviews db) with
    | None => (Res 404 (J_message "Review not found or unauthorized"), db)
    | Some r =>
        if validateSync r then
          (Res 200 (J_success "Review deleted successfully"),
           snd (updateCollegeRatings (college r)
                  (set_Reviews (written_over (set_isActive false r) (Reviews db)) db)))
        else (Res 500 (J_message "Server error"), db)
    end.
Proof.
  unfold deleteReview. run_handler.
  destruct (List.find _ (Reviews db)) as [r |]; [| reflexivity]. cbn beta iota.
  unfold save. change (validateSync (set_isActive false r)) with (validateSync r).
  destruct (validateSync r); cbn [negb]; [| reflexivity].
  rewrite !updateCollegeRatings_run. reflexivity.
Qed.

Lemma validateSync_helpful_after (uid : ObjectId) (flag : bool) (r : Review) :
  validateSync (helpful_after uid flag r) = validateSync r.
Proof.
  unfold helpful_after.
  destruct flag, (users_includes (users (helpful r)) uid); reflexivity.
Qed.

Lemma markHelpful_run (id uid : ObjectId) (helpful_flag : bool) (db : Db) :
  markHelpful id uid helpful_flag db
  = match List.find (fun r => (_id r =? id)%N && Bool.eqb (isActive r) true) (Reviews db) with
    | None => (Res 404 (J_message "Review not found"), db)
    | Some r =>
        if validateSync r then
          (Res 200 (J_success (if helpful_flag then "Review marked as helpful"
                               else "Helpful vote removed")),
           set_Reviews (written_over (helpful_after uid helpful_flag r) (Reviews db)) db)
        else (Res 500 (J_message "Server error"), db)
    end.
Proof.
  unfold markHelpful. run_handler.
  destruct (List.find _ (Reviews db)) as [r |]; [| reflexivity]. cbn beta iota.
  fold (helpful_after uid helpful_flag r).
  unfold save. rewrite validateSync_helpful_after.
  destruct (validateSync r); reflexivity.
Qed.

Lemma reportReview_run (id uid : ObjectId) (db : Db) :
  reportReview id uid db
  = match List.find (fun r => (_id r =? id)%N && Bool.eqb (isActive r) true) (Reviews db) with
    | None => (Res 404 (J_message "Review not found"), db)
    | Some r =>
        if users_includes (users (reported r)) uid then
          (Res 400 (J_message "You have already reported this review"), db)
        else if validateSync r then
          (Res 200 (J_success "Review reported successfully"),
           set_Reviews (written_over (reported_after uid r) (Reviews db)) db)
        else (Res 500 (J_message "Server error"), db)
    end.
Proof.
  unfold reportReview. run_handler.
  destruct (List.find _ (Reviews db)) as [r |]; [| reflexivity]. cbn beta iota.
  destruct (users_includes (users (reported r)) uid); [reflexivity |].
  fold (reported_after uid r).
  unfold save. change (validateSync (reported_after uid r)) with (validateSync r).
  destruct (validateSync r); reflexivity.
Qed.

Lemma moderateReview_approve_run (id : ObjectId) (db : Db) :
  moderateReview id "approve" db
  = match List.find (fun r => (_id r =? id)%N) (Reviews db) with
    | None => (Res 404 (J_message "Review not found"), db)
    | Some r =>
        if validateSync r then
          (Res 200 (J_success "Review approved successfully"),
           set_Reviews
             (written_over (set_reported {| count := 0; users := [] |} r) (Reviews db)) db)
        else (Res 500 (J_message "Server error"), db)
    end.
Proof.
  unfold moderateReview. run_handler.
  destruct (List.find _ (Reviews db)) as [r |]; [| reflexivity].
  cbn [String.eqb Ascii.eqb Bool.eqb]. cbn beta iota.
  unfold save.
  change (validateSync (set_reported {| count := 0; users := [] |} r))
    with (validateSync r).
  destruct (validateSync r); reflexivity.
Qed.

Lemma moderateReview_other_run (id : ObjectId) (action : string) (db : Db) :
  String.eqb action "remove" = false ->
  String.eqb action "approve" = false ->
  moderateReview id action db
  = match List.find (fun r => (_id r =? id)%N) (Reviews db) with
    | None => (Res 404 (J_message "Review not found"), db)
    | Some r =>
        if validateSync r then
          (Res 200 (J_success ("Review " ++ action ++ "d successfully")),
           set_Reviews (written_over r (Reviews db)) db)
        else (Res 500 (J_message "Server error"), db)
    end.
Proof.
  intros Hr Ha. unfold moderateReview. run_handler.
  destruct (List.find _ (Reviews db)) as [r |]; [| reflexivity].
  rewrite Hr, Ha. cbn beta iota.
  unfold save. destruct (validateSync r); reflexivity.
Qed.

Lemma moderateReview_remove_run (id : ObjectId) (db : Db) :
  moderateReview id "remove" db
  = match List.find (fun r => (_id r =? id)%N) (Reviews db) with
    | None => (Res 404 (J_message "Review not found"), db)
    | Some r =>
        if validateSync r then
          (Res 200 (J_success "Review removed successfully"),
           set_Reviews (written_over (set_isActive false r) (Reviews db))
             (snd (updateCollegeRatings (college r) db)))
        else (Res 500 (J_message "Server error"), snd (updateCollegeRatings (college r) db))
    end.
Proof.
  unfold moderateReview. run_handler.
  destruct (List.find _ (Reviews db)) as [r |]; [| reflexivity].
  cbn [String.eqb Ascii.eqb Bool.eqb]. cbn beta iota.
  rewrite !updateCollegeRatings_run. cbn beta iota. cbn [snd].
  unfold save. change (validateSync (set_isActive false r)) with (validateSync r).
  destruct (validateSync r); reflexivity.
Qed.

End Runs.

Section Keys.

Lemma written_over_key {K : Type} (key : Review -> K) (rs : list Review) (r r2 : Review) :
  NoDup (map _id rs) ->
  In r rs ->
  _id r2 = _id r ->
  key r2 = key r ->
  map key (written_over r2 rs) = map key rs.
Proof. apply replace_same_key. Qed.

Lemma find_id_In (id : ObjectId) (p : Review -> bool) (rs : list Review) (r : Review) :
  List.find (fun r => (_id r =? id)%N && p r) rs = Some r ->
  In r rs /\ _id r = id /\ p r = true.
Proof.
  intros Hf. apply find_some in Hf as [Hin Hq].
  apply andb_true_iff in Hq as [Hid Hp]. apply N.eqb_eq in Hid. auto.
Qed.

Lemma findById_In (id : ObjectId) (rs : list Review) (r : Review) :
  List.find (fun r => (_id r =? id)%N) rs = Some r -> In r rs /\ _id r = id.
Proof.
  intros Hf. apply find_some in Hf as [Hin Hid]. apply N.eqb_eq in Hid. auto.
Qed.

Lemma helpful_after_keys (uid : ObjectId) (flag : bool) (r : Review) :
  (_id (helpful_after uid flag r), user (helpful_after uid flag r),
   college (helpful_after uid flag r), ratings (helpful_after uid flag r),
   isActive (helpful_after uid flag r), reported (helpful_after uid flag r))
  = (_id r, user r, college r, ratings r, isActive r, reported r).
Proof.
  unfold helpful_after.
  destruct flag, (users_includes (users (helpful r)) uid); reflexivity.
Qed.

(** After any handler but create, the collection has the same [_id]s and
    the same (user, college) pairs, in the same order. *)
Lemma handlers_keep_keys (db : Db) (key : Review -> ObjectId * (ObjectId * ObjectId)) :
  key = (fun r => (_id r, (user r, college r))) ->
  ids_unique db ->
  (forall id uid body, map key (Reviews (snd (updateReview id uid body db)))
                       = map key (Reviews db))
  /\ (forall id uid, map key (Reviews (snd (deleteReview id uid db))) = map key (Reviews db))
  /\ (forall id uid flag, map key (Reviews (snd (markHelpful id uid flag db)))
                          = map key (Reviews db))
  /\ (forall id uid, map key (Reviews (snd (reportReview id uid db))) = map key (Reviews db))
  /\ (forall id action, map key (Reviews (snd (moderateReview id action db)))
                        = map key (Reviews db)).
Proof.
  intros -> Hnd. unfold ids_unique in Hnd. repeat split.
  - intros id uid body. rewrite updateReview_run.
    destruct (List.find _ (Reviews db)) as [r |] eqn:Hf; [| reflexivity].
    apply find_id_In in Hf as (Hin & _ & _).
    destruct (validateSync _); [| reflexivity].
    cbn [snd]. rewrite updateCollegeRatings_Reviews. cbn [set_Reviews Reviews].
    apply (written_over_key _ _ r); auto.
  - intros id uid. rewrite deleteReview_run.
    destruct (List.find _ (Reviews db)) as [r |] eqn:Hf; [| reflexivity].
    apply find_id_In in Hf as (Hin & _ & _).
    destruct (validateSync _); [| reflexivity].
    cbn [snd]. rewrite updateCollegeRatings_Reviews. cbn [set_Reviews Reviews].
    apply (written_over_key _ _ r); auto.
  - intros id uid flag. rewrite markHelpful_run.
    destruct (List.find _ (Reviews db)) as [r |] eqn:Hf; [| reflexivity].
    apply find_id_In in Hf as (Hin & _ & _).
    destruct (validateSync _); [| reflexivity].
    cbn [snd set_Reviews Reviews].
    pose proof (helpful_after_keys uid flag r) as Hk. injection Hk as H1 H2 H3 _ _ _.
    apply (written_over_key _ _ r); [assumption .. |]. congruence.
  - intros id uid. rewrite reportReview_run.
    destruct (List.find _ (Reviews db)) as [r |] eqn:Hf; [| reflexivity].
    apply find_id_In in Hf as (Hin & _ & _).
    destruct (users_includes _ _); [reflexivity |].
    destruct (validateSync _); [| reflexivity].
    cbn [snd set_Reviews Reviews].
    apply (written_over_key _ _ r); auto.
  - intros id action.
    destruct (String.eqb_spec action "remove") as [-> | Hr].
    { rewrite moderateReview_remove_run.
      destruct (List.find _ (Reviews db)) as [r |] eqn:Hf; [| reflexivity].
      apply findById_In in Hf as (Hin & _).
      destruct (validateSync _); cbn [snd set_Reviews Reviews];
        [| apply f_equal, updateCollegeRatings_Reviews].
      apply (written_over_key _ _ r); auto. }
    destruct (String.eqb_spec action "approve") as [-> | Ha].
    { rewrite moderateReview_approve_run.
      destruct (List.find _ (Reviews db)) as [r |] eqn:Hf; [| reflexivity].
      apply findById_In in Hf as (Hin & _).
      destruct (validateSync _); [| reflexivity]. cbn [snd set_Reviews Reviews].
      apply (written_over_key _ _ r); auto. }
    rewrite moderateReview_other_run
      by (apply String.eqb_neq; assumption).
    destruct (List.find _ (Reviews db)) as [r |] eqn:Hf; [| reflexivity].
    apply findById_In in Hf as (Hin & _).
    destruct (validateSync _); [| reflexivity]. cbn [snd set_Reviews Reviews].
    apply (written_over_key _ _ r); auto.
Qed.

End Keys.

(** X6. The keys of the collection survive every handler: if the [_id]s
    are pairwise different and no two reviews have the same (user, college),
    the same holds after a create, an update, a delete, a helpful vote, a
    report and a moderation. *)
Theorem store_keys_preserved (db : Db) :
  ids_unique db ->
  one_review_per_pair db ->
  (forall req, ids_unique (snd (createReview req db))
               /\ one_review_per_pair (snd (createReview req db)))
  /\ (forall id uid body, ids_unique (snd (updateReview id uid body db))
                          /\ one_review_per_pair (snd (updateReview id uid body db)))
  /\ (forall id uid, ids_unique (snd (deleteReview id uid db))
                     /\ one_review_per_pair (snd (deleteReview id uid db)))
  /\ (forall id uid flag, ids_unique (snd (markHelpful id uid flag db))
                          /\ one_review_per_pair (snd (markHelpful id uid flag db)))
  /\ (forall id uid, ids_unique (snd (reportReview id uid db))
                     /\ one_review_per_pair (snd (reportReview id uid db)))
  /\ (forall id action, ids_unique (snd (moderateReview id action db))
                        /\ one_review_per_pair (snd (moderateReview id action db))).
Proof.
  intros Hid Hpair.
  assert (Hkeys : forall rs,
             map (fun r => (_id r, (user r, college r))) rs
             = map (fun r => (_id r, (user r, college r))) (Reviews db) ->
             NoDup (map _id rs) /\ NoDup (map (fun r => (user r, college r)) rs)).
  { intros rs Hk.
    assert (H1 : map _id rs = map _id (Reviews db)).
    { rewrite <- (map_map (fun r => (_id r, (user r, college r))) fst), Hk, map_map.
      reflexivity. }
    assert (H2 : map (fun r => (user r, college r)) rs
                 = map (fun r => (user r, college r)) (Reviews db)).
    { rewrite <- (map_map (fun r => (_id r, (user r, college r))) snd), Hk, map_map.
      reflexivity. }
    rewrite H1, H2. split; assumption. }
  destruct (handlers_keep_keys db _ eq_refl Hid) as (Hu & Hd & Hh & Hr & Hm).
  split; [| repeat split; apply Hkeys; auto].
  intros req. rewrite createReview_run.
  destruct (negb _); [split; assumption |].
  destruct (Colleges db !! _); [| split; assumption].
  destruct (List.find _ (Reviews db)) eqn:Hf; [split; assumption |].
  destruct (validateSync _); [| split; assumption].
  unfold ids_unique, one_review_per_pair. cbn [snd].
  rewrite updateCollegeRatings_Reviews. cbn [set_Reviews Reviews].
  rewrite !map_app. cbn [map]. split.
  - apply NoDup_app. split; [exact Hid |]. split; [| apply NoDup_singleton].
    intros x Hx Hx'. apply list_elem_of_singleton in Hx'. subst x.
    apply list_elem_of_In in Hx. exact (new_id_fresh _ Hx).
  - apply NoDup_app. split; [exact Hpair |]. split; [| apply NoDup_singleton].
    intros x Hx Hx'. apply list_elem_of_singleton in Hx'. subst x.
    apply list_elem_of_In, in_map_iff in Hx as (r & Hr' & Hin).
    injection Hr' as Hu' Hc'. cbn [user college document_of] in Hu', Hc'.
    exact (proj1 (no_existing_review _ _ _) Hf r Hin Hu' Hc').
Qed.

Lemma db_three_reviews_keys :
  ids_unique db_three_reviews /\ one_review_per_pair db_three_reviews.
Proof.
  unfold ids_unique, one_review_per_pair.
  split; apply (bool_decide_unpack _); vm_compute; exact I.
Qed.

Lemma store_keys_preserved_witness :
  ids_unique db_three_reviews
  /\ one_review_per_pair db_three_reviews
  /\ ids_unique (snd (createReview (sample_request 15 1) db_three_reviews))
  /\ one_review_per_pair (snd (createReview (sample_request 15 1) db_three_reviews)).
Proof.
  destruct db_three_reviews_keys as [Hid Hpair].
  split; [exact Hid |]. split; [exact Hpair |].
  apply (proj1 (store_keys_preserved db_three_reviews Hid Hpair)).
Defined.

(** X7. [PUT /api/reviews/:id] cannot touch the identity, the owner, the
    college, the student type, the votes, the reports or the [isActive] flag
    of any review: after it, whatever its body and outcome, every stored
    review has these fields as before. *)
Theorem updateReview_protected_fields (id uid : ObjectId) (body : UpdateBody) (db : Db) :
  ids_unique db ->
  map protected_fields (Reviews (snd (updateReview id uid body db)))
  = map protected_fields (Reviews db).
Proof.
  intros Hnd. rewrite updateReview_run.
  destruct (List.find _ (Reviews db)) as [r |] eqn:Hf; [| reflexivity].
  apply find_id_In in Hf as (Hin & _ & _).
  destruct (validateSync _); [| reflexivity].
  cbn [snd]. rewrite updateCollegeRatings_Reviews. cbn [set_Reviews Reviews].
  apply (written_over_key _ _ r); auto.
Qed.

Lemma updateReview_protected_fields_witness :
  map protected_fields
    (Reviews (snd (updateReview 1 11
                     (mkUpdateBody None None (Some (mkRatings 2 3 2 3 2 3)) None None None)
                     db_three_reviews)))
  = map protected_fields (Reviews db_three_reviews).
Proof.
  apply updateReview_protected_fields. exact (proj1 db_three_reviews_keys).
Defined.

(** X8. Only the author reaches a review through update and delete: when
    no stored review has both the given [_id] and the requesting user, both
    handlers answer 404 "Review not found or unauthorized" and leave the
    database as it is. *)
Theorem update_delete_author_only (id uid : ObjectId) (db : Db) :
  (forall r, In r (Reviews db) -> _id r = id -> user r <> uid) ->
  (forall body, updateReview id uid body db
                = (Res 404 (J_message "Review not found or unauthorized"), db))
  /\ deleteReview id uid db = (Res 404 (J_message "Review not found or unauthorized"), db).
Proof.
  intros Hnot.
  assert (Hf : List.find (fun r => (_id r =? id)%N && (user r =? uid)%N) (Reviews db) = None).
  { apply find_None. intros r Hin.
    destruct (N.eqb_spec (_id r) id) as [Hid | Hid]; [| reflexivity].
    destruct (N.eqb_spec (user r) uid) as [Hu | Hu]; [| reflexivity].
    exfalso. exact (Hnot r Hin Hid Hu). }
  split.
  - intros body. rewrite updateReview_run, Hf. reflexivity.
  - rewrite deleteReview_run, Hf. reflexivity.
Qed.

Lemma update_delete_author_only_witness :
  deleteReview 1 12 db_three_reviews
  = (Res 404 (J_message "Review not found or unauthorized"), db_three_reviews).
Proof.
  apply (proj2 (update_delete_author_only 1 12 db_three_reviews
                  ltac:(intros r Hin Hid; cbn in Hin;
                        destruct Hin as [<- | [<- | [<- | [<- | []]]]];
                        discriminate))).
Defined.

(** X9. An update whose [ratings] hold a value outside [1,5] is refused by
    the schema validators of [save]: the answer is the 500 "Server error",
    nothing is written and the rating of the college is not recomputed. *)
Theorem updateReview_invalid_ratings (id uid : ObjectId) (body : UpdateBody) (db : Db)
    (r : Review) (rt : Ratings) :
  List.find (fun r => (_id r =? id)%N && (user r =? uid)%N) (Reviews db) = Some r ->
  u_ratings body = Some rt ->
  ratings_ok rt = false ->
  updateReview id uid body db = (Res 500 (J_message "Server error"), db).
Proof.
  intros Hf Hrt Hbad. rewrite updateReview_run, Hf.
  assert (Hv : validateSync (apply_updates body r) = false).
  { apply not_true_iff_false. intros Hv. apply not_true_iff_false in Hbad. apply Hbad.
    unfold validateSync in Hv. cbn [ratings apply_updates] in Hv. rewrite Hrt in Hv.
    do 5 (apply andb_true_iff in Hv as [Hv _]). exact Hv. }
  rewrite Hv. reflexivity.
Qed.

Lemma updateReview_invalid_ratings_witness :
  updateReview 1 11 (mkUpdateBody None None (Some (mkRatings 6 3 2 3 2 3)) None None None)
    db_three_reviews
  = (Res 500 (J_message "Server error"), db_three_reviews).
Proof.
  apply (updateReview_invalid_ratings 1 11 _ db_three_reviews
           (sample_review 1 11 1 5 true) (mkRatings 6 3 2 3 2 3));
    reflexivity.
Defined.

(** X10. A soft-deleted review is out of reach: after a successful delete,
    [GET /api/reviews/:id] answers 404, and so do a helpful vote and a
    report on it, which write nothing. *)
Theorem deleteReview_hides (id uid : ObjectId) (db : Db) :
  status (fst (deleteReview id uid db)) = 200%nat ->
  fst (getReview id (snd (deleteReview id uid db)))
  = inr (Res 404 (J_message "Review not found"))
  /\ (forall u flag,
        markHelpful id u flag (snd (deleteReview id uid db))
        = (Res 404 (J_message "Review not found"), snd (deleteReview id uid db)))
  /\ (forall u,
        reportReview id u (snd (deleteReview id uid db))
        = (Res 404 (J_message "Review not found"), snd (deleteReview id uid db))).
Proof.
  intros Hok.
  assert (Hf : List.find (fun r => (_id r =? id)%N && Bool.eqb (isActive r) true)
                 (Reviews (snd (deleteReview id uid db))) = None).
  { revert Hok. rewrite deleteReview_run.
    destruct (List.find _ (Reviews db)) as [r |] eqn:Hr; [| discriminate].
    apply find_id_In in Hr as (_ & Hid & _).
    destruct (validateSync r); [| discriminate]. intros _.
    cbn [snd]. rewrite updateCollegeRatings_Reviews. cbn [set_Reviews Reviews].
    apply find_None. intros x Hx. unfold written_over in Hx.
    apply in_map_iff in Hx as (y & <- & _). cbn [_id set_isActive].
    destruct (N.eqb_spec (_id y) (_id r)) as [Heq | Hne].
    - cbn [isActive set_isActive]. apply andb_false_r.
    - rewrite Hid in Hne. apply N.eqb_neq in Hne. rewrite Hne. reflexivity. }
  split; [| split].
  - unfold getReview. run_handler. rewrite Hf. reflexivity.
  - intros u flag. rewrite markHelpful_run, Hf. reflexivity.
  - intros u. rewrite reportReview_run, Hf. reflexivity.
Qed.

Lemma deleteReview_hides_witness :
  fst (getReview 1 (snd (deleteReview 1 11 db_three_reviews)))
  = inr (Res 404 (J_message "Review not found")).
Proof.
  apply (proj1 (deleteReview_hides 1 11 db_three_reviews ltac:(vm_compute; reflexivity))).
Defined.

Section VotesMore.

Lemma find_written_over (id : ObjectId) (p : Review -> bool) (rs : list Review)
    (r r2 : Review) :
  List.find (fun x => (_id x =? id)%N && p x) rs = Some r ->
  _id r2 = id ->
  p r2 = true ->
  List.find (fun x => (_id x =? id)%N && p x) (written_over r2 rs) = Some r2.
Proof.
  intros Hf Hid Hp. induction rs as [| x xs IH]; [discriminate |].
  cbn [written_over map List.find] in *. fold (written_over r2 xs).
  destruct (N.eqb_spec (_id x) (_id r2)) as [Heq | Hne].
  - rewrite Hid, N.eqb_refl, Hp. reflexivity.
  - rewrite Hid in Hne. apply N.eqb_neq in Hne. rewrite Hne in *. cbn [andb] in *.
    apply IH. exact Hf.
Qed.

Lemma written_over_idem (r : Review) (rs : list Review) :
  written_over r (written_over r rs) = written_over r rs.
Proof.
  unfold written_over. rewrite map_map. apply map_ext. intros x.
  destruct (N.eqb_spec (_id x) (_id r)) as [Heq | Hne].
  - rewrite N.eqb_refl. reflexivity.
  - apply N.eqb_neq in Hne. rewrite Hne. reflexivity.
Qed.

Lemma written_over_back (r r2 : Review) (rs : list Review) :
  NoDup (map _id rs) ->
  In r rs ->
  _id r2 = _id r ->
  written_over r (written_over r2 rs) = rs.
Proof.
  intros Hnd Hin Hid. unfold written_over. rewrite map_map.
  rewrite <- (map_id rs) at 2. apply map_ext_in. intros x Hx.
  destruct (N.eqb_spec (_id x) (_id r2)) as [Heq | Hne].
  - rewrite Hid, N.eqb_refl. symmetry.
    apply (unique_id_eq rs x r Hnd Hx Hin). congruence.
  - rewrite Hid in Hne. apply N.eqb_neq in Hne. rewrite Hne. reflexivity.
Qed.

Lemma written_over_In (r2 x : Review) (rs : list Review) :
  In x (written_over r2 rs) -> _id x = _id r2 -> x = r2.
Proof.
  unfold written_over. intros Hx Hid. apply in_map_iff in Hx as (y & <- & _).
  destruct (N.eqb_spec (_id y) (_id r2)) as [Heq | Hne]; [reflexivity | contradiction].
Qed.

Lemma users_includes_push (us : list ObjectId) (uid : ObjectId) :
  users_includes (us ++ [uid]) uid = true.
Proof. apply users_includes_In, in_or_app. right. left. reflexivity. Qed.

Lemma users_includes_filter (us : list ObjectId) (uid : ObjectId) :
  users_includes (List.filter (fun userId => negb (userId =? uid)%N) us) uid = false.
Proof.
  apply not_true_iff_false. intros Hin. apply users_includes_In, filter_In in Hin as [_ Hne].
  rewrite N.eqb_refl in Hne. discriminate.
Qed.

Lemma filter_push (us : list ObjectId) (uid : ObjectId) :
  users_includes us uid = false ->
  List.filter (fun userId => negb (userId =? uid)%N) (us ++ [uid]) = us.
Proof.
  intros Hnot. rewrite List.filter_app. cbn [List.filter]. rewrite N.eqb_refl. cbn [negb].
  rewrite app_nil_r. induction us as [| u us IH]; [reflexivity |].
  cbn [users_includes existsb] in Hnot. apply orb_false_iff in Hnot as [Hu Hus].
  cbn [List.filter]. rewrite Hu. cbn [negb]. f_equal. apply IH. exact Hus.
Qed.

(** After the handler's edit the user is a voter exactly when the flag is
    set. *)
Lemma helpful_after_voter (uid : ObjectId) (flag : bool) (r : Review) :
  users_includes (users (helpful (helpful_after uid flag r))) uid = flag.
Proof.
  unfold helpful_after.
  destruct flag, (users_includes (users (helpful r)) uid) eqn:Hv;
    cbn [negb helpful set_helpful users]; auto using users_includes_push, users_includes_filter.
Qed.

Lemma helpful_after_idem (uid : ObjectId) (flag : bool) (r : Review) :
  helpful_after uid flag (helpful_after uid flag r) = helpful_after uid flag r.
Proof.
  pose proof (helpful_after_voter uid flag r) as Hv.
  unfold helpful_after at 1. rewrite Hv. destruct flag; reflexivity.
Qed.

Lemma helpful_after_undo (uid : ObjectId) (r : Review) :
  users_includes (users (helpful r)) uid = false ->
  helpful_after uid false (helpful_after uid true r) = r.
Proof.
  intros Hnot. unfold helpful_after at 2. rewrite Hnot. cbn [negb].
  unfold helpful_after. cbn [helpful set_helpful users count].
  rewrite users_includes_push, (filter_push _ _ Hnot).
  replace (count (helpful r) + 1 - 1)%Z with (count (helpful r)) by lia.
  destruct r as [i u c rt t ct ps cs wr st [hc hu] rp a]. reflexivity.
Qed.

Lemma find_written_over_id (id : ObjectId) (p : Review -> bool) (rs : list Review)
    (r2 : Review) :
  (exists x, In x rs /\ _id x = id) ->
  _id r2 = id ->
  p r2 = true ->
  List.find (fun x => (_id x =? id)%N && p x) (written_over r2 rs) = Some r2.
Proof.
  intros (x & Hin & Hx) Hid Hp. induction rs as [| y ys IH]; [destruct Hin |].
  cbn [written_over map List.find]. fold (written_over r2 ys).
  destruct (N.eqb_spec (_id y) (_id r2)) as [Heq | Hne].
  - rewrite Hid, N.eqb_refl, Hp. reflexivity.
  - rewrite Hid in Hne. destruct Hin as [-> | Hin]; [contradiction |].
    apply N.eqb_neq in Hne. rewrite Hne. cbn [andb]. apply IH. exact Hin.
Qed.

Lemma helpful_after_id (uid : ObjectId) (flag : bool) (r : Review) :
  _id (helpful_after uid flag r) = _id r.
Proof. pose proof (helpful_after_keys uid flag r) as Hk. congruence. Qed.

Lemma helpful_after_isActive (uid : ObjectId) (flag : bool) (r : Review) :
  isActive (helpful_after uid flag r) = isActive r.
Proof. pose proof (helpful_after_keys uid flag r) as Hk. congruence. Qed.

End VotesMore.

(** X11. A helpful vote followed by its withdrawal changes nothing: for an
    active, schema-valid review on which the user has not voted, voting and
    then un-voting gives back the database as it was. *)
Theorem markHelpful_vote_unvote (id uid : ObjectId) (db : Db) (r : Review) :
  ids_unique db ->
  List.find (fun r => (_id r =? id)%N && Bool.eqb (isActive r) true) (Reviews db) = Some r ->
  validateSync r = true ->
  users_includes (users (helpful r)) uid = false ->
  fst (markHelpful id uid true db) = Res 200 (J_success "Review marked as helpful")
  /\ markHelpful id uid false (snd (markHelpful id uid true db))
     = (Res 200 (J_success "Helpful vote removed"), db).
Proof.
  intros Hnd Hf Hv Hnot.
  pose proof (find_id_In _ _ _ _ Hf) as (Hin & Hid & Hact).
  pose proof (helpful_after_id uid true r) as K1.
  pose proof (helpful_after_isActive uid true r) as K5.
  rewrite (markHelpful_run id uid true db), Hf, Hv. cbn [fst snd].
  split; [reflexivity |].
  rewrite markHelpful_run. cbn [Reviews set_Reviews].
  rewrite (find_written_over id _ _ r (helpful_after uid true r) Hf)
    by (congruence || (rewrite K5; exact Hact)).
  rewrite validateSync_helpful_after, Hv.
  rewrite (helpful_after_undo uid r Hnot).
  rewrite (written_over_back r _ _ Hnd Hin K1).
  destruct db; reflexivity.
Qed.

Lemma markHelpful_vote_unvote_witness :
  markHelpful 1 12 false (snd (markHelpful 1 12 true db_three_reviews))
  = (Res 200 (J_success "Helpful vote removed"), db_three_reviews).
Proof.
  apply (proj2 (markHelpful_vote_unvote 1 12 db_three_reviews
                  (sample_review 1 11 1 5 true) (proj1 db_three_reviews_keys)
                  eq_refl eq_refl eq_refl)).
Defined.

(** X12. Voting twice is voting once: repeating a helpful request with the
    same flag leaves the database that the first request left. *)
Theorem markHelpful_idempotent (id uid : ObjectId) (flag : bool) (db : Db) :
  snd (markHelpful id uid flag (snd (markHelpful id uid flag db)))
  = snd (markHelpful id uid flag db).
Proof.
  rewrite (markHelpful_run id uid flag db).
  destruct (List.find _ (Reviews db)) as [r |] eqn:Hf.
  - destruct (validateSync r) eqn:Hv; cbn [snd].
    + pose proof (find_id_In _ _ _ _ Hf) as (Hin & Hid & Hact).
      pose proof (helpful_after_id uid flag r) as K1.
      pose proof (helpful_after_isActive uid flag r) as K5.
      rewrite markHelpful_run. cbn [Reviews set_Reviews].
      rewrite (find_written_over id _ _ r (helpful_after uid flag r) Hf)
        by (congruence || (rewrite K5; exact Hact)).
      rewrite validateSync_helpful_after, Hv. cbn [snd].
      rewrite helpful_after_idem, written_over_idem. reflexivity.
    + rewrite markHelpful_run, Hf, Hv. reflexivity.
  - cbn [snd]. rewrite markHelpful_run, Hf. reflexivity.
Qed.

(** X13. After a successful helpful request the user is among the voters
    of the review exactly when the request's flag was set. *)
Theorem markHelpful_sets_vote (id uid : ObjectId) (flag : bool) (db : Db) :
  status (fst (markHelpful id uid flag db)) = 200%nat ->
  forall r, In r (Reviews (snd (markHelpful id uid flag db))) ->
            _id r = id ->
            users_includes (users (helpful r)) uid = flag.
Proof.
  rewrite markHelpful_run.
  destruct (List.find _ (Reviews db)) as [r0 |] eqn:Hf; [| discriminate].
  destruct (validateSync r0); [| discriminate].
  intros _ r Hin Hid. cbn [snd set_Reviews Reviews] in Hin.
  apply find_id_In in Hf as (_ & Hid0 & _).
  pose proof (helpful_after_id uid flag r0) as K1.
  rewrite (written_over_In _ _ _ Hin) by congruence.
  apply helpful_after_voter.
Qed.

Lemma markHelpful_sets_vote_witness :
  users_includes
    (users (helpful (helpful_after 12 true (sample_review 1 11 1 5 true)))) 12
  = true.
Proof.
  apply (markHelpful_sets_vote 1 12 true db_three_reviews).
  - vm_compute. reflexivity.
  - vm_compute. left. reflexivity.
  - reflexivity.
Defined.

(** X14. A user reports a review once: after a successful report, the same
    user's next report of that review is answered 400 "You have already
    reported this review" and writes nothing. *)
Theorem reportReview_once (id uid : ObjectId) (db : Db) :
  status (fst (reportReview id uid db)) = 200%nat ->
  reportReview id uid (snd (reportReview id uid db))
  = (Res 400 (J_message "You have already reported this review"),
     snd (reportReview id uid db)).
Proof.
  rewrite (reportReview_run id uid db).
  destruct (List.find _ (Reviews db)) as [r |] eqn:Hf; [| discriminate].
  destruct (users_includes (users (reported r)) uid); [discriminate |].
  destruct (validateSync r); [| discriminate]. intros _. cbn [snd].
  pose proof (find_id_In _ _ _ _ Hf) as (_ & Hid & Hact).
  rewrite reportReview_run. cbn [Reviews set_Reviews].
  rewrite (find_written_over id _ _ r (reported_after uid r) Hf Hid Hact).
  cbn [reported reported_after set_reported users].
  rewrite users_includes_push. reflexivity.
Qed.

Lemma reportReview_once_witness :
  reportReview 1 12 (snd (reportReview 1 12 db_three_reviews))
  = (Res 400 (J_message "You have already reported this review"),
     snd (reportReview 1 12 db_three_reviews)).
Proof.
  apply (reportReview_once 1 12 db_three_reviews). vm_compute. reflexivity.
Defined.

(** X15. A moderation with action "approve" clears the reports of the
    review and leaves its votes: afterwards its [reported] is count 0 with
    no users, and, the review being active, any user can report it again. *)
Theorem moderateReview_approve_clears (id : ObjectId) (db : Db) (r : Review) :
  List.find (fun r => (_id r =? id)%N) (Reviews db) = Some r ->
  isActive r = true ->
  status (fst (moderateReview id "approve" db)) = 200%nat ->
  (forall x, In x (Reviews (snd (moderateReview id "approve" db))) ->
             _id x = id ->
             reported x = {| count := 0; users := [] |} /\ helpful x = helpful r)
  /\ (forall u, status (fst (reportReview id u (snd (moderateReview id "approve" db))))
                = 200%nat).
Proof.
  intros Hf Hact. rewrite moderateReview_approve_run, Hf.
  destruct (validateSync r) eqn:Hv; [| discriminate]. intros _.
  cbn [snd set_Reviews Reviews].
  pose proof (findById_In _ _ _ Hf) as (Hin & Hid).
  split.
  - intros x Hx Hxid.
    rewrite (written_over_In _ _ _ Hx) by (cbn [_id set_reported]; congruence).
    split; reflexivity.
  - intros u. rewrite reportReview_run. cbn [Reviews set_Reviews].
    assert (Hfound : List.find (fun x => (_id x =? id)%N && Bool.eqb (isActive x) true)
                       (written_over (set_reported {| count := 0; users := [] |} r)
                          (Reviews db))
                     = Some (set_reported {| count := 0; users := [] |} r)).
    { apply find_written_over_id; [eauto | exact Hid |].
      cbn [isActive set_reported]. rewrite Hact. reflexivity. }
    rewrite Hfound. cbn [reported set_reported users users_includes existsb].
    change (validateSync (set_reported {| count := 0; users := [] |} r))
      with (validateSync r).
    rewrite Hv. reflexivity.
Qed.

Lemma moderateReview_approve_clears_witness :
  status (fst (reportReview 1 12
                 (snd (moderateReview 1 "approve"
                         (snd (reportReview 1 12 db_three_reviews))))))
  = 200%nat.
Proof.
  apply (proj2 (moderateReview_approve_clears 1 (snd (reportReview 1 12 db_three_reviews))
                  (reported_after 12 (sample_review 1 11 1 5 true))
                  ltac:(vm_compute; reflexivity) eq_refl ltac:(vm_compute; reflexivity))
           12%N).
Defined.

Section SyncMore.

Lemma filter_map_key {K : Type} (key : Review -> K) (q : K -> bool) (f : K -> Ratings)
    (rs rs' : list Review) :
  map key rs' = map key rs ->
  map (fun r => f (key r)) (List.filter (fun r => q (key r)) rs')
  = map (fun r => f (key r)) (List.filter (fun r => q (key r)) rs).
Proof.
  revert rs. induction rs' as [| x xs IH]; intros [| y ys] Hk; try discriminate.
  - reflexivity.
  - cbn [map] in Hk. injection Hk as Hxy Hk. cbn [List.filter]. rewrite Hxy.
    destruct (q (key y)); cbn [map]; rewrite ?Hxy, (IH ys Hk); reflexivity.
Qed.

(** The summary of section 4.1 reads only the college, the [isActive] flag
    and the ratings of the stored reviews. *)
Lemma summary_in_sync_ext (collegeId : ObjectId) (db db' : Db) :
  Colleges db' = Colleges db ->
  map (fun r => (college r, isActive r, ratings r)) (Reviews db')
  = map (fun r => (college r, isActive r, ratings r)) (Reviews db) ->
  summary_in_sync collegeId db ->
  summary_in_sync collegeId db'.
Proof.
  intros Hc Hk (c & Hl & Hs). exists c. rewrite Hc. split; [exact Hl |].
  assert (Hr : map ratings (active_reviews collegeId db')
               = map ratings (active_reviews collegeId db)).
  { apply (filter_map_key (fun r => (college r, isActive r, ratings r))
             (fun k => (fst (fst k) =? collegeId)%N && snd (fst k)) snd). exact Hk. }
  assert (Hm : forall f, mean_rating f (active_reviews collegeId db')
                         = mean_rating f (active_reviews collegeId db)).
  { intros f. unfold mean_rating.
    rewrite <- !(map_map ratings f), Hr. reflexivity. }
  assert (Hlen : length (active_reviews collegeId db')
                 = length (active_reviews collegeId db)).
  { rewrite <- (length_map ratings), Hr, length_map. reflexivity. }
  destruct (active_reviews collegeId db') as [| x xs] eqn:E';
    destruct (active_reviews collegeId db) as [| y ys] eqn:E; try discriminate Hlen.
  - exact Hs.
  - unfold RatingSummary_of in *. rewrite !Hm, Hlen. exact Hs.
Qed.

End SyncMore.

(** X16. Votes, reports and approvals do not disturb the rating summary:
    they write no college, and a summary that agrees with the active reviews
    of a college still agrees after a helpful request, a report or an
    "approve" moderation. *)
Theorem votes_keep_summary (collegeId : ObjectId) (db : Db) :
  ids_unique db ->
  summary_in_sync collegeId db ->
  (forall id uid flag, summary_in_sync collegeId (snd (markHelpful id uid flag db)))
  /\ (forall id uid, summary_in_sync collegeId (snd (reportReview id uid db)))
  /\ (forall id, summary_in_sync collegeId (snd (moderateReview id "approve" db))).
Proof.
  intros Hnd Hsync. repeat split.
  - intros id uid flag. rewrite markHelpful_run.
    destruct (List.find _ (Reviews db)) as [r |] eqn:Hf; [| exact Hsync].
    destruct (validateSync r); [| exact Hsync].
    apply find_id_In in Hf as (Hin & _ & _).
    pose proof (helpful_after_keys uid flag r) as Hk.
    apply (summary_in_sync_ext _ db); [reflexivity | | exact Hsync].
    cbn [snd set_Reviews Reviews].
    apply (written_over_key _ _ r _ Hnd Hin); congruence.
  - intros id uid. rewrite reportReview_run.
    destruct (List.find _ (Reviews db)) as [r |] eqn:Hf; [| exact Hsync].
    destruct (users_includes _ _); [exact Hsync |].
    destruct (validateSync r); [| exact Hsync].
    apply find_id_In in Hf as (Hin & _ & _).
    apply (summary_in_sync_ext _ db); [reflexivity | | exact Hsync].
    cbn [snd set_Reviews Reviews].
    apply (written_over_key _ _ r _ Hnd Hin); reflexivity.
  - intros id. rewrite moderateReview_approve_run.
    destruct (List.find _ (Reviews db)) as [r |] eqn:Hf; [| exact Hsync].
    destruct (validateSync r); [| exact Hsync].
    apply findById_In in Hf as (Hin & _).
    apply (summary_in_sync_ext _ db); [reflexivity | | exact Hsync].
    cbn [snd set_Reviews Reviews].
    apply (written_over_key _ _ r _ Hnd Hin); reflexivity.
Qed.

Lemma db_one_review_in_sync : summary_in_sync 1 db_one_review.
Proof.
  exists college_one_review. split; [reflexivity |].
  repeat split; vm_compute; reflexivity.
Qed.

Lemma votes_keep_summary_witness :
  summary_in_sync 1 db_one_review
  /\ summary_in_sync 1 (snd (markHelpful 1 12 true db_one_review)).
Proof.
  split; [exact db_one_review_in_sync |].
  apply (proj1 (votes_keep_summary 1 db_one_review
                  ltac:(unfold ids_unique; apply (bool_decide_unpack _); vm_compute; exact I)
                  db_one_review_in_sync)).
Defined.


(** X17. Create, update and delete save first and recompute afterwards:
    after a successful create (201), author update (200) or author delete
    (200), the stored summary of the review's college, when that college
    exists, is the summary of its active reviews. *)
Theorem save_then_recompute_in_sync (db : Db) :
  (forall req,
      status (fst (createReview req db)) = 201%nat ->
      summary_in_sync (b_college (req_body req)) (snd (createReview req db)))
  /\ (forall id uid body r,
        List.find (fun r => (_id r =? id)%N && (user r =? uid)%N) (Reviews db) = Some r ->
        is_Some (Colleges db !! college r) ->
        status (fst (updateReview id uid body db)) = 200%nat ->
        summary_in_sync (college r) (snd (updateReview id uid body db)))
  /\ (forall id uid r,
        List.find (fun r => (_id r =? id)%N && (user r =? uid)%N) (Reviews db) = Some r ->
        is_Some (Colleges db !! college r) ->
        status (fst (deleteReview id uid db)) = 200%nat ->
        summary_in_sync (college r) (snd (deleteReview id uid db))).
Proof.
  split; [| split].
  - intros req. apply createReview_in_sync.
  - intros id uid body r. apply updateReview_in_sync.
  - intros id uid r. apply deleteReview_in_sync.
Qed.

Lemma save_then_recompute_in_sync_witness :
  summary_in_sync 1 (snd (createReview (sample_request 15 1) db_three_reviews))
  /\ summary_in_sync 1
       (snd (updateReview 1 11
               (mkUpdateBody None None (Some (mkRatings 2 3 2 3 2 3)) None None None)
               db_three_reviews))
  /\ summary_in_sync 1 (snd (deleteReview 1 11 db_three_reviews)).
Proof.
  destruct (save_then_recompute_in_sync db_three_reviews) as (Hc & Hu & Hd).
  split; [| split].
  - apply (Hc (sample_request 15 1)). vm_compute. reflexivity.
  - apply (Hu 1%N 11%N _ (sample_review 1 11 1 5 true)).
    + reflexivity.
    + exists sample_college. reflexivity.
    + vm_compute. reflexivity.
  - apply (Hd 1%N 11%N (sample_review 1 11 1 5 true)).
    + reflexivity.
    + exists sample_college. reflexivity.
    + vm_compute. reflexivity.
Defined.

(** ** More on the scorer and the sentiment *)

Section ScorerMore.

Lemma clamp_round_nonneg (x : Q) : 0 <= clamp_round x.
Proof.
  unfold clamp_round, Math_max.
  pose proof (Math_round_le (0 * 10) (Qmax 0 x * 10)) as Hle.
  assert (H0 : 0 <= Qmax 0 x) by apply Q.le_max_l.
  assert (Hr : Math_round (0 * 10) == 0) by reflexivity.
  rewrite Hr in Hle. unfold Qdiv. change (/ 10) with (1 # 10).
  assert (0 <= Math_round (Qmax 0 x * 10)) by (apply Hle; lra). lra.
Qed.

Lemma clamp_round_upper (x : Q) (hi : Z) :
  (0 <= hi)%Z -> x <= inject_Z hi -> clamp_round x <= inject_Z hi.
Proof.
  intros Hhi Hx. unfold clamp_round, Math_max.
  apply (round_tenths_bounds 0 hi). split.
  - apply Q.le_max_l.
  - apply Q.max_lub; [change 0 with (inject_Z 0); rewrite <- Zle_Qle; exact Hhi | exact Hx].
Qed.

Lemma Qmin_le_r (a b : Q) : Qmin a b <= b.
Proof. apply Q.le_min_r. Qed.

End ScorerMore.

(** X18. The score is never negative; when the six ratings are in [1,5]
    and [reported.count] is not negative it is at most 8. *)
Theorem calculateReviewScore_bounds (r : reviewHelpers.review)
    (h p : reviewHelpers.engagement) :
  reviewHelpers.helpful r = Some h ->
  reviewHelpers.reported r = Some p ->
  exists s,
    reviewHelpers.calculateReviewScore r = Normal s
    /\ 0 <= s
    /\ (ratings_ok (reviewHelpers.ratings r) = true -> 0 <= reviewHelpers.count p -> s <= 8).
Proof.
  intros Hh Hp. rewrite (calculateReviewScore_run r h p Hh Hp).
  eexists. split; [reflexivity |]. split; [apply clamp_round_nonneg |].
  intros Hok Hrep. apply ratings_ok_range in Hok.
  apply (clamp_round_upper _ 8); [lia |]. unfold Math_min.
  pose proof (Qmin_le_r (reviewHelpers.count h * (1 # 10)) 2).
  pose proof (Qmin_le_r
                (len (reviewHelpers.content r) / 200
                 + (reviewHelpers.length_or_0 (reviewHelpers.pros r)
                    + reviewHelpers.length_or_0 (reviewHelpers.cons r)) * (2 # 10)) 1).
  assert (0 <= Qmin (reviewHelpers.count p * (5 # 10)) 3)
    by (apply Q.min_glb; lra).
  change (inject_Z 8) with 8. lra.
Qed.

Lemma calculateReviewScore_bounds_witness :
  exists s, reviewHelpers.calculateReviewScore review_all_fives = Normal s /\ 0 <= s <= 8.
Proof.
  destruct (calculateReviewScore_bounds review_all_fives
              (reviewHelpers.mkEngagement 25) (reviewHelpers.mkEngagement 0)
              eq_refl eq_refl) as (s & Hs & H0 & H8).
  exists s. split; [exact Hs |]. split; [exact H0 |].
  apply H8; [reflexivity | vm_compute; discriminate].
Defined.

(** X19. With the other fields held fixed, raising ratings never lowers the
    score: if every rating of the first set is at most the same rating of
    the second, the first score is at most the second. *)
Theorem calculateReviewScore_monotone_ratings (r : reviewHelpers.review)
    (h p : reviewHelpers.engagement) (rt1 rt2 : Ratings) :
  reviewHelpers.helpful r = Some h ->
  reviewHelpers.reported r = Some p ->
  Ratings_le rt1 rt2 ->
  exists s1 s2,
    reviewHelpers.calculateReviewScore (with_ratings rt1 r) = Normal s1
    /\ reviewHelpers.calculateReviewScore (with_ratings rt2 r) = Normal s2
    /\ s1 <= s2.
Proof.
  intros Hh Hp (H1 & H2 & H3 & H4 & H5 & H6).
  do 2 eexists.
  split; [apply calculateReviewScore_run with (h := h) (p := p); assumption |].
  split; [apply calculateReviewScore_run with (h := h) (p := p); assumption |].
  apply clamp_round_le. cbn [reviewHelpers.ratings reviewHelpers.content reviewHelpers.pros
                             reviewHelpers.cons with_ratings]. lra.
Qed.

Lemma calculateReviewScore_monotone_ratings_witness :
  exists s1 s2,
    reviewHelpers.calculateReviewScore (with_ratings (mkRatings 1 2 3 4 5 1) review_all_fives)
    = Normal s1
    /\ reviewHelpers.calculateReviewScore
         (with_ratings (mkRatings 2 2 4 4 5 3) review_all_fives) = Normal s2
    /\ s1 <= s2.
Proof.
  apply (calculateReviewScore_monotone_ratings review_all_fives
           (reviewHelpers.mkEngagement 25) (reviewHelpers.mkEngagement 0));
    [reflexivity | reflexivity |].
  repeat split; vm_compute; discriminate.
Defined.

(** X20. A longer content never lowers the score, and beyond 200
    characters the length no longer counts: two contents of at least 200
    characters give the same score. *)
Theorem calculateReviewScore_content (r : reviewHelpers.review)
    (h p : reviewHelpers.engagement) (c1 c2 : jsstring) :
  reviewHelpers.helpful r = Some h ->
  reviewHelpers.reported r = Some p ->
  (length c1 <= length c2)%nat ->
  exists s1 s2,
    reviewHelpers.calculateReviewScore (with_content c1 r) = Normal s1
    /\ reviewHelpers.calculateReviewScore (with_content c2 r) = Normal s2
    /\ s1 <= s2
    /\ ((200 <= length c1)%nat -> s1 == s2).
Proof.
  intros Hh Hp Hlen.
  assert (Hq : len c1 <= len c2) by (unfold len; rewrite <- Zle_Qle; lia).
  assert (Hnn : forall o, 0 <= reviewHelpers.length_or_0 o).
  { intros [l |]; unfold reviewHelpers.length_or_0, len; [| lra].
    change 0 with (inject_Z 0). rewrite <- Zle_Qle. lia. }
  pose proof (Hnn (reviewHelpers.pros r)) as Hpros.
  pose proof (Hnn (reviewHelpers.cons r)) as Hcons.
  do 2 eexists.
  split; [apply calculateReviewScore_run with (h := h) (p := p); assumption |].
  split; [apply calculateReviewScore_run with (h := h) (p := p); assumption |].
  cbn [reviewHelpers.ratings reviewHelpers.content reviewHelpers.pros
       reviewHelpers.cons with_content].
  unfold Math_min, Qdiv. change (/ 200) with (1 # 200).
  split.
  - apply clamp_round_le.
    assert (Qmin (len c1 * (1 # 200)
                  + (reviewHelpers.length_or_0 (reviewHelpers.pros r)
                     + reviewHelpers.length_or_0 (reviewHelpers.cons r)) * (2 # 10)) 1
            <= Qmin (len c2 * (1 # 200)
                     + (reviewHelpers.length_or_0 (reviewHelpers.pros r)
                        + reviewHelpers.length_or_0 (reviewHelpers.cons r)) * (2 # 10)) 1)
      by (apply Q.min_le_compat_r; lra).
    lra.
  - intros H200.
    assert (H1 : 200 <= len c1)
      by (unfold len; change 200 with (inject_Z 200); rewrite <- Zle_Qle; lia).
    apply clamp_round_comp.
    rewrite (Q.min_r (len c1 * (1 # 200) + _) 1) by lra.
    rewrite (Q.min_r (len c2 * (1 # 200) + _) 1) by lra.
    reflexivity.
Qed.

Lemma calculateReviewScore_content_witness :
  exists s1 s2,
    reviewHelpers.calculateReviewScore (with_content (repeat 97%N 200) review_all_fives)
    = Normal s1
    /\ reviewHelpers.calculateReviewScore (with_content (repeat 97%N 900) review_all_fives)
       = Normal s2
    /\ s1 == s2.
Proof.
  destruct (calculateReviewScore_content review_all_fives
              (reviewHelpers.mkEngagement 25) (reviewHelpers.mkEngagement 0)
              (repeat 97%N 200) (repeat 97%N 900) eq_refl eq_refl
              ltac:(rewrite !repeat_length; lia)) as (s1 & s2 & H1 & H2 & _ & Heq).
  exists s1, s2. split; [exact H1 |]. split; [exact H2 |].
  apply Heq. rewrite repeat_length. lia.
Defined.

(** X21. A review with as many pros as cons, in particular one with
    neither, is "neutral" whatever its ratings and recommendation. *)
Theorem getReviewSentiment_balanced (r : reviewHelpers.review) :
  prosCount r = consCount r ->
  reviewHelpers.getReviewSentiment r = "neutral"%string.
Proof.
  unfold prosCount, consCount. intros Heq.
  pose proof (length_or_0_gt (reviewHelpers.pros r) (reviewHelpers.cons r)) as Hpc.
  pose proof (length_or_0_gt (reviewHelpers.cons r) (reviewHelpers.pros r)) as Hcp.
  unfold reviewHelpers.getReviewSentiment.
  destruct (negb (Qle_bool (reviewHelpers.length_or_0 (reviewHelpers.pros r))
                    (reviewHelpers.length_or_0 (reviewHelpers.cons r))));
    [exfalso; assert (length (default [] (reviewHelpers.cons r))
                      < length (default [] (reviewHelpers.pros r)))%nat
       by (apply Hpc; reflexivity); lia |].
  destruct (negb (Qle_bool (reviewHelpers.length_or_0 (reviewHelpers.cons r))
                    (reviewHelpers.length_or_0 (reviewHelpers.pros r))));
    [exfalso; assert (length (default [] (reviewHelpers.pros r))
                      < length (default [] (reviewHelpers.cons r)))%nat
       by (apply Hcp; reflexivity); lia |].
  rewrite !andb_false_r. reflexivity.
Qed.

Lemma getReviewSentiment_balanced_witness :
  reviewHelpers.getReviewSentiment review_without_pros_cons = "neutral"%string.
Proof. apply getReviewSentiment_balanced. reflexivity. Defined.

(** ** More on the content validator *)

Section ValidatorMore.

Import reviewHelpers.

Lemma starts_with_app (eqc : N -> N -> bool) (w s : jsstring) :
  (forall c, eqc c c = true) -> Str.starts_with eqc w (w ++ s) = true.
Proof.
  intros Hrefl. induction w as [| c w IH]; [reflexivity |].
  cbn. rewrite Hrefl, IH. reflexivity.
Qed.

Lemma repeated_characters_run (pre post : jsstring) (c : N) :
  Str.is_line_terminator c = false ->
  Str.repeated_characters (pre ++ repeat c 5 ++ post) = true.
Proof.
  intros Hc. induction pre as [| x pre IH].
  - change (repeat c 5) with (c :: repeat c 4). cbn [app Str.repeated_characters].
    rewrite Hc, (starts_with_app N.eqb _ _ N.eqb_refl). reflexivity.
  - cbn [app Str.repeated_characters]. rewrite IH. apply orb_true_r.
Qed.

Lemma includes_app (w pre post : jsstring) :
  Str.includes w (pre ++ w ++ post) = true.
Proof.
  induction pre as [| x pre IH].
  - cbn [app]. destruct (w ++ post) eqn:E; cbn [Str.includes];
      rewrite <- E, (starts_with_app N.eqb _ _ N.eqb_refl); reflexivity.
  - cbn [app Str.includes]. rewrite IH. apply orb_true_r.
Qed.

(** The pieces of [split] and their separators fit in the string. *)
Lemma split_whitespace_size (s : jsstring) :
  (list_sum (map (@length N) (Str.split_whitespace s)) + length (Str.split_whitespace s)
   <= length s + 1)%nat.
Proof.
  induction s as [| c s IH]; [cbn; lia |].
  change (Str.split_whitespace (c :: s))
    with (let rest := Str.split_whitespace s in
          if Str.is_whitespace c then
            match s with
            | c' :: _ => if Str.is_whitespace c' then rest else [] :: rest
            | [] => [] :: rest
            end
          else match rest with
               | w :: ws => (c :: w) :: ws
               | [] => [[c]]
               end).
  cbv zeta. cbn [length].
  set (rest := Str.split_whitespace s) in *. clearbody rest.
  destruct (Str.is_whitespace c).
  - assert (Hcons : (list_sum (map (@length N) ([] :: rest)) + length ([] :: rest)
                     <= S (length s) + 1)%nat).
  { unfold list_sum, jsstring in *; cbn [map fold_right length]. lia. }
    destruct s as [| c' s']; [exact Hcons |].
    destruct (Str.is_whitespace c'); [unfold jsstring in *; cbn [length] in *; lia | exact Hcons].
  - unfold list_sum, jsstring in *.
    destruct rest as [| w ws]; cbn [map fold_right length] in *; lia.
Qed.

Lemma long_tokens_size (ws : list jsstring) :
  (4 * length (List.filter (fun word => (2 <? length word)%nat) ws)
   <= list_sum (map (@length N) ws) + length ws)%nat.
Proof.
  unfold list_sum, jsstring. induction ws as [| w ws IH]; [cbn; lia |].
  cbn [List.filter map fold_right length].
  destruct (Nat.ltb_spec 2 (length w)); cbn [length]; lia.
Qed.

Lemma spam_count (a b c : bool) (rest : list string) :
  ~ In spam_message rest ->
  count_occ string_dec
    ((if a then [spam_message] else []) ++ (if b then [spam_message] else [])
     ++ (if c then [spam_message] else []) ++ rest) spam_message
  = (Nat.b2n a + Nat.b2n b + Nat.b2n c)%nat.
Proof.
  intros Hrest. apply (count_occ_not_In string_dec) in Hrest.
  rewrite !count_occ_app, Hrest.
  destruct a, b, c; reflexivity.
Qed.

End ValidatorMore.



(** X23. The spam message is added once for each of the three patterns
    that matches the content or the title, so it occurs between zero and
    three times; every error is one of the three messages, and there are
    at most five. *)
Theorem validateReviewContent_spam_count (content title : jsstring) :
  count_occ string_dec
    (reviewHelpers.errors (reviewHelpers.validateReviewContent content title)) spam_message
  = spam_hits content title
  /\ (spam_hits content title <= 3)%nat
  /\ (forall e,
        In e (reviewHelpers.errors (reviewHelpers.validateReviewContent content title)) ->
        e = spam_message \/ e = too_few_words \/ e = profanity_message)
  /\ (length (reviewHelpers.errors (reviewHelpers.validateReviewContent content title))
      <= 5)%nat.
Proof.
  rewrite validateReviewContent_errors.
  unfold spam_hits, reviewHelpers.spamPatterns. cbn [List.filter].
  fold spam_message. fold profanity_message.
  destruct (Str.repeated_characters content || Str.repeated_characters title);
    destruct (Str.all_caps content || Str.all_caps title);
    destruct (Str.promotional content || Str.promotional title);
    destruct (length (meaningful_words content) <? 20)%nat;
    destruct (existsb _ reviewHelpers.profanityWords);
    (split; [vm_compute; reflexivity |]);
    (split; [cbn; lia |]);
    (split; [| cbn; lia]);
    cbn; intros e He; intuition auto.
Qed.

(** X24. No content shorter than 79 characters passes the word-count rule:
    twenty tokens of three characters and their nineteen separators do not
    fit in it. *)
Theorem validateReviewContent_min_length (content title : jsstring) :
  (length content < 79)%nat ->
  In too_few_words
    (reviewHelpers.errors (reviewHelpers.validateReviewContent content title)).
Proof.
  intros Hlen.
  assert (Hfew : (length (meaningful_words content) < 20)%nat).
  { pose proof (split_whitespace_size content) as Hs.
    pose proof (long_tokens_size (Str.split_whitespace content)) as Hl.
    unfold meaningful_words, list_sum, jsstring in *. lia. }
  rewrite validateReviewContent_errors.
  destruct (Nat.ltb_spec (length (meaningful_words content)) 20) as [_ | Hge]; [| lia].
  rewrite !in_app_iff. do 3 right. left. left. reflexivity.
Qed.

Lemma validateReviewContent_min_length_witness :
  In too_few_words
    (reviewHelpers.errors
       (reviewHelpers.validateReviewContent
          (Str.lit "Good teaching and a lively campus, with housing that is hard to find.")
          (Str.lit "A fair account"))).
Proof.
  apply validateReviewContent_min_length. vm_compute. lia.
Defined.

Section Profanity.

Import reviewHelpers.

(** A lower-case ASCII letter or a digit. *)
Lemma to_lower_unit_ignore_case (a b : N) :
  Str.in_range 97 122 b || Str.in_range 48 57 b = true ->
  Str.eq_ignore_case a b = true ->
  Str.to_lower_unit a = [b].
Proof.
  unfold Str.eq_ignore_case, Str.to_upper_ascii, Str.to_lower_unit, Str.in_range.
  intros Hb Heq. apply N.eqb_eq in Heq.
  destruct (N.leb_spec 97 a), (N.leb_spec a 122), (N.leb_spec 97 b), (N.leb_spec b 122),
    (N.leb_spec 48 b), (N.leb_spec b 57), (N.leb_spec 65 a), (N.leb_spec a 90);
    cbn [andb orb] in *; try discriminate; try lia;
    destruct (N.eqb_spec a 304); try lia; destruct (N.eqb_spec a 8490); try lia;
    f_equal; lia.
Qed.

Lemma toLowerCase_ignore_case (w v : jsstring) :
  forallb (fun b => Str.in_range 97 122 b || Str.in_range 48 57 b) v = true ->
  Forall2 (fun a b => Str.eq_ignore_case a b = true) w v ->
  Str.toLowerCase w = v.
Proof.
  intros Hv Hall. induction Hall as [| a b w v Hab _ IH]; [reflexivity |].
  cbn [forallb] in Hv. apply andb_true_iff in Hv as [Hb Hv].
  cbn [Str.toLowerCase flat_map]. rewrite (to_lower_unit_ignore_case a b Hb Hab).
  cbn [app]. f_equal. apply IH. exact Hv.
Qed.

End Profanity.

(** X25. The denylist is matched without regard to ASCII case: a content
    that holds a listed word in any mix of upper and lower case is reported
    with "Review contains inappropriate language" and is not valid. *)
Theorem validateReviewContent_profanity (word : string) (pre w post title : jsstring) :
  In word reviewHelpers.profanityWords ->
  Forall2 (fun a b => Str.eq_ignore_case a b = true) w (Str.lit word) ->
  In profanity_message
    (reviewHelpers.errors
       (reviewHelpers.validateReviewContent (pre ++ w ++ post) title))
  /\ reviewHelpers.isValid
       (reviewHelpers.validateReviewContent (pre ++ w ++ post) title) = false.
Proof.
  intros Hword Hw.
  assert (Hlow : Str.toLowerCase w = Str.lit word).
  { apply toLowerCase_ignore_case; [| exact Hw].
    destruct Hword as [<- | [<- | []]]; reflexivity. }
  assert (Hinc : Str.includes (Str.lit word) (Str.toLowerCase (pre ++ w ++ post)) = true).
  { unfold Str.toLowerCase. rewrite !flat_map_app.
    fold (Str.toLowerCase w). rewrite Hlow. apply includes_app. }
  assert (Hin : In profanity_message
                  (reviewHelpers.errors
                     (reviewHelpers.validateReviewContent (pre ++ w ++ post) title))).
  { rewrite validateReviewContent_errors.
    match goal with
    | |- context [existsb ?f reviewHelpers.profanityWords] =>
        assert (He : existsb f reviewHelpers.profanityWords = true)
    end.
    { apply existsb_exists. exists word. split; [exact Hword |].
      rewrite Hinc. reflexivity. }
    rewrite He. rewrite !in_app_iff. do 4 right. left. reflexivity. }
  split; [exact Hin |].
  unfold reviewHelpers.validateReviewContent in *.
  cbn [reviewHelpers.isValid reviewHelpers.errors] in *.
  match goal with |- (length ?l =? 0)%nat = false => destruct l; [destruct Hin | reflexivity] end.
Qed.

Lemma validateReviewContent_profanity_witness :
  In profanity_message
    (reviewHelpers.errors
       (reviewHelpers.validateReviewContent
          (Str.lit "what a " ++ Str.lit "BadWord1" ++ Str.lit " this is") (Str.lit "Title"))).
Proof.
  apply (proj1 (validateReviewContent_profanity "badword1" (Str.lit "what a ")
                  (Str.lit "BadWord1") (Str.lit " this is") (Str.lit "Title")
                  ltac:(left; reflexivity)
                  ltac:(repeat constructor))).
Defined.

(** ** The application helpers *)

Section Application.

Import applicationHelpers.

Lemma require_nil (v : value) (message : string) (errs : list string) :
  require v message errs = [] <-> errs = [] /\ truthy v = true.
Proof.
  unfold require. destruct (truthy v); cbn [negb].
  - tauto.
  - split; [intros H; destruct errs; discriminate H | intros [_ H]; discriminate H].
Qed.

Lemma essay_errors_nil (essays : list essay_t) (index : nat) (errs : list string) :
  essay_errors index essays errs = []
  <-> errs = []
      /\ forallb (fun e => truthy (response e)
                           && negb (lt (value_length (response e)) 100)) essays = true.
Proof.
  revert index errs. induction essays as [| e es IH]; intros index errs.
  - cbn. tauto.
  - cbn [essay_errors forallb]. rewrite IH.
    destruct (truthy (response e)), (lt (value_length (response e)) 100); cbn [negb orb andb].
    + split; [intros [H _]; destruct errs; discriminate H | intros [_ H]; discriminate H].
    + tauto.
    + split; [intros [H _]; destruct errs; discriminate H | intros [_ H]; discriminate H].
    + split; [intros [H _]; destruct errs; discriminate H | intros [_ H]; discriminate H].
Qed.

(** The outcome is valid exactly when no check fails. *)
Lemma validate_valid (a : applicationData_t) :
  isValid (validateApplicationForSubmission a) = true
  <-> truthy (opt (personalInfo a) firstName) = true
      /\ truthy (opt (personalInfo a) lastName) = true
      /\ truthy (opt (personalInfo a) email) = true
      /\ truthy (opt (personalInfo a) phone) = true
      /\ truthy (opt (personalInfo a) dateOfBirth) = true
      /\ truthy (opt (academicInfo a) gpa) = true
      /\ truthy (opt (academicInfo a) currentEducation) = true
      /\ non_empty (essays a) = true
      /\ forallb (fun e => truthy (response e)
                           && negb (lt (value_length (response e)) 100))
           (default [] (essays a)) = true.
Proof.
  unfold validateApplicationForSubmission. cbn [isValid]. cbv zeta.
  rewrite Nat.eqb_eq, length_zero_iff_nil.
  destruct (non_empty (essays a)); cbn [negb].
  - rewrite essay_errors_nil, !require_nil. intuition auto.
  - split; [intros H; apply app_eq_nil in H as [_ H]; discriminate H
           | intros (_ & _ & _ & _ & _ & _ & _ & H & _); discriminate H].
Qed.

End Application.


(** X27. [validateApplicationForSubmission] finds the application valid
    exactly when the five personal fields, the GPA and the education level
    are truthy, there is at least one essay, and every essay has a truthy
    response that is not a string shorter than 100 characters. *)
Theorem validateApplicationForSubmission_valid_iff (a : applicationHelpers.applicationData_t) :
  applicationHelpers.isValid (applicationHelpers.validateApplicationForSubmission a) = true
  <-> (exists p c es,
         applicationHelpers.personalInfo a = Some p
         /\ applicationHelpers.academicInfo a = Some c
         /\ applicationHelpers.essays a = Some es
         /\ es <> []
         /\ Forall (fun v => applicationHelpers.truthy v = true)
              [applicationHelpers.firstName p; applicationHelpers.lastName p;
               applicationHelpers.email p; applicationHelpers.phone p;
               applicationHelpers.dateOfBirth p; applicationHelpers.gpa c;
               applicationHelpers.currentEducation c]
         /\ (forall e, In e es ->
                       applicationHelpers.truthy (applicationHelpers.response e) = true
                       /\ forall s, applicationHelpers.response e = applicationHelpers.Str s ->
                                    (100 <= length s)%nat)).
Proof.
  rewrite validate_valid.
  destruct a as [[p |] [c |] [es |] ex wk];
    cbn [applicationHelpers.personalInfo applicationHelpers.academicInfo
         applicationHelpers.essays applicationHelpers.opt applicationHelpers.truthy
         applicationHelpers.non_empty default];
    try (split; [intros H; decompose [and] H; discriminate
                | intros (p' & c' & es' & H1 & H2 & H3 & _); discriminate]).
  assert (Hess : forallb (fun e => applicationHelpers.truthy (applicationHelpers.response e)
                                   && negb (applicationHelpers.lt
                                              (applicationHelpers.value_length
                                                 (applicationHelpers.response e)) 100)) es
                 = true
                 <-> forall e, In e es ->
                       applicationHelpers.truthy (applicationHelpers.response e) = true
                       /\ forall s, applicationHelpers.response e = applicationHelpers.Str s ->
                                    (100 <= length s)%nat).
  { rewrite forallb_forall. split; intros H e He; specialize (H e He).
    - apply andb_true_iff in H as [Ht Hl]. split; [exact Ht |].
      intros s Hs. rewrite Hs in Hl.
      cbn [applicationHelpers.lt applicationHelpers.value_length] in Hl.
      apply negb_true_iff, Nat.ltb_ge in Hl. exact Hl.
    - destruct H as [Ht Hl]. rewrite Ht. cbn [andb].
      destruct (applicationHelpers.response e) as [| | b | q | s |]; try reflexivity.
      cbn [applicationHelpers.lt applicationHelpers.value_length].
      apply negb_true_iff, Nat.ltb_ge. apply Hl. reflexivity. }
  rewrite Hess. split.
  - intros (H1 & H2 & H3 & H4 & H5 & H6 & H7 & Hne & Hall).
    exists p, c, es. do 3 (split; [reflexivity |]).
    split; [intros ->; discriminate Hne |].
    split; [repeat constructor; assumption | exact Hall].
  - intros (p' & c' & es' & Hp & Hc & He & Hne & Hf & Hall).
    injection Hp as <-. injection Hc as <-. injection He as <-.
    repeat (apply List.Forall_cons_iff in Hf as [? Hf]).
    do 7 (split; [assumption |]).
    split; [destruct es; [contradiction | reflexivity] | exact Hall].
Qed.

(** X28. A complete application can be submitted, and a submittable one is
    at least 40 percent complete: [isComplete] implies [isValid], and
    [isValid] implies that the personal and the academic section are
    counted. *)
Theorem application_complete_valid (a : applicationHelpers.applicationData_t) :
  (applicationHelpers.isComplete (applicationHelpers.calculateApplicationProgress a) = true ->
   applicationHelpers.isValid (applicationHelpers.validateApplicationForSubmission a) = true)
  /\ (applicationHelpers.isValid (applicationHelpers.validateApplicationForSubmission a) = true ->
      applicationHelpers.s_personalInfo
        (applicationHelpers.sections (applicationHelpers.calculateApplicationProgress a))
      = 1%nat
      /\ applicationHelpers.s_academicInfo
           (applicationHelpers.sections (applicationHelpers.calculateApplicationProgress a))
         = 1%nat
      /\ 40 <= applicationHelpers.percentage
                 (applicationHelpers.calculateApplicationProgress a)).
Proof.
  rewrite validate_valid.
  unfold applicationHelpers.calculateApplicationProgress. cbv zeta.
  cbn [applicationHelpers.isComplete applicationHelpers.sections
       applicationHelpers.percentage applicationHelpers.s_personalInfo
       applicationHelpers.s_academicInfo].
  set (b1 := applicationHelpers.truthy _ && _ && _ && _ && _).
  set (b2 := applicationHelpers.truthy _ && applicationHelpers.truthy _).
  set (b3 := applicationHelpers.non_empty (applicationHelpers.essays a) && _).
  set (b4 := applicationHelpers.non_empty (applicationHelpers.extracurriculars a)).
  set (b5 := applicationHelpers.non_empty (applicationHelpers.workExperience a)).
  split.
  - intros Hc.
    assert (H123 : b1 = true /\ b2 = true /\ b3 = true)
      by (destruct b1, b2, b3, b4, b5; try discriminate Hc; auto).
    destruct H123 as (H1 & H2 & H3). unfold b1, b2, b3 in *.
    apply andb_true_iff in H1 as [H1 ?]. apply andb_true_iff in H1 as [H1 ?].
    apply andb_true_iff in H1 as [H1 ?]. apply andb_true_iff in H1 as [H1 ?].
    apply andb_true_iff in H2 as [? ?]. apply andb_true_iff in H3 as [Hne Hall].
    repeat (split; [assumption |]).
    rewrite forallb_forall in *. intros e He. specialize (Hall e He).
    apply andb_true_iff in Hall as [Ht Hg]. rewrite Ht. cbn [andb].
    destruct (applicationHelpers.value_length (applicationHelpers.response e)) as [k |];
      [| reflexivity].
    cbn [applicationHelpers.lt applicationHelpers.gt] in *.
    apply Nat.ltb_lt in Hg. apply negb_true_iff, Nat.ltb_ge. lia.
  - intros (H1 & H2 & H3 & H4 & H5 & H6 & H7 & _).
    assert (Hb1 : b1 = true) by (unfold b1; rewrite H1, H2, H3, H4, H5; reflexivity).
    assert (Hb2 : b2 = true) by (unfold b2; rewrite H6, H7; reflexivity).
    rewrite Hb1, Hb2. split; [reflexivity |]. split; [reflexivity |].
    destruct b3, b4, b5; vm_compute; discriminate.
Qed.

Lemma application_complete_valid_witness :
  applicationHelpers.isValid
    (applicationHelpers.validateApplicationForSubmission sample_application) = true.
Proof.
  apply (proj1 (application_complete_valid sample_application)). reflexivity.
Defined.

(** ** slugify *)

Section SlugStages.

Import Slug.

Lemma trimStart_In (s : jsstring) (c : N) : In c (trimStart s) -> In c s.
Proof.
  induction s as [| x s IH]; [intros H; exact H |]. cbn [trimStart].
  destruct (Str.is_whitespace x); [intros H; right; auto | intros H; exact H].
Qed.

Lemma trim_In (s : jsstring) (c : N) : In c (trim s) -> In c s.
Proof.
  unfold trim, trimEnd. intros Hc. apply in_rev, trimStart_In in Hc.
  apply in_rev, trimStart_In in Hc. exact Hc.
Qed.

Lemma replace_whitespace_In (s : jsstring) (c : N) :
  In c (replace_whitespace s) -> In c s \/ c = dash.
Proof.
  induction s as [| x s IH]; [tauto |]. cbn [replace_whitespace].
  destruct (Str.is_whitespace x).
  - destruct s as [| y s']; [intros [<- | []]; right; reflexivity |].
    destruct (Str.is_whitespace y).
    + intros Hc. destruct (IH Hc); [left; right; assumption | right; assumption].
    + intros [<- | Hc]; [right; reflexivity |].
      destruct (IH Hc); [left; right; assumption | right; assumption].
  - intros [<- | Hc]; [left; left; reflexivity |].
    destruct (IH Hc); [left; right; assumption | right; assumption].
Qed.

Lemma collapse_dashes_In (s : jsstring) (c : N) : In c (collapse_dashes s) -> In c s.
Proof.
  induction s as [| x s IH]; [tauto |]. cbn [collapse_dashes].
  destruct (x =? dash)%N.
  - destruct s as [| y s']; [tauto |].
    destruct (y =? dash)%N.
    + intros Hc. right. apply IH. exact Hc.
    + intros [<- | Hc]; [left; reflexivity | right; apply IH; exact Hc].
  - intros [<- | Hc]; [left; reflexivity | right; apply IH; exact Hc].
Qed.

(** What is stripped is a run of dashes. *)
Lemma strip_leading_dashes_split (s : jsstring) :
  exists k, s = repeat dash k ++ strip_leading_dashes s.
Proof.
  induction s as [| x s [k IH]]; [exists 0%nat; reflexivity |].
  cbn [strip_leading_dashes]. destruct (N.eqb_spec x dash) as [-> | Hne].
  - exists (S k). cbn [repeat app]. f_equal. exact IH.
  - exists 0%nat. reflexivity.
Qed.

Lemma rev_repeat_dash (k : nat) : rev (repeat dash k) = repeat dash k.
Proof.
  induction k as [| k IH]; [reflexivity |].
  cbn [repeat rev]. rewrite IH. clear IH.
  induction k as [| k IH]; [reflexivity |]. cbn [repeat app]. f_equal. exact IH.
Qed.

Lemma strip_trailing_dashes_split (s : jsstring) :
  exists k, s = strip_trailing_dashes s ++ repeat dash k.
Proof.
  destruct (strip_leading_dashes_split (rev s)) as [k Hk]. exists k.
  unfold strip_trailing_dashes.
  transitivity (rev (repeat dash k ++ strip_leading_dashes (rev s))).
  - rewrite <- Hk. symmetry. apply rev_involutive.
  - rewrite rev_app_distr, rev_repeat_dash. reflexivity.
Qed.

Lemma strip_leading_dashes_head (s : jsstring) :
  head (strip_leading_dashes s) <> Some dash.
Proof.
  induction s as [| x s IH]; [discriminate |]. cbn [strip_leading_dashes].
  destruct (N.eqb_spec x dash) as [-> | Hne]; [exact IH |].
  cbn. congruence.
Qed.

Lemma no_double_dash_app (a b : jsstring) :
  no_double_dash (a ++ b) = true -> no_double_dash a = true /\ no_double_dash b = true.
Proof.
  induction a as [| x a IH]; [cbn; auto |].
  destruct a as [| y a'].
  - cbn [app no_double_dash]. destruct b as [| z b']; [auto |].
    intros H. apply andb_true_iff in H as [_ H]. auto.
  - cbn [app no_double_dash] in *. intros H. apply andb_true_iff in H as [H1 H2].
    destruct (IH H2) as [Ha Hb]. rewrite H1, Ha. auto.
Qed.

Lemma collapse_dashes_no_double (s : jsstring) : no_double_dash (collapse_dashes s) = true.
Proof.
  induction s as [| x s IH]; [reflexivity |]. cbn [collapse_dashes].
  destruct (N.eqb_spec x dash) as [-> | Hne].
  - destruct s as [| y s']; [reflexivity |].
    destruct (N.eqb_spec y dash) as [-> | Hy]; [exact IH |].
    cbn [collapse_dashes] in IH. apply N.eqb_neq in Hy. rewrite Hy in IH.
    cbn [collapse_dashes]. rewrite Hy.
    change (no_double_dash (dash :: y :: collapse_dashes s'))
      with (negb ((dash =? dash)%N && (y =? dash)%N)
            && no_double_dash (y :: collapse_dashes s')).
    rewrite Hy, IH. reflexivity.
  - apply N.eqb_neq in Hne.
    destruct (collapse_dashes s) as [| z t] eqn:E; [reflexivity |].
    change (no_double_dash (x :: z :: t))
      with (negb ((x =? dash)%N && (z =? dash)%N) && no_double_dash (z :: t)).
    rewrite Hne, IH. reflexivity.
Qed.

Lemma toLowerCase_no_upper (s : jsstring) (c : N) :
  In c (Str.toLowerCase s) -> Str.in_range 65 90 c = false.
Proof.
  unfold Str.toLowerCase. rewrite in_flat_map. intros (x & _ & Hc).
  unfold Str.to_lower_unit in Hc.
  destruct (Str.in_range 65 90 x) eqn:Hx.
  - destruct Hc as [<- | []]. unfold Str.in_range in *.
    apply andb_true_iff in Hx as [H1 H2]. apply N.leb_le in H1, H2.
    apply andb_false_iff. rewrite !N.leb_gt. lia.
  - destruct (x =? 304)%N; [destruct Hc as [<- | [<- | []]]; reflexivity |].
    destruct (x =? 8490)%N; [destruct Hc as [<- | []]; reflexivity |].
    destruct Hc as [<- | []]. exact Hx.
Qed.

Lemma slug_char_of_word (c : N) :
  is_word c || (c =? dash)%N = true -> Str.in_range 65 90 c = false -> slug_char c = true.
Proof.
  unfold is_word, slug_char. intros Hw Hu. rewrite Hu in Hw. exact Hw.
Qed.

End SlugStages.

(** Whatever the text, the result is a well-formed slug. *)
Lemma slugify_well_formed (text : jsstring) : Slug.is_slug (Slug.slugify text).
Proof.
  unfold Slug.slugify.
  set (t3 := Slug.remove_non_word _).
  assert (H3 : forall c, In c t3 -> Slug.slug_char c = true).
  { intros c Hc. unfold t3, Slug.remove_non_word in Hc. apply filter_In in Hc as [Hc Hw].
    apply slug_char_of_word; [exact Hw |].
    apply replace_whitespace_In in Hc as [Hc | ->]; [| reflexivity].
    apply trim_In in Hc. apply (toLowerCase_no_upper text c Hc). }
  set (t4 := Slug.collapse_dashes t3).
  assert (H4 : forall c, In c t4 -> Slug.slug_char c = true)
    by (intros c Hc; apply H3, collapse_dashes_In, Hc).
  pose proof (collapse_dashes_no_double t3) as N4. fold t4 in N4.
  destruct (strip_leading_dashes_split t4) as [k Hk].
  set (t5 := Slug.strip_leading_dashes t4) in *.
  destruct (strip_trailing_dashes_split t5) as [j Hj].
  set (t6 := Slug.strip_trailing_dashes t5) in *.
  assert (N5 : Slug.no_double_dash t5 = true)
    by (rewrite Hk in N4; apply no_double_dash_app in N4; tauto).
  assert (N6 : Slug.no_double_dash t6 = true)
    by (rewrite Hj in N5; apply no_double_dash_app in N5; tauto).
  assert (H6 : forall c, In c t6 -> Slug.slug_char c = true).
  { intros c Hc. apply H4. rewrite Hk. apply in_or_app. right.
    rewrite Hj. apply in_or_app. left. exact Hc. }
  repeat split.
  - apply forallb_forall. exact H6.
  - exact N6.
  - pose proof (strip_leading_dashes_head t4) as Hh. fold t5 in Hh.
    rewrite Hj in Hh. destruct t6; [discriminate | exact Hh].
  - unfold t6, Slug.strip_trailing_dashes. rewrite rev_involutive.
    apply strip_leading_dashes_head.
Qed.

Section SlugFixpoint.

Import Slug.

Lemma slug_char_range (c : N) : slug_char c = true -> (45 <= c <= 122)%N.
Proof.
  unfold slug_char, Str.in_range, dash. rewrite !orb_true_iff, !andb_true_iff, !N.leb_le,
    !N.eqb_eq. lia.
Qed.

Lemma slug_char_not_whitespace (c : N) : slug_char c = true -> Str.is_whitespace c = false.
Proof.
  intros Hc. apply slug_char_range in Hc.
  unfold Str.is_whitespace, Str.is_line_terminator, Str.in_range. cbn [existsb].
  repeat match goal with
         | |- context [(c =? ?k)%N] =>
             let H := fresh in
             assert (H : (c =? k)%N = false) by (apply N.eqb_neq; lia); rewrite H; clear H
         end.
  assert (H : (8192 <=? c)%N = false) by (apply N.leb_gt; lia).
  rewrite H. reflexivity.
Qed.

Lemma slug_char_lower (c : N) : slug_char c = true -> Str.to_lower_unit c = [c].
Proof.
  intros Hc. pose proof (slug_char_range c Hc) as Hr.
  unfold Str.to_lower_unit.
  assert (Hu : Str.in_range 65 90 c = false).
  { unfold slug_char, Str.in_range, dash in *.
    rewrite !orb_true_iff, !andb_true_iff, !N.leb_le, !N.eqb_eq in Hc.
    apply andb_false_iff. rewrite !N.leb_gt. lia. }
  rewrite Hu.
  assert (H1 : (c =? 304)%N = false) by (apply N.eqb_neq; lia).
  assert (H2 : (c =? 8490)%N = false) by (apply N.eqb_neq; lia).
  rewrite H1, H2. reflexivity.
Qed.

Lemma toLowerCase_slug (s : jsstring) :
  forallb slug_char s = true -> Str.toLowerCase s = s.
Proof.
  induction s as [| c s IH]; [reflexivity |]. cbn [forallb].
  intros H. apply andb_true_iff in H as [Hc Hs].
  cbn [Str.toLowerCase flat_map]. rewrite (slug_char_lower c Hc).
  cbn [app]. f_equal. apply IH. exact Hs.
Qed.

Lemma trimStart_slug (s : jsstring) : forallb slug_char s = true -> trimStart s = s.
Proof.
  destruct s as [| c s]; [reflexivity |]. cbn [forallb trimStart].
  intros H. apply andb_true_iff in H as [Hc _].
  rewrite (slug_char_not_whitespace c Hc). reflexivity.
Qed.

Lemma forallb_rev (p : N -> bool) (s : jsstring) :
  forallb p s = true -> forallb p (rev s) = true.
Proof.
  rewrite !forallb_forall. intros H c Hc. apply H, in_rev. exact Hc.
Qed.

Lemma trim_slug (s : jsstring) : forallb slug_char s = true -> trim s = s.
Proof.
  intros H. unfold trim, trimEnd. rewrite (trimStart_slug s H).
  rewrite (trimStart_slug (rev s) (forallb_rev _ _ H)). apply rev_involutive.
Qed.

Lemma replace_whitespace_slug (s : jsstring) :
  forallb slug_char s = true -> replace_whitespace s = s.
Proof.
  induction s as [| c s IH]; [reflexivity |]. cbn [forallb replace_whitespace].
  intros H. apply andb_true_iff in H as [Hc Hs].
  rewrite (slug_char_not_whitespace c Hc). f_equal. apply IH. exact Hs.
Qed.

Lemma remove_non_word_slug (s : jsstring) :
  forallb slug_char s = true -> remove_non_word s = s.
Proof.
  unfold remove_non_word.
  induction s as [| c s IH]; [reflexivity |]. cbn [forallb List.filter].
  intros H. apply andb_true_iff in H as [Hc Hs].
  assert (Hw : is_word c || (c =? dash)%N = true).
  { unfold slug_char in Hc. unfold is_word.
    destruct (Str.in_range 65 90 c), (Str.in_range 97 122 c), (Str.in_range 48 57 c),
      (c =? 95)%N, (c =? dash)%N; try reflexivity; discriminate Hc. }
  rewrite Hw. f_equal. apply IH. exact Hs.
Qed.

Lemma collapse_dashes_slug (s : jsstring) :
  no_double_dash s = true -> collapse_dashes s = s.
Proof.
  induction s as [| c s IH]; [reflexivity |].
  destruct s as [| c' s'].
  - intros _. cbn. destruct (c =? dash)%N; reflexivity.
  - change (no_double_dash (c :: c' :: s'))
      with (negb ((c =? dash)%N && (c' =? dash)%N) && no_double_dash (c' :: s')).
    intros H. apply andb_true_iff in H as [Hcc Hs].
    change (collapse_dashes (c :: c' :: s'))
      with (if (c =? dash)%N
            then if (c' =? dash)%N then collapse_dashes (c' :: s')
                 else c :: collapse_dashes (c' :: s')
            else c :: collapse_dashes (c' :: s')).
    rewrite (IH Hs).
    destruct (c =? dash)%N, (c' =? dash)%N; try reflexivity. discriminate Hcc.
Qed.

Lemma strip_leading_dashes_slug (s : jsstring) :
  head s <> Some dash -> strip_leading_dashes s = s.
Proof.
  destruct s as [| c s]; [reflexivity |]. cbn [head strip_leading_dashes].
  intros H. destruct (N.eqb_spec c dash) as [-> | Hne]; [congruence | reflexivity].
Qed.

(** A well-formed slug is left as it is. *)
Lemma slugify_slug (s : jsstring) : is_slug s -> slugify s = s.
Proof.
  intros (Hc & Hd & Hh & Hl). unfold slugify.
  rewrite (toLowerCase_slug s Hc), (trim_slug s Hc), (replace_whitespace_slug s Hc),
    (remove_non_word_slug s Hc), (collapse_dashes_slug s Hd),
    (strip_leading_dashes_slug s Hh).
  unfold strip_trailing_dashes. rewrite (strip_leading_dashes_slug (rev s) Hl).
  apply rev_involutive.
Qed.

End SlugFixpoint.

(** X29. [slugify] returns a well-formed slug whatever the text (only
    lower-case letters, digits, underscores and dashes, no dash at either
    end, no two dashes in a row); it leaves a well-formed slug as it is, so
    applying it twice is applying it once. *)
Theorem slugify_idempotent (text : jsstring) :
  Slug.is_slug (Slug.slugify text)
  /\ (forall s, Slug.is_slug s -> Slug.slugify s = s)
  /\ Slug.slugify (Slug.slugify text) = Slug.slugify text.
Proof.
  split; [apply slugify_well_formed |].
  split; [apply slugify_slug |].
  apply slugify_slug, slugify_well_formed.
Qed.

Lemma slugify_idempotent_witness :
  Slug.slugify (Str.lit "new-york_university-2") = Str.lit "new-york_university-2".
Proof.
  apply (proj1 (proj2 (slugify_idempotent []))).
  repeat split; try reflexivity; vm_compute; discriminate.
Defined.

Section UniqueSlug.

Import Slug.

Lemma jsstring_eqb_eq (a b : jsstring) : jsstring_eqb a b = true <-> a = b.
Proof.
  unfold jsstring_eqb. split.
  - intros H. apply andb_true_iff in H as [Hl Hs]. apply Nat.eqb_eq in Hl.
    revert b Hl Hs. induction a as [| x a IH]; intros [| y b] Hl Hs; try discriminate.
    + reflexivity.
    + cbn in Hs. apply andb_true_iff in Hs as [Hxy Hs]. apply N.eqb_eq in Hxy.
      f_equal; [exact Hxy | apply IH; [injection Hl; auto | exact Hs]].
  - intros <-. rewrite Nat.eqb_refl. cbn [andb].
    rewrite <- (app_nil_r a) at 2. apply starts_with_app. apply N.eqb_refl.
Qed.

Lemma counter_string_inj (i j : nat) : counter_string i = counter_string j -> i = j.
Proof.
  unfold counter_string, Str.lit. intros H.
  apply DecimalNat.Unsigned.to_uint_inj.
  assert (Hs : NilEmpty.string_of_uint (Nat.to_uint i)
               = NilEmpty.string_of_uint (Nat.to_uint j)).
  { rewrite <- (string_of_list_ascii_of_string (NilEmpty.string_of_uint (Nat.to_uint i))).
    rewrite <- (string_of_list_ascii_of_string (NilEmpty.string_of_uint (Nat.to_uint j))).
    f_equal.
    assert (Hinj : forall l l' : list ascii, map N_of_ascii l = map N_of_ascii l' -> l = l').
    { induction l as [| x l IH]; intros [| y l'] E; try discriminate; [reflexivity |].
      injection E as Exy E. f_equal; [| apply IH; exact E].
      rewrite <- (ascii_N_embedding x), <- (ascii_N_embedding y), Exy. reflexivity. }
    apply Hinj. exact H. }
  pose proof (NilEmpty.usu (Nat.to_uint i)) as Hi.
  pose proof (NilEmpty.usu (Nat.to_uint j)) as Hj.
  rewrite Hs in Hi. congruence.
Qed.

Lemma slug_candidate_inj (baseSlug : jsstring) (i j : nat) :
  slug_candidate baseSlug i = slug_candidate baseSlug j -> i = j.
Proof.
  destruct i as [| i], j as [| j]; cbn [slug_candidate]; intros H.
  - reflexivity.
  - apply (f_equal (@length N)) in H. rewrite !length_app in H. cbn [length] in H. lia.
  - apply (f_equal (@length N)) in H. rewrite !length_app in H. cbn [length] in H. lia.
  - apply app_inv_head in H. apply app_inv_head in H. apply counter_string_inj. exact H.
Qed.

(** When the first [i] candidates are all taken, the model holds at least
    [i] documents. *)
Lemma taken_candidates (Model : list doc) (baseSlug : jsstring)
    (excludeId : option ObjectId) (i : nat) :
  (forall j, (j < i)%nat ->
             Model_findOne Model (slug_candidate baseSlug j) excludeId <> None) ->
  (i <= length Model)%nat.
Proof.
  intros Htaken.
  assert (H : (length (map (slug_candidate baseSlug) (seq 0 i))
               <= length (map d_slug Model))%nat);
    [| rewrite !length_map, List.length_seq in H; exact H].
  apply List.NoDup_incl_length.
  - apply List.NoDup_map_NoDup_ForallPairs; [| apply List.seq_NoDup].
    intros a b _ _ Hab. apply (slug_candidate_inj baseSlug). exact Hab.
  - intros s Hs. apply in_map_iff in Hs as (j & <- & Hj). apply in_seq in Hj.
    specialize (Htaken j ltac:(lia)).
    unfold Model_findOne in Htaken.
    destruct (List.find _ Model) as [d |] eqn:Hf; [| congruence].
    apply find_some in Hf as [Hin Hq]. apply andb_true_iff in Hq as [Hq _].
    apply jsstring_eqb_eq in Hq. rewrite <- Hq. apply in_map. exact Hin.
Qed.

Lemma generateUniqueSlug_loop_spec (Model : list doc) (baseSlug : jsstring)
    (excludeId : option ObjectId) (fuel i : nat) :
  (forall j, (j < i)%nat ->
             Model_findOne Model (slug_candidate baseSlug j) excludeId <> None) ->
  (length Model < i + fuel)%nat ->
  exists k,
    (k <= length Model)%nat
    /\ generateUniqueSlug_loop fuel Model baseSlug excludeId (slug_candidate baseSlug i) (S i)
       = Some (slug_candidate baseSlug k)
    /\ Model_findOne Model (slug_candidate baseSlug k) excludeId = None
    /\ (forall j, (j < k)%nat ->
                  Model_findOne Model (slug_candidate baseSlug j) excludeId <> None).
Proof.
  revert i. induction fuel as [| fuel IH]; intros i Htaken Hlen.
  - pose proof (taken_candidates Model baseSlug excludeId i Htaken). lia.
  - cbn [generateUniqueSlug_loop].
    destruct (Model_findOne Model (slug_candidate baseSlug i) excludeId) as [d |] eqn:Hf.
    + change (slugify baseSlug ++ [dash] ++ counter_string (S i))
        with (slug_candidate baseSlug (S i)).
      apply IH; [| lia].
      intros j Hj. destruct (Nat.eq_dec j i) as [-> | Hne]; [congruence |].
      apply Htaken. lia.
    + exists i. split; [apply (taken_candidates Model baseSlug excludeId i Htaken) |].
      split; [reflexivity |]. split; [exact Hf | exact Htaken].
Qed.

End UniqueSlug.

(** X30. [generateUniqueSlug] terminates: on a model of n documents the
    loop returns within n + 1 queries.  The slug returned is the first
    candidate (the slug of the base, then the slug with -1, -2, ...) that no
    document has, apart from the excluded one. *)
Theorem generateUniqueSlug_terminates (Model : list Slug.doc) (baseSlug : jsstring)
    (excludeId : option ObjectId) (fuel : nat) :
  (length Model < fuel)%nat ->
  exists k,
    (k <= length Model)%nat
    /\ Slug.generateUniqueSlug fuel Model baseSlug excludeId
       = Some (slug_candidate baseSlug k)
    /\ Slug.Model_findOne Model (slug_candidate baseSlug k) excludeId = None
    /\ (forall j, (j < k)%nat ->
                  Slug.Model_findOne Model (slug_candidate baseSlug j) excludeId <> None).
Proof.
  intros Hfuel. unfold Slug.generateUniqueSlug.
  apply (generateUniqueSlug_loop_spec Model baseSlug excludeId fuel 0).
  - intros j Hj. lia.
  - lia.
Qed.

Lemma generateUniqueSlug_terminates_witness :
  exists k,
    (k <= 2)%nat
    /\ Slug.generateUniqueSlug 3
         [Slug.mkDoc 1 (Str.lit "mit"); Slug.mkDoc 2 (Str.lit "mit-1")] (Str.lit "MIT") None
       = Some (slug_candidate (Str.lit "MIT") k).
Proof.
  destruct (generateUniqueSlug_terminates
              [Slug.mkDoc 1 (Str.lit "mit"); Slug.mkDoc 2 (Str.lit "mit-1")]
              (Str.lit "MIT") None 3 ltac:(cbn; lia)) as (k & Hk & Hr & _).
  exists k. split; [exact Hk | exact Hr].
Defined.
